(** * NMRP codec and handshake of nmrpflash (src/nmrp.c)

    A shallow embedding of [nmrp.c]: the packed structs are byte buffers
    ([list Z], one entry per byte), struct members are read and written at
    their offsets, the socket is a queue of arrival events and [nmrp_do]
    threads an explicit world.  The host is little-endian, so [htons] and
    [ntohs] exchange the two bytes of a 16-bit value. *)

From Stdlib Require Import ZArith Lia Bool List.
From stdpp Require Import base list.
Import ListNotations.
Open Scope Z_scope.

(** ** Outcome of running a piece of C code *)

(** [Undefined] stands for an access outside the object a pointer refers to
    (undefined behaviour in C); [OutOfFuel] for a loop that was cut by the
    model's iteration budget. *)
Inductive exec (A : Type) : Type :=
| Returns (a : A)
| Undefined
| OutOfFuel.
Arguments Returns {A} a.
Arguments Undefined {A}.
Arguments OutOfFuel {A}.

#[global] Instance exec_ret : MRet exec := fun A a => Returns a.
#[global] Instance exec_bind : MBind exec := fun A B k e =>
  match e with
  | Returns a => k a
  | Undefined => Undefined
  | OutOfFuel => OutOfFuel
  end.

(** ** Byte-addressed memory *)

Module Mem.

Definition byte_ok (v : Z) : Prop := 0 <= v < 256.
Definition bytes_ok (b : list Z) : Prop := Forall byte_ok b.

(** [uint8_t] load and store; a store keeps the low eight bits. *)
Definition get8 (b : list Z) (o : nat) : Z := default 0 (b !! o).
Definition set8 (b : list Z) (o : nat) (v : Z) : list Z := <[o := v mod 256]> b.

(** [uint16_t] load and store in host (little-endian) order. *)
Definition get16 (b : list Z) (o : nat) : Z := get8 b o + 256 * get8 b (S o).
Definition set16 (b : list Z) (o : nat) (v : Z) : list Z :=
  set8 (set8 b o v) (S o) (v / 256).

(** [uint32_t] load and store in host order. *)
Definition get32 (b : list Z) (o : nat) : Z :=
  get16 b o + 65536 * get16 b (o + 2).
Definition set32 (b : list Z) (o : nat) (v : Z) : list Z :=
  set16 (set16 b o v) (o + 2) (v / 65536).

(** [memcpy(b + o, src, length src)] inside [b]. *)
Definition memcpy (b : list Z) (o : nat) (src : list Z) : list Z :=
  take o b ++ take (length b - o) src ++ drop (o + length src) b.

(** [memcmp(a, b, n) == 0] *)
Definition memeq (a b : list Z) (n : nat) : bool := bool_decide (take n a = take n b).

End Mem.
Import Mem.

(** [htons] and [ntohs] on a little-endian host: the same byte exchange. *)
Definition htons (x : Z) : Z := 256 * (x mod 256) + (x / 256) mod 256.
Definition ntohs (x : Z) : Z := htons x.

(** ** Constants and struct layout *)

Definition NMRP_HDR_LEN : Z := 6.
Definition NMRP_OPT_LEN : Z := 4.
Definition ETH_HLEN : nat := 14.                 (* sizeof(struct ether_header) *)
Definition NMRP_MIN_PKT_LEN : Z := 14 + NMRP_HDR_LEN.
Definition ETH_P_NMRP : Z := 0x0912.
Definition IP_LEN : nat := 4.
Definition ETH_ALEN : nat := 6.

Definition NMRP_C_NONE : Z := 0.
Definition NMRP_C_ADVERTISE : Z := 1.
Definition NMRP_C_CONF_REQ : Z := 2.
Definition NMRP_C_CONF_ACK : Z := 3.
Definition NMRP_C_CLOSE_REQ : Z := 4.
Definition NMRP_C_CLOSE_ACK : Z := 5.
Definition NMRP_C_KEEP_ALIVE_REQ : Z := 6.
Definition NMRP_C_KEEP_ALIVE_ACK : Z := 7.
Definition NMRP_C_TFTP_UL_REQ : Z := 16.

Definition NMRP_O_MAGIC_NO : Z := 0x0001.
Definition NMRP_O_DEV_IP : Z := 0x0002.
Definition NMRP_O_DEV_REGION : Z := 0x0004.
Definition NMRP_O_FW_UP : Z := 0x0101.
Definition NMRP_O_ST_UP : Z := 0x0102.
Definition NMRP_O_FILE_NAME : Z := 0x0181.

(** [struct nmrp_opt] (packed): type at 0, len at 2, val at 4 (8 bytes). *)
Definition sizeof_nmrp_opt : nat := 12.
Definition opt_type_off : nat := 0.
Definition opt_len_off : nat := 2.
Definition opt_val_off : nat := 4.

(** [struct nmrp_msg] (packed): reserved at 0, code at 2, id at 3, len at 4,
    opts[2] at 6, num_opts at 30. *)
Definition opts_capacity : nat := 2.
Definition reserved_off : nat := 0.
Definition code_off : nat := 2.
Definition id_off : nat := 3.
Definition len_off : nat := 4.
Definition opts_off : nat := 6.
Definition num_opts_off : nat := 30.
Definition sizeof_nmrp_msg : nat := 34.

(** Address of [msg->opts[i]] relative to [msg]. *)
Definition opt_at (i : nat) : nat := (opts_off + i * sizeof_nmrp_opt)%nat.

Definition msg_reserved (m : list Z) : Z := get16 m reserved_off.
Definition msg_code (m : list Z) : Z := get8 m code_off.
Definition msg_id (m : list Z) : Z := get8 m id_off.
Definition msg_len (m : list Z) : Z := get16 m len_off.
Definition msg_num_opts (m : list Z) : Z := get32 m num_opts_off.
Definition opt_type (m : list Z) (i : nat) : Z := get16 m (opt_at i + opt_type_off).
Definition opt_len (m : list Z) (i : nat) : Z := get16 m (opt_at i + opt_len_off).
Definition opt_val (m : list Z) (i : nat) : list Z :=
  take 8 (drop (opt_at i + opt_val_off) m).

(** ** Message codec *)

(** [msg_update_len]: the loop body runs [num_opts] times; [opts[i]] with
    [i] beyond the array is an access outside [opts]. *)
Fixpoint msg_update_len_loop (n i : nat) (m : list Z) : exec (list Z) :=
  match n with
  | O => Returns m
  | S n' =>
      if (i <? opts_capacity)%nat
      then msg_update_len_loop n' (S i)
             (set16 m len_off (get16 m len_off + get16 m (opt_at i + opt_len_off)))
      else Undefined
  end.

Definition msg_update_len (m : list Z) : exec (list Z) :=
  msg_update_len_loop (Z.to_nat (msg_num_opts m)) 0 (set16 m len_off NMRP_HDR_LEN).

(** [msg_hton] *)
Fixpoint msg_hton_loop (n i : nat) (m : list Z) : exec (list Z) :=
  match n with
  | O => Returns m
  | S n' =>
      if (i <? opts_capacity)%nat
      then
        let m1 := set16 m (opt_at i + opt_len_off)
                    (htons (get16 m (opt_at i + opt_len_off))) in
        let m2 := set16 m1 (opt_at i + opt_type_off)
                    (htons (get16 m1 (opt_at i + opt_type_off))) in
        msg_hton_loop n' (S i) m2
      else Undefined
  end.

Definition msg_hton (m : list Z) : exec (list Z) :=
  let m1 := set16 m reserved_off (htons (get16 m reserved_off)) in
  let m2 := set16 m1 len_off (htons (get16 m1 len_off)) in
  msg_hton_loop (Z.to_nat (msg_num_opts m2)) 0 m2.

(** [msg_hdr_ntoh] *)
Definition msg_hdr_ntoh (m : list Z) : list Z :=
  let m1 := set16 m reserved_off (ntohs (get16 m reserved_off)) in
  set16 m1 len_off (ntohs (get16 m1 len_off)).

(** [msg_ntoh]: the two diagnostics it prints before [return 1] are kept
    apart; [ntoh_ret] is the integer it returns. *)
Inductive ntoh_result : Type :=
| NtohOk            (* return 0 *)
| NtohMalformed     (* "Malformed message." *)
| NtohTrailing.     (* "Trailing data in message." *)

Definition ntoh_ret (r : ntoh_result) : Z :=
  match r with NtohOk => 0 | _ => 1 end.

(** The loop state: the message, the cursor [opt] (as an offset from [msg])
    and [remaining]. *)
Record ntoh_state : Type := {
  ns_msg : list Z;
  ns_opt : nat;
  ns_remaining : Z
}.

Inductive ntoh_next : Type :=
| NtohContinue (s : ntoh_state)
| NtohReturn (r : ntoh_result) (m : list Z)
| NtohUndefined.

(** One evaluation of the loop test and, when it holds, of the loop body.
    The code puts no bound on [opt]: after [opts[0]] and [opts[1]] the
    cursor is at offset 30, where [opt->type] and [opt->len] are the four
    bytes of [num_opts], still inside the struct, and the code converts
    them like any option header.  The next cursor, 42, is past the end of
    the struct (and of [rx], whose last member it is); a dereference there
    is [NtohUndefined]. *)
Definition msg_ntoh_step (s : ntoh_state) : ntoh_next :=
  let m := ns_msg s in
  let opt := ns_opt s in
  let remaining := ns_remaining s in
  if 0 <? remaining then
    if remaining <? NMRP_OPT_LEN then NtohReturn NtohMalformed m
    else if (opt + opt_val_off <=? sizeof_nmrp_msg)%nat then
      let m1 := set16 m (opt + opt_type_off)
                  (ntohs (get16 m (opt + opt_type_off))) in
      let m2 := set16 m1 (opt + opt_len_off)
                  (ntohs (get16 m1 (opt + opt_len_off))) in
      NtohContinue {| ns_msg := m2;
                      ns_opt := opt + sizeof_nmrp_opt;
                      ns_remaining := remaining - get16 m2 (opt + opt_len_off) |}
    else NtohUndefined
  else if remaining =? 0 then NtohReturn NtohOk m
  else NtohReturn NtohTrailing m.

Fixpoint msg_ntoh_loop (fuel : nat) (s : ntoh_state) : exec (ntoh_result * list Z) :=
  match msg_ntoh_step s with
  | NtohReturn r m => Returns (r, m)
  | NtohUndefined => Undefined
  | NtohContinue s' =>
      match fuel with
      | O => OutOfFuel
      | S fuel' => msg_ntoh_loop fuel' s'
      end
  end.

Definition msg_ntoh_init (m : list Z) : ntoh_state :=
  let m1 := msg_hdr_ntoh m in
  {| ns_msg := m1; ns_opt := opts_off;
     ns_remaining := get16 m1 len_off - NMRP_HDR_LEN |}.

(** The cursor can be advanced once more than [opts_capacity] times before
    it leaves the struct, so that many iterations of fuel are enough
    ([msg_ntoh_fuel] below). *)
Definition msg_ntoh (m : list Z) : exec (ntoh_result * list Z) :=
  msg_ntoh_loop (S opts_capacity) (msg_ntoh_init m).

(** [msg_dump(msg, dump_opts)]: the option walk of the diagnostic dump,
    which advances the cursor by each option's declared length.  The result
    lists what it prints per option: offset, type, len and the payload
    bytes.  With a declared length below [NMRP_OPT_LEN] the byte loop
    [for (i = 0; i != len - NMRP_OPT_LEN; ++i)] runs off the buffer. *)
Fixpoint msg_dump_opts (fuel : nat) (m : list Z) (opt : nat) (remain_len : Z)
  : exec (list (nat * Z * Z * list Z)) :=
  if 0 <? remain_len then
    match fuel with
    | O => OutOfFuel
    | S fuel' =>
        if (opt + opt_val_off <=? length m)%nat then
          let len := get16 m (opt + opt_len_off) in
          if (len <? NMRP_OPT_LEN) || (length m <? opt + Z.to_nat len)%nat
          then Undefined
          else
            rest ← msg_dump_opts fuel' m (opt + Z.to_nat len) (remain_len - len);
            Returns ((opt, get16 m (opt + opt_type_off), len,
                      take (Z.to_nat (len - NMRP_OPT_LEN)) (drop (opt + opt_val_off) m))
                     :: rest)
        else Undefined
    end
  else Returns [].

Definition msg_dump (fuel : nat) (m : list Z) (dump_opts : bool)
  : exec (list (nat * Z * Z * list Z)) :=
  if dump_opts then msg_dump_opts fuel m opts_off (msg_len m - NMRP_HDR_LEN)
  else Returns [].

(** The two calls every sender in [nmrp_do] makes before [pkt_send]:
    [msg_update_len(&tx.msg); msg_hton(&tx.msg);]. *)
Definition msg_encode (m : list Z) : exec (list Z) :=
  m1 ← msg_update_len m; msg_hton m1.

(** ** Packets *)

(** [struct nmrp_pkt] (packed): the Ethernet header (destination, source,
    ether_type) followed by the message. *)
Record nmrp_pkt : Type := {
  eh : list Z;
  msg : list Z
}.

Definition sizeof_nmrp_pkt : nat := ETH_HLEN + sizeof_nmrp_msg.

Definition ether_dhost (p : nmrp_pkt) : list Z := take ETH_ALEN (eh p).
Definition ether_shost (p : nmrp_pkt) : list Z := take ETH_ALEN (drop ETH_ALEN (eh p)).
Definition ether_type (p : nmrp_pkt) : Z := get16 (eh p) 12.

Definition pkt_bytes (p : nmrp_pkt) : list Z := eh p ++ msg p.
Definition pkt_of_bytes (b : list Z) : nmrp_pkt :=
  {| eh := take ETH_HLEN b; msg := drop ETH_HLEN b |}.

(** [memset(pkt, 0, sizeof(struct nmrp_pkt))] *)
Definition pkt_zero : nmrp_pkt := pkt_of_bytes (repeat 0 sizeof_nmrp_pkt).

(** The kernel copying [data] to the start of [*pkt]. *)
Definition pkt_store (p : nmrp_pkt) (data : list Z) : nmrp_pkt :=
  pkt_of_bytes (data ++ drop (length data) (pkt_bytes p)).

Definition set_msg (p : nmrp_pkt) (m : list Z) : nmrp_pkt :=
  {| eh := eh p; msg := m |}.

(** ** The raw socket *)

Definition EAGAIN : Z := 11.

(** What the next [recvfrom] finds: a frame that has arrived, or a failure
    with the given [errno] ([EAGAIN] when the receive timeout runs out
    first).  An empty queue is a link that stays silent. *)
Inductive sock_event : Type :=
| Datagram (d : list Z)
| RecvError (errno : Z).

(** [recvfrom(sock, pkt, len, flags, ...)] on a packet socket: the result is
    the byte count (or -1), [errno], the buffer and the queue.  With
    [MSG_PEEK] the frame stays queued; otherwise it is removed whole, also
    when it is longer than [len].  Copying more than [sizeof(struct nmrp_pkt)] bytes
    writes past the buffer. *)
Definition recvfrom (q : list sock_event) (p : nmrp_pkt) (len : Z) (peek : bool)
  : exec (Z * Z * nmrp_pkt * list sock_event) :=
  match q with
  | [] => Returns (-1, EAGAIN, p, [])
  | RecvError e :: q' => Returns (-1, e, p, q')
  | Datagram d :: q' =>
      let n := Z.min len (Z.of_nat (length d)) in
      if Z.of_nat sizeof_nmrp_pkt <? n then Undefined
      else Returns (n, 0, pkt_store p (take (Z.to_nat n) d), if peek then q else q')
  end.

(** [pkt_recv]: the result is the returned integer, [*pkt] and the queue. *)
Definition pkt_recv (q : list sock_event) : exec (Z * nmrp_pkt * list sock_event) :=
  let pkt := pkt_zero in
  '(bytes, errno, pkt, q1) ← recvfrom q pkt NMRP_MIN_PKT_LEN true;
  if bytes <? 0 then
    if errno =? EAGAIN then Returns (2, pkt, q1) else Returns (1, pkt, q1)
  else if negb (ntohs (ether_type pkt) =? ETH_P_NMRP) then Returns (3, pkt, q1)
  else if bytes <? NMRP_MIN_PKT_LEN then Returns (1, pkt, q1)
  else
    let pkt := set_msg pkt (msg_hdr_ntoh (msg pkt)) in
    let len := msg_len (msg pkt) + Z.of_nat ETH_HLEN in
    '(bytes, errno, pkt, q2) ← recvfrom q1 pkt len false;
    if bytes <? 0 then Returns (1, pkt, q2)
    else if negb (bytes =? len) then Returns (1, pkt, q2)
    else
      '(r, m) ← msg_ntoh (msg pkt);
      Returns (ntoh_ret r, set_msg pkt m, q2).

(** ** The world around [nmrp_do] *)

(** Results of the calls whose code is not in [nmrp.c]. *)
Record environment : Type := {
  socket_fails : bool;               (* socket() returns -1 *)
  intf_info : option (list Z);       (* intf_get_info: the hardware address, or failure *)
  bind_fails : bool;                 (* sock_bind_to_intf returns non-zero *)
  set_rx_timeout_fails : bool;       (* the first sock_set_rx_timeout returns non-zero *)
  sendto_fails : nat -> bool;        (* sendto, by the number of earlier calls *)
  transfer_result : nat -> Z;        (* tftp_put / system, by the number of earlier calls *)
  clock : nat -> Z                   (* time(NULL), by the number of earlier calls *)
}.

(** What the program does to the world, in order. *)
Inductive action : Type :=
| ASocket (ok : bool)
| ASendto (dst : list Z) (frame : list Z) (ok : bool)
| ARecv (err : Z) (rx : nmrp_pkt)
| ATime (t : Z)
| ATransfer (res : Z)
| ASetRxTimeout (t : Z)
| AClose.

Record world : Type := {
  w_rxq : list sock_event;
  w_trace : list action
}.

Definition log (w : world) (a : action) : world :=
  {| w_rxq := w_rxq w; w_trace := w_trace w ++ [a] |}.

Definition is_sendto (a : action) : bool :=
  match a with ASendto _ _ _ => true | _ => false end.
Definition is_time (a : action) : bool :=
  match a with ATime _ => true | _ => false end.
Definition is_transfer (a : action) : bool :=
  match a with ATransfer _ => true | _ => false end.
Definition is_close (a : action) : bool :=
  match a with AClose => true | _ => false end.

Definition count (f : action -> bool) (t : list action) : nat :=
  length (filter (fun a => f a = true) t).

(** [time(NULL)] *)
Definition time (env : environment) (w : world) : Z * world :=
  let t := clock env (count is_time (w_trace w)) in (t, log w (ATime t)).

(** [tftp_put(args)] or [system(args->tftpcmd)] *)
Definition transfer (env : environment) (w : world) : Z * world :=
  let r := transfer_result env (count is_transfer (w_trace w)) in
  (r, log w (ATransfer r)).

(** [pkt_send]: [sendto] of the first [ntohs(msg.len) + sizeof(eh)] bytes of
    [*pkt] to the link-layer address [addr]. *)
Definition pkt_send (env : environment) (w : world) (addr : list Z) (pkt : nmrp_pkt)
  : exec (Z * world) :=
  let len := (Z.to_nat (ntohs (msg_len (msg pkt))) + ETH_HLEN)%nat in
  if (sizeof_nmrp_pkt <? len)%nat then Undefined
  else
    let fails := sendto_fails env (count is_sendto (w_trace w)) in
    Returns (if fails then -1 else Z.of_nat len,
             log w (ASendto addr (take len (pkt_bytes pkt)) (negb fails))).

Definition pkt_recv_world (w : world) : exec (Z * nmrp_pkt * world) :=
  '(err, rx, q) ← pkt_recv (w_rxq w);
  Returns (err, rx, {| w_rxq := q; w_trace := w_trace w ++ [ARecv err rx] |}).

(** The fields of [struct nmrpd_args] that [nmrp_do] uses.  The texts it
    parses ([mac_parse], [inet_aton], [access]) enter as their outcomes. *)
Record nmrpd_args : Type := {
  op_is_upload_fw : bool;            (* args->op == NMRP_UPLOAD_FW *)
  mac : option (list Z);             (* mac_parse(args->mac, dest) *)
  ipaddr : option (list Z);          (* inet_aton(args->ipaddr, &ipaddr) *)
  ipmask : option (list Z);          (* inet_aton(args->ipmask, &ipmask) *)
  file_readable : bool;              (* access(args->filename, R_OK) != -1 *)
  tftpcmd : bool;                    (* args->tftpcmd != NULL *)
  rx_timeout : Z;
  ul_timeout : Z
}.

(** ** The advertising loop *)

Inductive adv_result : Type :=
| AdvBreak (rx : nmrp_pkt) (w : world)      (* break: a reply for us *)
| AdvOut (err : Z) (w : world).             (* goto out *)

Fixpoint advertise_loop (fuel : nat) (env : environment) (src addr : list Z)
    (tx : nmrp_pkt) (beg err : Z) (w : world) : exec adv_result :=
  match fuel with
  | O => OutOfFuel
  | S fuel' =>
      '(sent, w1) ← pkt_send env w addr tx;
      if sent <? 0 then Returns (AdvOut err w1)
      else
        '(err1, rx, w2) ← pkt_recv_world w1;
        if (err1 =? 0) && memeq (ether_dhost rx) src ETH_ALEN then Returns (AdvBreak rx w2)
        else if err1 =? 1 then Returns (AdvOut err1 w2)
        else
          let '(now, w3) := time env w2 in
          if 60 <=? now - beg then Returns (AdvOut err1 w3)
          else advertise_loop fuel' env src addr tx beg err1 w3
  end.

(** ** The handshake loop *)

(** The locals of [nmrp_do] that live across iterations. *)
Record session : Type := {
  expect : Z;
  ulreqs : Z;
  peer : list Z;                     (* addr.sll_addr *)
  tx : nmrp_pkt
}.

Inductive switch_result : Type :=
| SwOut (err : Z) (w : world)                     (* goto out *)
| SwNext (st : session) (err : Z) (w : world).    (* break out of the switch *)

Definition set_tx_msg (st : session) (m : list Z) : session :=
  {| expect := expect st; ulreqs := ulreqs st; peer := peer st;
     tx := set_msg (tx st) m |}.

(** The assignments to [tx.msg] at the top of the loop body. *)
Definition tx_reset (m : list Z) : list Z :=
  let m := set8 m code_off NMRP_C_NONE in
  let m := set16 m reserved_off 0 in
  let m := set8 m id_off 0 in
  let m := set32 m num_opts_off 0 in
  set16 m len_off 0.

(** The [switch (rx.msg.code)] of the loop body; [err] is 1 on entry. *)
Definition handle_code (env : environment) (args : nmrpd_args)
    (ip mask : list Z) (st : session) (rx : nmrp_pkt) (w : world) : switch_result :=
  let code := msg_code (msg rx) in
  let m := msg (tx st) in
  if code =? NMRP_C_ADVERTISE then SwOut 1 w
  else if code =? NMRP_C_CONF_REQ then
    let m := set8 m code_off NMRP_C_CONF_ACK in
    let m := set32 m num_opts_off 2 in
    let m := set16 m (opt_at 0 + opt_type_off) NMRP_O_DEV_IP in
    let m := set16 m (opt_at 0 + opt_len_off) (NMRP_OPT_LEN + 2 * Z.of_nat IP_LEN) in
    let m := memcpy m (opt_at 0 + opt_val_off) (take IP_LEN ip) in
    let m := memcpy m (opt_at 0 + opt_val_off + IP_LEN) (take IP_LEN mask) in
    let m := set16 m (opt_at 1 + opt_type_off) NMRP_O_FW_UP in
    let m := set16 m (opt_at 1 + opt_len_off) NMRP_OPT_LEN in
    SwNext {| expect := NMRP_C_TFTP_UL_REQ; ulreqs := ulreqs st;
              peer := ether_shost rx;
              tx := {| eh := memcpy (eh (tx st)) 0 (ether_shost rx); msg := m |} |}
           1 w
  else if code =? NMRP_C_TFTP_UL_REQ then
    let n := ulreqs st + 1 in
    if 5 <? n then
      SwNext {| expect := expect st; ulreqs := n; peer := peer st;
                tx := set_msg (tx st) (set8 m code_off NMRP_C_CLOSE_REQ) |} 1 w
    else
      let '(err, w1) := transfer env w in
      if err =? 0 then
        SwNext {| expect := NMRP_C_CLOSE_REQ; ulreqs := n; peer := peer st;
                  tx := tx st |}
               err (log w1 (ASetRxTimeout (ul_timeout args)))
      else SwOut err w1
  else if code =? NMRP_C_KEEP_ALIVE_REQ then
    SwNext (set_tx_msg st (set8 m code_off NMRP_C_KEEP_ALIVE_ACK)) 1 w
  else if code =? NMRP_C_CLOSE_REQ then
    SwNext (set_tx_msg st (set8 m code_off NMRP_C_CLOSE_ACK)) 1 w
  else if code =? NMRP_C_CLOSE_ACK then SwOut 0 w
  else SwNext st 1 w.

(** The [do ... while (1)] loop; the result is [err] at the label [out]. *)
Fixpoint handshake_loop (fuel : nat) (env : environment) (args : nmrpd_args)
    (ip mask : list Z) (st : session) (rx : nmrp_pkt) (w : world)
  : exec (Z * world) :=
  match fuel with
  | O => OutOfFuel
  | S fuel' =>
      let st0 := set_tx_msg st (tx_reset (msg (tx st))) in
      match handle_code env args ip mask st0 rx w with
      | SwOut err w1 => Returns (err, w1)
      | SwNext st1 err w1 =>
          '(sent, st2, w2) ←
            (if negb (msg_code (msg (tx st1)) =? NMRP_C_NONE) then
               m ← msg_encode (msg (tx st1));
               let st2 := set_tx_msg st1 m in
               '(sent, w2) ← pkt_send env w1 (peer st2) (tx st2);
               Returns (sent, st2, w2)
             else Returns (0, st1, w1));
          if sent <? 0 then Returns (err, w2)
          else if msg_code (msg rx) =? NMRP_C_CLOSE_REQ then Returns (0, w2)
          else
            '(err2, rx2, w3) ← pkt_recv_world w2;
            if negb (err2 =? 0) then Returns (err2, w3)
            else
              handshake_loop fuel' env args ip mask st2 rx2
                (log w3 (ASetRxTimeout (rx_timeout args)))
      end
  end.

(** ** [nmrp_do] *)

(** [tx] as it is when the advertising loop starts.  The bytes of the
    automatic variable that the code never assigns are taken to be zero;
    none of them is ever sent. *)
Definition advertise_pkt (src dest : list Z) : exec nmrp_pkt :=
  let e := repeat 0 ETH_HLEN in
  let e := memcpy e ETH_ALEN (take ETH_ALEN src) in
  let e := memcpy e 0 (take ETH_ALEN dest) in
  let e := set16 e 12 (htons ETH_P_NMRP) in
  let m := repeat 0 sizeof_nmrp_msg in
  let m := set16 m reserved_off 0 in
  let m := set8 m code_off NMRP_C_ADVERTISE in
  let m := set8 m id_off 0 in
  let m := set32 m num_opts_off 1 in
  let m := set16 m (opt_at 0 + opt_type_off) NMRP_O_MAGIC_NO in
  let m := set16 m (opt_at 0 + opt_len_off) (NMRP_OPT_LEN + 4) in
  let m := memcpy m (opt_at 0 + opt_val_off) [78; 84; 71; 82] in   (* 'N' 'T' 'G' 'R' *)
  m ← msg_encode m;
  Returns {| eh := e; msg := m |}.

(** The result is the returned integer and the world; everything from
    [socket()] on is in the trace. *)
Definition nmrp_do (fuel : nat) (env : environment) (args : nmrpd_args) (w : world)
  : exec (Z * world) :=
  if negb (op_is_upload_fw args) then Returns (1, w) else
  match mac args, ipaddr args, ipmask args with
  | Some dest, Some ip, Some mask =>
      if negb (file_readable args) then Returns (1, w) else
      if socket_fails env then Returns (1, log w (ASocket false)) else
      let w := log w (ASocket true) in
      match intf_info env with
      | None => Returns (1, w)
      | Some src =>
          if bind_fails env then Returns (1, w) else
          let w := log w (ASetRxTimeout (rx_timeout args)) in
          if set_rx_timeout_fails env then Returns (1, w) else
          tx0 ← advertise_pkt src dest;
          let '(beg, w) := time env w in
          r ← advertise_loop fuel env src (take ETH_ALEN dest) tx0 beg 1 w;
          match r with
          | AdvOut err w => Returns (err, log w AClose)
          | AdvBreak rx w =>
              '(err, w) ← handshake_loop fuel env args ip mask
                 {| expect := NMRP_C_CONF_REQ; ulreqs := 0;
                    peer := take ETH_ALEN dest; tx := tx0 |} rx w;
              Returns (err, log w AClose)
          end
      end
  | _, _, _ => Returns (1, w)
  end.

(** ** Vocabulary of the properties *)

(** Sum of the declared lengths of the first [n] options. *)
Fixpoint opts_len_sum (m : list Z) (n : nat) : Z :=
  match n with
  | O => 0
  | S k => opts_len_sum m k + opt_len m k
  end.

(** A message as [nmrp_do] builds it: the struct's bytes, at most
    [opts_capacity] options, each with a declared length of at least the
    option header, and [len] in line with them. *)
Record valid_msg (m : list Z) : Prop := {
  vm_size : length m = sizeof_nmrp_msg;
  vm_bytes : bytes_ok m;
  vm_capacity : msg_num_opts m <= Z.of_nat opts_capacity;
  vm_opts : forall i : nat, Z.of_nat i < msg_num_opts m -> NMRP_OPT_LEN <= opt_len m i;
  vm_len : msg_len m = NMRP_HDR_LEN + opts_len_sum m (Z.to_nat (msg_num_opts m))
}.

(** The statement [x = htons(x)] on the 16-bit member at offset [o]. *)
Definition bswap16 (b : list Z) (o : nat) : list Z := set16 b o (htons (get16 b o)).

(** A stack of such statements at the offsets [os], the last executed first. *)
Definition bswaps (os : list nat) (b : list Z) : list Z :=
  foldr (fun o acc => bswap16 acc o) b os.

(** Two 16-bit members that do not overlap. *)
Definition apart (o o' : nat) : Prop := o' <> o /\ o' <> S o /\ S o' <> o.

(** The offsets [msg_hton] touches for [n] options, the last executed first. *)
Definition hton_offsets (n : nat) : list nat :=
  match n with
  | O => [4; 0]
  | S O => [6; 8; 4; 0]
  | _ => [18; 20; 6; 8; 4; 0]
  end%nat.

(** The state after one full iteration of the loop of [msg_ntoh]. *)
Definition ntoh_advance (s : ntoh_state) : ntoh_state :=
  let m2 := bswap16 (bswap16 (ns_msg s) (ns_opt s)) (ns_opt s + 2) in
  {| ns_msg := m2; ns_opt := ns_opt s + sizeof_nmrp_opt;
     ns_remaining := ns_remaining s - get16 m2 (ns_opt s + 2) |}.

(** [*pkt] after the [MSG_PEEK] read of the frame [d]. *)
Definition peeked (d : list Z) : nmrp_pkt :=
  pkt_store pkt_zero (take (Z.to_nat NMRP_MIN_PKT_LEN) d).

(** A packet whose two parts have the sizes of the struct's members. *)
Definition wf_pkt (p : nmrp_pkt) : Prop :=
  length (eh p) = ETH_HLEN /\ length (msg p) = sizeof_nmrp_msg.

(** The cursor and [remaining] at each evaluation of the loop test of
    [msg_ntoh], read off [msg_ntoh_step]. *)
Fixpoint msg_ntoh_trace (fuel : nat) (s : ntoh_state) : list (nat * Z) :=
  (ns_opt s, ns_remaining s) ::
  match msg_ntoh_step s with
  | NtohContinue s' =>
      match fuel with
      | O => []
      | S fuel' => msg_ntoh_trace fuel' s'
      end
  | _ => []
  end.

(** The operation code of every frame handed to [sendto], in order. *)
Definition sent_codes (t : list action) : list Z :=
  omap (fun a => match a with
                 | ASendto _ f _ => Some (get8 f (ETH_HLEN + code_off))
                 | _ => None
                 end) t.

(** The running remainders at the four evaluations of the loop test that
    the struct allows, from the fields of the received message: before
    [opts[0]], after it, after [opts[1]], and after the header the cursor
    finds in the bytes of [num_opts] ([opt_len m 2] reads offset 32). *)
Definition remainders (m : list Z) : list Z :=
  let r0 := ntohs (get16 m len_off) - NMRP_HDR_LEN in
  let r1 := r0 - ntohs (opt_len m 0) in
  let r2 := r1 - ntohs (opt_len m 1) in
  let r3 := r2 - ntohs (opt_len m 2) in
  [r0; r1; r2; r3].

(** The outcome the loop reaches on these remainders; [None] when none of
    them ends the walk. *)
Fixpoint classify (rs : list Z) : option ntoh_result :=
  match rs with
  | [] => None
  | r :: rs' =>
      if 0 <? r then
        if r <? NMRP_OPT_LEN then Some NtohMalformed else classify rs'
      else if r =? 0 then Some NtohOk else Some NtohTrailing
  end.

(** How often the trace closes the socket. *)
Definition closes (w : world) : nat := count is_close (w_trace w).

(** ** Scenarios *)

Module Scenario.

Definition local_hw : list Z := [2; 0; 0; 0; 0; 1].
Definition device_hw : list Z := [160; 33; 183; 1; 2; 3].
Definition broadcast_hw : list Z := [255; 255; 255; 255; 255; 255].

(** A frame as it is on the wire: Ethernet header, message header with the
    length in network order, options packed one after the other. *)
Definition frame (dst src : list Z) (code : Z) (opts : list Z) : list Z :=
  dst ++ src ++ [9; 18] ++
  [0; 0; code; 0;
   (NMRP_HDR_LEN + Z.of_nat (length opts)) / 256;
   (NMRP_HDR_LEN + Z.of_nat (length opts)) mod 256] ++ opts.

(** Options on the wire: firmware-upload (4 bytes), magic number (8 bytes),
    and a magic-number header that declares the length 0. *)
Definition fw_up_opt : list Z := [1; 1; 0; 4].
Definition magic_opt : list Z := [0; 1; 0; 8; 78; 84; 71; 82].
Definition zero_len_opt : list Z := [0; 1; 0; 0].

(** [rx.msg] once the kernel has copied a frame into the zeroed [rx]. *)
Definition received (f : list Z) : list Z := msg (pkt_store pkt_zero f).

Definition two_opts_frame : list Z :=
  frame local_hw device_hw NMRP_C_CONF_REQ (fw_up_opt ++ magic_opt).
Definition zero_len_frame : list Z :=
  frame local_hw device_hw NMRP_C_CONF_REQ zero_len_opt.
Definition magic_frame : list Z :=
  frame local_hw device_hw NMRP_C_CONF_REQ magic_opt.

(** The message of [two_opts_frame] with the header and both option
    headers in host order, the options still packed as on the wire. *)
Definition two_opts_host : list Z :=
  [0; 0; 2; 0; 18; 0] ++ [1; 1; 4; 0] ++ [1; 0; 8; 0; 78; 84; 71; 82]
  ++ repeat 0 16%nat.

(** An IPv4 frame, which is not NMRP. *)
Definition ipv4_frame : list Z :=
  local_hw ++ device_hw ++ [8; 0] ++ repeat 69 46%nat.

Definition conf_req : sock_event :=
  Datagram (frame local_hw device_hw NMRP_C_CONF_REQ []).
Definition ul_req : sock_event :=
  Datagram (frame local_hw device_hw NMRP_C_TFTP_UL_REQ []).
Definition close_ack : sock_event :=
  Datagram (frame local_hw device_hw NMRP_C_CLOSE_ACK []).
Definition keep_alive_req : sock_event :=
  Datagram (frame local_hw device_hw NMRP_C_KEEP_ALIVE_REQ []).
Definition close_req : sock_event :=
  Datagram (frame local_hw device_hw NMRP_C_CLOSE_REQ []).
(** Another server advertising on the same segment. *)
Definition foreign_advertise : sock_event :=
  Datagram (frame broadcast_hw device_hw NMRP_C_ADVERTISE magic_opt).

(** Every call succeeds; the clock advances [step] seconds per reading. *)
Definition env_ok (step : Z) : environment :=
  {| socket_fails := false; intf_info := Some local_hw; bind_fails := false;
     set_rx_timeout_fails := false; sendto_fails := fun _ => false;
     transfer_result := fun _ => 0; clock := fun k => step * Z.of_nat k |}.

Definition env_no_intf : environment :=
  {| socket_fails := false; intf_info := None; bind_fails := false;
     set_rx_timeout_fails := false; sendto_fails := fun _ => false;
     transfer_result := fun _ => 0; clock := fun k => Z.of_nat k |}.
Definition env_no_bind : environment :=
  {| socket_fails := false; intf_info := Some local_hw; bind_fails := true;
     set_rx_timeout_fails := false; sendto_fails := fun _ => false;
     transfer_result := fun _ => 0; clock := fun k => Z.of_nat k |}.
Definition env_no_timeout : environment :=
  {| socket_fails := false; intf_info := Some local_hw; bind_fails := false;
     set_rx_timeout_fails := true; sendto_fails := fun _ => false;
     transfer_result := fun _ => 0; clock := fun k => Z.of_nat k |}.

Definition args_ok : nmrpd_args :=
  {| op_is_upload_fw := true; mac := Some broadcast_hw;
     ipaddr := Some [192; 168; 1; 1]; ipmask := Some [255; 255; 255; 0];
     file_readable := true; tftpcmd := false;
     rx_timeout := 200; ul_timeout := 60000 |}.

Definition world_of (q : list sock_event) : world :=
  {| w_rxq := q; w_trace := [] |}.

(** The message of the configure-ack as [nmrp_do] has it before encoding. *)
Definition conf_ack_msg : list Z :=
  [0; 0; 3; 0; 22; 0;
   2; 0; 12; 0; 192; 168; 1; 1; 255; 255; 255; 0;
   1; 1; 4; 0; 0; 0; 0; 0; 0; 0; 0; 0;
   2; 0; 0; 0].

(** A session in the middle of the handshake. *)
Definition session_await_ul : session :=
  {| expect := NMRP_C_TFTP_UL_REQ; ulreqs := 0; peer := device_hw;
     tx := {| eh := device_hw ++ local_hw ++ [9; 18]; msg := conf_ack_msg |} |}.

(** [rx] as [pkt_recv] leaves it for a keep-alive request. *)
Definition keep_alive_rx : nmrp_pkt :=
  {| eh := local_hw ++ device_hw ++ [9; 18];
     msg := [0; 0; 6; 0; 6; 0] ++ repeat 0 28%nat |}.

End Scenario.

(** ** Vocabulary of the further properties *)

(** The offsets at which [msg_ntoh] has converted a 16-bit member once the
    loop body has run [k] times, the last executed first. *)
Definition ntoh_offsets (k : nat) : list nat :=
  match k with
  | O => [4; 0]
  | S O => [8; 6; 4; 0]
  | S (S O) => [20; 18; 8; 6; 4; 0]
  | _ => [32; 30; 20; 18; 8; 6; 4; 0]
  end%nat.

(** The outcome the loop of [msg_ntoh] reaches on the running remainders
    [rs], with the number of times its body has run; [None] when none of
    them ends the walk. *)
Fixpoint walked (rs : list Z) : option (ntoh_result * nat) :=
  match rs with
  | [] => None
  | r :: rs' =>
      if 0 <? r then
        if r <? NMRP_OPT_LEN then Some (NtohMalformed, O)
        else match walked rs' with
             | Some (x, k) => Some (x, S k)
             | None => None
             end
      else if r =? 0 then Some (NtohOk, O) else Some (NtohTrailing, O)
  end.

(** Members that do not overlap each other. *)
Fixpoint all_apart (os : list nat) : Prop :=
  match os with
  | [] => True
  | o :: os' => Forall (apart o) os' /\ all_apart os'
  end.

(** What [msg_dump] lists is a chain from the cursor [opt]: every entry
    starts where the one before it ends by its declared length, carries
    the payload that length leaves after the option header, and ends
    inside [n] bytes. *)
Fixpoint dump_chain (n opt : nat) (l : list (nat * Z * Z * list Z)) : Prop :=
  match l with
  | [] => True
  | (o, _, len, payload) :: l' =>
      o = opt /\ NMRP_OPT_LEN <= len /\ (opt + Z.to_nat len <= n)%nat /\
      Z.of_nat (length payload) = len - NMRP_OPT_LEN /\
      dump_chain n (opt + Z.to_nat len) l'
  end.

(** The declared lengths of the listed options, summed. *)
Definition dumped_len (l : list (nat * Z * Z * list Z)) : Z :=
  foldr (fun e acc => e.1.2 + acc) 0 l.

(** The message length a frame declares, as [pkt_recv] reads it after the
    peek. *)
Definition declared_len (d : list Z) : Z :=
  msg_len (msg_hdr_ntoh (msg (peeked d))).

(** The codes the switch of the handshake loop has a case for. *)
Definition known_code (c : Z) : bool :=
  (c =? NMRP_C_ADVERTISE) || (c =? NMRP_C_CONF_REQ) || (c =? NMRP_C_TFTP_UL_REQ)
  || (c =? NMRP_C_KEEP_ALIVE_REQ) || (c =? NMRP_C_CLOSE_REQ) || (c =? NMRP_C_CLOSE_ACK).

(** The iteration of the handshake loop after the switch, when nothing is
    to be sent: receive the next message and go on. *)
Definition receive_next (fuel : nat) (env : environment) (args : nmrpd_args)
    (ip mask : list Z) (st : session) (w : world) : exec (Z * world) :=
  '(err, rx2, w2) ← pkt_recv_world w;
  if negb (err =? 0) then Returns (err, w2)
  else handshake_loop fuel env args ip mask st rx2
         (log w2 (ASetRxTimeout (rx_timeout args))).

(** The session with another expected code. *)
Definition with_expect (e : Z) (st : session) : session :=
  {| expect := e; ulreqs := ulreqs st; peer := peer st; tx := tx st |}.

(** Transfers in the trace. *)
Definition transfers (w : world) : nat := count is_transfer (w_trace w).

(** Upload requests that [pkt_recv] has accepted. *)
Definition is_ul_req (a : action) : bool :=
  match a with
  | ARecv err rx => (err =? 0) && (msg_code (msg rx) =? NMRP_C_TFTP_UL_REQ)
  | _ => false
  end.

Definition ul_reqs (w : world) : nat := count is_ul_req (w_trace w).

(** How much of the transfer allowance the message in [rx] may use. *)
Definition pending (rx : nmrp_pkt) : nat :=
  if msg_code (msg rx) =? NMRP_C_TFTP_UL_REQ then 1 else 0.

(** What the advertising loop may do to the world: send [frame] to
    [addr], receive, read the clock. *)
Definition advertising (addr frame : list Z) (a : action) : Prop :=
  match a with
  | ASendto d f _ => d = addr /\ f = frame
  | ARecv _ _ | ATime _ => True
  | _ => False
  end.

(** The world an outcome of the advertising loop carries. *)
Definition adv_world (r : adv_result) : world :=
  match r with AdvBreak _ w | AdvOut _ w => w end.

(** ** Further cases *)

Module Cases.

(** A message whose two options declare 40000 bytes each: the sum does not
    fit the 16 bits of [len]. *)
Definition wrapping_msg : list Z :=
  [0; 0; 3; 0; 0; 0] ++ [2; 0; 64; 156] ++ repeat 0 8%nat
  ++ [1; 1; 64; 156] ++ repeat 0 8%nat ++ [2; 0; 0; 0].

(** A received message of declared length 34 with two options of 12
    bytes, in which the four bytes of [num_opts] read as a third option
    header of length 4; and what [msg_ntoh] makes of it. *)
Definition three_headers_msg : list Z :=
  [0; 0; 2; 0; 0; 34] ++ [0; 1; 0; 12; 78; 84; 71; 82; 0; 0; 0; 0]
  ++ [0; 1; 0; 12; 78; 84; 71; 82; 0; 0; 0; 0] ++ [0; 3; 0; 4].
Definition three_headers_host : list Z :=
  [0; 0; 2; 0; 34; 0] ++ [1; 0; 12; 0; 78; 84; 71; 82; 0; 0; 0; 0]
  ++ [1; 0; 12; 0; 78; 84; 71; 82; 0; 0; 0; 0] ++ [3; 0; 4; 0].

(** A message that claims three options. *)
Definition three_opts_msg : list Z := repeat 0 30%nat ++ [3; 0; 0; 0].

(** Frames of the protocol: one that ends inside the message header, one
    that declares 18 bytes and carries 6, one that declares 40 bytes and
    carries them. *)
Definition short_frame : list Z :=
  Scenario.local_hw ++ Scenario.device_hw ++ [9; 18; 0; 0; 2].
Definition truncated_frame : list Z :=
  Scenario.local_hw ++ Scenario.device_hw ++ [9; 18; 0; 0; 2; 0; 0; 18].
Definition oversized_frame : list Z :=
  Scenario.local_hw ++ Scenario.device_hw ++ [9; 18; 0; 0; 2; 0; 0; 40] ++ repeat 0 34%nat.

(** [rx] as [pkt_recv] leaves it for a message of code [c] without
    options from the device. *)
Definition rx_of (c : Z) : nmrp_pkt :=
  {| eh := Scenario.local_hw ++ Scenario.device_hw ++ [9; 18];
     msg := [0; 0; c; 0; 6; 0] ++ repeat 0 28%nat |}.

Definition ip : list Z := [192; 168; 1; 1].
Definition mask : list Z := [255; 255; 255; 0].

(** Arguments that name a file that cannot be read. *)
Definition args_no_file : nmrpd_args :=
  {| op_is_upload_fw := true; mac := Some Scenario.broadcast_hw;
     ipaddr := Some ip; ipmask := Some mask;
     file_readable := false; tftpcmd := false;
     rx_timeout := 200; ul_timeout := 60000 |}.

(** A session that has seen five upload requests. *)
Definition session_exhausted : session :=
  {| expect := NMRP_C_CLOSE_REQ; ulreqs := 5; peer := Scenario.device_hw;
     tx := tx Scenario.session_await_ul |}.

(** [tx] while advertising from [Scenario.local_hw] to the broadcast
    address. *)
Definition advertise_tx : nmrp_pkt :=
  {| eh := Scenario.broadcast_hw ++ Scenario.local_hw ++ [9; 18];
     msg := [0; 0; 1; 0; 0; 14; 0; 1; 0; 8; 78; 84; 71; 82] ++ repeat 0 16%nat
            ++ [1; 0; 0; 0] |}.

(** The world a run starts from when the device answers with a
    configure-request, an upload request and a close-request, and the
    world that run ends in. *)
Definition happy_start : world :=
  Scenario.world_of [Scenario.conf_req; Scenario.ul_req; Scenario.close_req].
Definition happy_end : world := Eval vm_compute in
    match nmrp_do 4 (Scenario.env_ok 1) Scenario.args_ok happy_start with
    | Returns (_, w) => w
    | _ => happy_start
    end.

(** The world after one round of the advertising loop that the
    configure-request ends. *)
Definition advertised_end : world := Eval vm_compute in
    match advertise_loop 1 (Scenario.env_ok 1) Scenario.local_hw Scenario.broadcast_hw
            advertise_tx 0 1 (Scenario.world_of [Scenario.conf_req]) with
    | Returns (AdvBreak _ w) => w
    | _ => Scenario.world_of []
    end.

End Cases.

(** * Properties *)

(** ** Memory *)

Section MemFacts.
Implicit Types (b : list Z) (o : nat) (v : Z).

Lemma length_set8 b o v : length (set8 b o v) = length b.
Proof. apply length_insert. Qed.

Lemma length_set16 b o v : length (set16 b o v) = length b.
Proof. unfold set16. by rewrite !length_set8. Qed.

Lemma length_set32 b o v : length (set32 b o v) = length b.
Proof. unfold set32. by rewrite !length_set16. Qed.

Lemma bytes_ok_set8 b o v : bytes_ok b -> bytes_ok (set8 b o v).
Proof.
  intros Hb. apply Forall_insert; [exact Hb|].
  unfold byte_ok. apply Z.mod_pos_bound. lia.
Qed.

Lemma bytes_ok_set16 b o v : bytes_ok b -> bytes_ok (set16 b o v).
Proof. intros. unfold set16. by do 2 apply bytes_ok_set8. Qed.

Lemma bytes_ok_set32 b o v : bytes_ok b -> bytes_ok (set32 b o v).
Proof. intros. unfold set32. by do 2 apply bytes_ok_set16. Qed.

Lemma get8_range b o : bytes_ok b -> 0 <= get8 b o < 256.
Proof.
  intros Hb. unfold get8. destruct (b !! o) as [x|] eqn:E; simpl; [|lia].
  exact (Forall_lookup_1 _ _ _ _ Hb E).
Qed.

Lemma get16_range b o : bytes_ok b -> 0 <= get16 b o < 65536.
Proof.
  intros Hb. unfold get16.
  pose proof (get8_range b o Hb). pose proof (get8_range b (S o) Hb). lia.
Qed.

Lemma get8_set8_eq b o v : (o < length b)%nat -> get8 (set8 b o v) o = v mod 256.
Proof. intros H. unfold get8, set8. by rewrite list_lookup_insert_eq. Qed.

Lemma get8_set8_ne b o o' v : o <> o' -> get8 (set8 b o v) o' = get8 b o'.
Proof. intros H. unfold get8, set8. by rewrite list_lookup_insert_ne. Qed.

Lemma get16_set16_eq b o v :
  (S o < length b)%nat -> get16 (set16 b o v) o = v mod 65536.
Proof.
  intros H. unfold get16, set16.
  rewrite get8_set8_ne by lia. rewrite get8_set8_eq by lia.
  rewrite get8_set8_eq by (rewrite length_set8; lia).
  change 65536 with (256 * 256). rewrite Z.rem_mul_r by lia. reflexivity.
Qed.

Lemma get16_set16_ne b o o' v :
  o' <> o -> o' <> S o -> S o' <> o -> get16 (set16 b o v) o' = get16 b o'.
Proof.
  intros. unfold get16, set16. rewrite !get8_set8_ne by lia. reflexivity.
Qed.

Lemma get8_set16_ne b o o' v :
  o' <> o -> o' <> S o -> get8 (set16 b o v) o' = get8 b o'.
Proof. intros. unfold set16. rewrite !get8_set8_ne by lia. reflexivity. Qed.

Lemma set8_get8 b o : bytes_ok b -> set8 b o (get8 b o) = b.
Proof.
  intros Hb. unfold set8, get8. apply list_insert_id'. intros Hlt.
  destruct (lookup_lt_is_Some_2 b o Hlt) as [x E]. rewrite E. simpl.
  f_equal. symmetry. apply Z.mod_small. exact (Forall_lookup_1 _ _ _ _ Hb E).
Qed.

Lemma set8_set8_eq b o v w : set8 (set8 b o v) o w = set8 b o w.
Proof. unfold set8. apply list_insert_insert_eq. Qed.

Lemma set8_comm b o o' v w :
  o <> o' -> set8 (set8 b o v) o' w = set8 (set8 b o' w) o v.
Proof. intros. unfold set8. by apply list_insert_insert_ne. Qed.

Lemma set16_set16_eq b o v w : set16 (set16 b o v) o w = set16 b o w.
Proof.
  unfold set16. rewrite (set8_comm (set8 b o v) (S o) o) by lia.
  rewrite !set8_set8_eq. reflexivity.
Qed.

Lemma set16_comm b o o' v w :
  o' <> o -> o' <> S o -> S o' <> o ->
  set16 (set16 b o v) o' w = set16 (set16 b o' w) o v.
Proof.
  intros. unfold set16.
  rewrite (set8_comm (set8 b o v) (S o) o') by lia.
  rewrite (set8_comm b o o') by lia.
  rewrite (set8_comm (set8 (set8 b o' w) o v) (S o) (S o')) by lia.
  rewrite (set8_comm (set8 b o' w) o (S o')) by lia. reflexivity.
Qed.

Lemma set16_get16 b o : bytes_ok b -> set16 b o (get16 b o) = b.
Proof.
  intros Hb. unfold set16, get16.
  pose proof (get8_range b o Hb) as H0. pose proof (get8_range b (S o) Hb) as H1.
  replace (set8 b o (get8 b o + 256 * get8 b (S o))) with b.
  - replace (set8 b (S o) ((get8 b o + 256 * get8 b (S o)) / 256))
      with (set8 b (S o) (get8 b (S o))); [by apply set8_get8|].
    f_equal. rewrite Z.mul_comm, Z.div_add by lia. rewrite Z.div_small by lia. lia.
  - rewrite <- (set8_get8 b o Hb) at 1. unfold set8. f_equal.
    rewrite Z.mul_comm, Z.mod_add by lia. reflexivity.
Qed.

Lemma htons_range x : 0 <= htons x < 65536.
Proof.
  unfold htons. pose proof (Z.mod_pos_bound x 256).
  pose proof (Z.mod_pos_bound (x / 256) 256). lia.
Qed.

Lemma htons_htons x : 0 <= x < 65536 -> htons (htons x) = x.
Proof.
  intros Hx. unfold htons.
  rewrite (Z.mod_small (x / 256)) by (split; [apply Z.div_pos; lia | apply Z.div_lt_upper_bound; lia]).
  assert (0 <= x / 256 < 256) by (split; [apply Z.div_pos; lia | apply Z.div_lt_upper_bound; lia]).
  pose proof (Z.mod_pos_bound x 256).
  replace ((256 * (x mod 256) + x / 256) mod 256) with (x / 256).
  2:{ rewrite Z.add_comm, Z.mul_comm, Z.mod_add by lia. by rewrite Z.mod_small. }
  replace ((256 * (x mod 256) + x / 256) / 256) with (x mod 256).
  2:{ rewrite Z.add_comm, Z.mul_comm, Z.div_add by lia. rewrite Z.div_small by lia. lia. }
  rewrite Z.mod_mod by lia. pose proof (Z.div_mod x 256). lia.
Qed.

End MemFacts.

(** ** Byte exchanges *)



Lemma length_bswap16 b o : length (bswap16 b o) = length b.
Proof. apply length_set16. Qed.

Lemma bytes_ok_bswap16 b o : bytes_ok b -> bytes_ok (bswap16 b o).
Proof. apply bytes_ok_set16. Qed.

Lemma get16_bswap16_eq b o :
  (S o < length b)%nat -> get16 (bswap16 b o) o = htons (get16 b o).
Proof.
  intros. unfold bswap16. rewrite get16_set16_eq by lia.
  apply Z.mod_small, htons_range.
Qed.

Lemma get16_bswap16_ne b o o' :
  o' <> o -> o' <> S o -> S o' <> o -> get16 (bswap16 b o) o' = get16 b o'.
Proof. intros. by apply get16_set16_ne. Qed.

Lemma get8_bswap16_ne b o o' :
  o' <> o -> o' <> S o -> get8 (bswap16 b o) o' = get8 b o'.
Proof. intros. by apply get8_set16_ne. Qed.

Lemma bswap16_involutive b o :
  bytes_ok b -> (S o < length b)%nat -> bswap16 (bswap16 b o) o = b.
Proof.
  intros Hb Hlt. unfold bswap16 at 1. rewrite get16_bswap16_eq by lia.
  rewrite htons_htons by (by apply get16_range).
  unfold bswap16. rewrite set16_set16_eq. by apply set16_get16.
Qed.

Lemma bswap16_comm b o o' :
  o' <> o -> o' <> S o -> S o' <> o ->
  bswap16 (bswap16 b o) o' = bswap16 (bswap16 b o') o.
Proof.
  intros. unfold bswap16 at 1 3.
  rewrite !get16_bswap16_ne by lia.
  unfold bswap16. by apply set16_comm.
Qed.



Lemma bswaps_cancel os o b :
  bytes_ok b -> (S o < length b)%nat -> Forall (apart o) os ->
  bswap16 (bswaps os (bswap16 b o)) o = bswaps os b.
Proof.
  intros Hb Hlt Hos. induction Hos as [|o' os [? [? ?]] _ IH]; simpl.
  - by apply bswap16_involutive.
  - rewrite bswap16_comm by lia. by rewrite IH.
Qed.

(** ** Codec *)

Lemma msg_num_opts_set16 m o v :
  (S o < num_opts_off)%nat -> msg_num_opts (set16 m o v) = msg_num_opts m.
Proof.
  intros H. unfold msg_num_opts, get32, num_opts_off in *.
  rewrite !get16_set16_ne by lia. reflexivity.
Qed.

Lemma msg_num_opts_range m : bytes_ok m -> 0 <= msg_num_opts m.
Proof.
  intros Hb. unfold msg_num_opts, get32.
  pose proof (get16_range m num_opts_off Hb).
  pose proof (get16_range m (num_opts_off + 2) Hb). lia.
Qed.

Lemma msg_update_len_returns m :
  bytes_ok m -> length m = sizeof_nmrp_msg ->
  msg_num_opts m <= Z.of_nat opts_capacity ->
  NMRP_HDR_LEN + opts_len_sum m (Z.to_nat (msg_num_opts m)) < 65536 ->
  msg_update_len m =
  Returns (set16 m len_off (NMRP_HDR_LEN + opts_len_sum m (Z.to_nat (msg_num_opts m)))).
Proof.
  intros Hb Hlen Hcap Hfit. unfold msg_update_len.
  pose proof (msg_num_opts_range m Hb) as Hn0.
  assert (Hn : (Z.to_nat (msg_num_opts m) <= 2)%nat) by (unfold opts_capacity in Hcap; lia).
  unfold sizeof_nmrp_msg in Hlen.
  pose proof (get16_range m 8 Hb) as H8. pose proof (get16_range m 20 Hb) as H20.
  destruct (Z.to_nat (msg_num_opts m)) as [|[|[|n]]]; [| | |lia];
    cbn [msg_update_len_loop opts_len_sum Nat.ltb Nat.leb opts_capacity] in *;
    unfold opt_len, opt_at, opts_off, sizeof_nmrp_opt, opt_len_off, len_off, NMRP_HDR_LEN in *;
    cbn [Nat.add Nat.mul] in *.
  - reflexivity.
  - rewrite get16_set16_eq, get16_set16_ne, set16_set16_eq by lia.
    change (6 `mod` 65536) with 6. do 2 f_equal; lia.
  - rewrite !get16_set16_eq, !get16_set16_ne, !set16_set16_eq
      by (rewrite ?length_set16; lia).
    change (6 `mod` 65536) with 6. rewrite (Z.mod_small (6 + get16 m 8)) by lia.
    do 2 f_equal; lia.
Qed.


Lemma msg_hton_returns m :
  msg_num_opts m <= Z.of_nat opts_capacity ->
  msg_hton m = Returns (bswaps (hton_offsets (Z.to_nat (msg_num_opts m))) m).
Proof.
  intros Hcap. unfold msg_hton.
  fold (bswap16 m reserved_off). fold (bswap16 (bswap16 m reserved_off) len_off).
  unfold bswap16 at 1 2.
  rewrite !msg_num_opts_set16 by (unfold reserved_off, len_off, num_opts_off; lia).
  assert (Hn : (Z.to_nat (msg_num_opts m) <= 2)%nat) by (unfold opts_capacity in Hcap; lia).
  destruct (Z.to_nat (msg_num_opts m)) as [|[|[|n]]]; [| | |lia]; reflexivity.
Qed.

Lemma msg_hdr_ntoh_bswap m : msg_hdr_ntoh m = bswap16 (bswap16 m reserved_off) len_off.
Proof. reflexivity. Qed.

Section Step.
Variable s : ntoh_state.


Lemma msg_ntoh_step_continue :
  NMRP_OPT_LEN <= ns_remaining s -> (ns_opt s + opt_val_off <= sizeof_nmrp_msg)%nat ->
  msg_ntoh_step s = NtohContinue (ntoh_advance s).
Proof.
  unfold NMRP_OPT_LEN. intros Hr Ho. unfold msg_ntoh_step.
  destruct (Z.ltb_spec 0 (ns_remaining s)); [|lia].
  destruct (Z.ltb_spec (ns_remaining s) NMRP_OPT_LEN); [unfold NMRP_OPT_LEN in *; lia|].
  destruct (Nat.leb_spec (ns_opt s + opt_val_off) sizeof_nmrp_msg); [|lia].
  unfold ntoh_advance, bswap16, ntohs, opt_type_off, opt_len_off.
  rewrite Nat.add_0_r. reflexivity.
Qed.

Lemma msg_ntoh_step_undefined :
  NMRP_OPT_LEN <= ns_remaining s -> (sizeof_nmrp_msg < ns_opt s + opt_val_off)%nat ->
  msg_ntoh_step s = NtohUndefined.
Proof.
  unfold NMRP_OPT_LEN. intros Hr Ho. unfold msg_ntoh_step.
  destruct (Z.ltb_spec 0 (ns_remaining s)); [|lia].
  destruct (Z.ltb_spec (ns_remaining s) NMRP_OPT_LEN); [unfold NMRP_OPT_LEN in *; lia|].
  destruct (Nat.leb_spec (ns_opt s + opt_val_off) sizeof_nmrp_msg); [lia|]. reflexivity.
Qed.

Lemma msg_ntoh_step_malformed :
  0 < ns_remaining s < NMRP_OPT_LEN ->
  msg_ntoh_step s = NtohReturn NtohMalformed (ns_msg s).
Proof.
  intros Hr. unfold msg_ntoh_step.
  destruct (Z.ltb_spec 0 (ns_remaining s)); [|lia].
  destruct (Z.ltb_spec (ns_remaining s) NMRP_OPT_LEN); [|lia]. reflexivity.
Qed.

Lemma msg_ntoh_step_ok :
  ns_remaining s = 0 -> msg_ntoh_step s = NtohReturn NtohOk (ns_msg s).
Proof. intros Hr. unfold msg_ntoh_step. rewrite Hr. reflexivity. Qed.

Lemma msg_ntoh_step_trailing :
  ns_remaining s < 0 -> msg_ntoh_step s = NtohReturn NtohTrailing (ns_msg s).
Proof.
  intros Hr. unfold msg_ntoh_step.
  destruct (Z.ltb_spec 0 (ns_remaining s)); [lia|].
  destruct (Z.eqb_spec (ns_remaining s) 0); [lia|]. reflexivity.
Qed.
End Step.

Ltac mem_simpl :=
  repeat first
    [ rewrite get16_bswap16_ne by lia
    | rewrite get16_bswap16_eq by (rewrite ?length_bswap16, ?length_set16; lia)
    | rewrite get16_set16_ne by lia
    | rewrite get16_set16_eq by (rewrite ?length_bswap16, ?length_set16; lia) ].

Lemma opts_len_sum_set_len m v n :
  opts_len_sum (set16 m len_off v) n = opts_len_sum m n.
Proof.
  induction n as [|n IH]; [reflexivity|]. cbn [opts_len_sum]. rewrite IH. f_equal.
  unfold opt_len, opt_at, opts_off, opt_len_off, len_off, sizeof_nmrp_opt.
  apply get16_set16_ne; lia.
Qed.


(** C8: encoding, that is [msg_update_len] followed by [msg_hton], sets the
    length field to 6 plus the sum of the declared lengths of the options
    present (read back from network order), whenever that sum fits the
    16-bit field; a header-only message gets 6; and the result does not
    depend on the length the message carried before, so a changed option
    list gets the length of the changed list. *)
Theorem msg_encode_length (m : list Z) :
  length m = sizeof_nmrp_msg -> bytes_ok m ->
  msg_num_opts m <= Z.of_nat opts_capacity ->
  NMRP_HDR_LEN + opts_len_sum m (Z.to_nat (msg_num_opts m)) < 65536 ->
  exists e,
    msg_encode m = Returns e /\
    ntohs (msg_len e) = NMRP_HDR_LEN + opts_len_sum m (Z.to_nat (msg_num_opts m)) /\
    (msg_num_opts m = 0 -> ntohs (msg_len e) = 6) /\
    (forall stale, msg_encode (set16 m len_off stale) = Returns e).
Proof.
  intros Hlen Hb Hcap Hfit.
  set (L := NMRP_HDR_LEN + opts_len_sum m (Z.to_nat (msg_num_opts m))) in *.
  assert (Hupd : forall m', bytes_ok m' -> length m' = sizeof_nmrp_msg ->
            msg_num_opts m' = msg_num_opts m ->
            opts_len_sum m' (Z.to_nat (msg_num_opts m)) = opts_len_sum m (Z.to_nat (msg_num_opts m)) ->
            set16 m' len_off L = set16 m len_off L ->
            msg_encode m' = Returns (bswaps (hton_offsets (Z.to_nat (msg_num_opts m))) (set16 m len_off L))).
  { intros m' Hb' Hlen' Hn' Hs' He'. unfold msg_encode.
    rewrite msg_update_len_returns by (rewrite ?Hn', ?Hs'; auto).
    rewrite Hn', Hs'. fold L. rewrite He'.
    change (msg_hton (set16 m len_off L) = Returns (bswaps (hton_offsets (Z.to_nat (msg_num_opts m))) (set16 m len_off L))).
    rewrite msg_hton_returns; rewrite msg_num_opts_set16 by (unfold len_off, num_opts_off; lia); auto. }
  eexists. split; [apply Hupd; auto|].
  assert (HL : ntohs (msg_len (bswaps (hton_offsets (Z.to_nat (msg_num_opts m)))
                                (set16 m len_off L))) = L).
  { pose proof (msg_num_opts_range m Hb) as Hn0.
    assert (0 <= L).
    { subst L. unfold NMRP_HDR_LEN.
      assert (forall n, 0 <= opts_len_sum m n) as Hs.
      { induction n; cbn [opts_len_sum]; [lia|].
        pose proof (get16_range m (opt_at n + opt_len_off) Hb). unfold opt_len. lia. }
      specialize (Hs (Z.to_nat (msg_num_opts m))). lia. }
    unfold msg_len, ntohs, len_off, sizeof_nmrp_msg in *.
    assert (Hn : (Z.to_nat (msg_num_opts m) <= 2)%nat) by (unfold opts_capacity in Hcap; lia).
    destruct (Z.to_nat (msg_num_opts m)) as [|[|[|n]]]; [| | |lia];
      cbn [hton_offsets bswaps foldr]; mem_simpl;
      rewrite (Z.mod_small L) by lia; apply htons_htons; lia. }
  split; [exact HL|]. split.
  - intros H0. rewrite HL. subst L. rewrite H0. reflexivity.
  - intros stale. apply Hupd.
    + by apply bytes_ok_set16.
    + by rewrite length_set16.
    + apply msg_num_opts_set16. unfold len_off, num_opts_off; lia.
    + apply opts_len_sum_set_len.
    + apply set16_set16_eq.
Qed.

Ltac apart_solve := repeat constructor; unfold apart; lia.

Ltac cancel os o b :=
  let E := fresh "E" in
  pose proof (bswaps_cancel os o b) as E; cbn [bswaps foldr] in E;
  rewrite E by (rewrite ?length_bswap16; auto using bytes_ok_bswap16; try lia; apart_solve);
  clear E.

(** C1: for every valid message ([valid_msg]: at most two options, each
    declaring at least the four header bytes, [len] in line with them),
    [msg_hton] returns and [msg_ntoh] of its result succeeds and gives back
    the very same bytes of the struct, so reserved, code, id, len and every
    option's type, len and payload are as before. *)
Theorem msg_roundtrip (m : list Z) :
  valid_msg m ->
  exists e, msg_hton m = Returns e /\ msg_ntoh e = Returns (NtohOk, m).
Proof.
  intros [Hlen Hb Hcap Hopts Hl].
  exists (bswaps (hton_offsets (Z.to_nat (msg_num_opts m))) m).
  split; [by apply msg_hton_returns|].
  pose proof (msg_num_opts_range m Hb) as Hn0.
  assert (Hn : (Z.to_nat (msg_num_opts m) <= 2)%nat) by (unfold opts_capacity in Hcap; lia).
  assert (Ho : forall i, (i < Z.to_nat (msg_num_opts m))%nat -> 4 <= opt_len m i)
    by (intros i Hi; apply Hopts; lia).
  unfold msg_len, len_off, sizeof_nmrp_msg, NMRP_HDR_LEN in *.
  pose proof (get16_range m 4 Hb) as R4.
  pose proof (get16_range m 8 Hb) as R8.
  pose proof (get16_range m 20 Hb) as R20.
  unfold msg_ntoh, msg_ntoh_init, opts_capacity. rewrite msg_hdr_ntoh_bswap.
  unfold reserved_off, len_off, opts_off, NMRP_HDR_LEN.
  destruct (Z.to_nat (msg_num_opts m)) as [|[|[|n]]]; [| | |lia];
    cbn [hton_offsets bswaps foldr opts_len_sum] in *.
  - cbn [msg_ntoh_loop]. rewrite msg_ntoh_step_ok.
    2:{ cbn [ns_remaining]. mem_simpl. rewrite htons_htons by lia. lia. }
    cbn [ns_msg]. do 2 f_equal.
    cancel ([0%nat]%nat) 4%nat (bswap16 m 0).
    apply bswap16_involutive; auto; lia.
  - pose proof (Ho 0%nat ltac:(lia)) as Ho0.
    unfold opt_len, opt_at, opts_off, opt_len_off, sizeof_nmrp_opt in Hl, Ho0.
    cbn [Nat.add Nat.mul] in Hl, Ho0.
    cbn [msg_ntoh_loop]. rewrite msg_ntoh_step_continue.
    2:{ cbn [ns_remaining]. mem_simpl. rewrite htons_htons by lia. unfold NMRP_OPT_LEN. lia. }
    2:{ cbn [ns_opt]. unfold opt_val_off, sizeof_nmrp_msg. lia. }
    unfold ntoh_advance. cbn [ns_msg ns_opt ns_remaining Nat.add].
    rewrite msg_ntoh_step_ok.
    2:{ cbn [ns_remaining]. mem_simpl. rewrite !htons_htons by lia. lia. }
    cbn [ns_msg]. do 2 f_equal.
    cancel ([6;4;0;6]%nat) 8%nat (bswap16 (bswap16 m 0) 4).
    cancel ([4;0]%nat) 6%nat (bswap16 (bswap16 m 0) 4).
    cancel ([0%nat]%nat) 4%nat (bswap16 m 0).
    apply bswap16_involutive; auto; lia.
  - pose proof (Ho 0%nat ltac:(lia)) as Ho0. pose proof (Ho 1%nat ltac:(lia)) as Ho1.
    unfold opt_len, opt_at, opts_off, opt_len_off, sizeof_nmrp_opt in Hl, Ho0, Ho1.
    cbn [Nat.add Nat.mul] in Hl, Ho0, Ho1.
    cbn [msg_ntoh_loop]. rewrite msg_ntoh_step_continue.
    2:{ cbn [ns_remaining]. mem_simpl. rewrite htons_htons by lia. unfold NMRP_OPT_LEN. lia. }
    2:{ cbn [ns_opt]. unfold opt_val_off, sizeof_nmrp_msg. lia. }
    unfold ntoh_advance at 1. unfold sizeof_nmrp_opt at 1. cbn [ns_msg ns_opt ns_remaining Nat.add].
    rewrite msg_ntoh_step_continue.
    2:{ cbn [ns_remaining]. mem_simpl. rewrite !htons_htons by lia. unfold NMRP_OPT_LEN. lia. }
    2:{ cbn [ns_opt]. unfold opt_val_off, sizeof_nmrp_msg. lia. }
    unfold ntoh_advance, sizeof_nmrp_opt. cbn [ns_msg ns_opt ns_remaining Nat.add].
    rewrite msg_ntoh_step_ok.
    2:{ cbn [ns_remaining]. mem_simpl. rewrite !htons_htons by lia. lia. }
    cbn [ns_msg]. do 2 f_equal.
    set (h := bswap16 (bswap16 m 0) 4).
    assert (bytes_ok h /\ length h = 34%nat) as [Hbh Hlh]
      by (subst h; rewrite ?length_bswap16; auto using bytes_ok_bswap16).
    cancel ([18;8;6;4;0;18]%nat) 20%nat (bswap16 (bswap16 h 8) 6).
    cancel ([8;6;4;0]%nat) 18%nat (bswap16 (bswap16 h 8) 6).
    cancel ([6;4;0;6]%nat) 8%nat h.
    cancel ([4;0]%nat) 6%nat h.
    subst h.
    cancel ([0%nat]%nat) 4%nat (bswap16 m 0).
    apply bswap16_involutive; auto; lia.
Qed.

(** ** The decoding loop *)



Lemma msg_ntoh_loop_return fuel s r m :
  msg_ntoh_step s = NtohReturn r m -> msg_ntoh_loop fuel s = Returns (r, m).
Proof. intros H. destruct fuel; cbn [msg_ntoh_loop]; rewrite H; reflexivity. Qed.

Lemma msg_ntoh_loop_undefined fuel s :
  msg_ntoh_step s = NtohUndefined -> msg_ntoh_loop fuel s = Undefined.
Proof. intros H. destruct fuel; cbn [msg_ntoh_loop]; rewrite H; reflexivity. Qed.

Lemma msg_ntoh_loop_continue fuel s s' :
  msg_ntoh_step s = NtohContinue s' ->
  msg_ntoh_loop (S fuel) s = msg_ntoh_loop fuel s'.
Proof. intros H. cbn [msg_ntoh_loop]. rewrite H. reflexivity. Qed.

(** An iteration moves the cursor by the size of the struct, whatever the
    option declares. *)
Lemma msg_ntoh_step_stride s s' :
  msg_ntoh_step s = NtohContinue s' ->
  (ns_opt s + opt_val_off <= sizeof_nmrp_msg)%nat /\
  ns_opt s' = (ns_opt s + sizeof_nmrp_opt)%nat.
Proof.
  unfold msg_ntoh_step.
  destruct (0 <? ns_remaining s); [|destruct (ns_remaining s =? 0); discriminate].
  destruct (ns_remaining s <? NMRP_OPT_LEN); [discriminate|].
  destruct (Nat.leb_spec (ns_opt s + opt_val_off) sizeof_nmrp_msg); [|discriminate].
  intros [= <-]. cbn [ns_opt]. auto.
Qed.

(** The iteration budget of [msg_ntoh] is never the reason it stops. *)
Lemma msg_ntoh_fuel m : msg_ntoh m <> OutOfFuel.
Proof.
  unfold msg_ntoh, opts_capacity. set (s0 := msg_ntoh_init m).
  assert (H0 : ns_opt s0 = 6%nat) by reflexivity.
  cbn [msg_ntoh_loop].
  destruct (msg_ntoh_step s0) as [s1|? ?|] eqn:E0; try discriminate.
  destruct (msg_ntoh_step s1) as [s2|? ?|] eqn:E1; try discriminate.
  destruct (msg_ntoh_step s2) as [s3|? ?|] eqn:E2; try discriminate.
  destruct (msg_ntoh_step s3) as [s4|? ?|] eqn:E3; try discriminate.
  apply msg_ntoh_step_stride in E0 as [_ E0], E1 as [_ E1], E2 as [_ E2], E3 as [E3 _].
  unfold sizeof_nmrp_opt, opt_val_off, sizeof_nmrp_msg in *. lia.
Qed.

Lemma zero_length_no_progress s :
  NMRP_OPT_LEN <= ns_remaining s ->
  (ns_opt s + opt_val_off <= sizeof_nmrp_msg)%nat ->
  (ns_opt s + 3 < length (ns_msg s))%nat ->
  get16 (ns_msg s) (ns_opt s + opt_len_off) = 0 ->
  exists s', msg_ntoh_step s = NtohContinue s' /\
             ns_remaining s' = ns_remaining s /\
             ns_opt s' = (ns_opt s + sizeof_nmrp_opt)%nat.
Proof.
  intros Hr Ho Hlen Hz. exists (ntoh_advance s).
  split; [by apply msg_ntoh_step_continue|]. split; [|reflexivity].
  unfold ntoh_advance. cbn [ns_remaining]. unfold opt_len_off in Hz.
  rewrite get16_bswap16_eq by (rewrite length_bswap16; lia).
  rewrite get16_bswap16_ne by lia. rewrite Hz. change (htons 0) with 0. lia.
Qed.

Lemma msg_ntoh_classify (m : list Z) :
  length m = sizeof_nmrp_msg ->
  match classify (remainders m) with
  | Some r => exists m', msg_ntoh m = Returns (r, m')
  | None => msg_ntoh m = Undefined
  end.
Proof.
  intros Hlen. unfold sizeof_nmrp_msg in Hlen.
  unfold remainders, opt_len, opt_at, opts_off, opt_len_off, sizeof_nmrp_opt, len_off,
    NMRP_HDR_LEN, ntohs.
  cbn [Nat.add Nat.mul].
  set (r0 := htons (get16 m 4) - 6). set (l0 := htons (get16 m 8)).
  set (l1 := htons (get16 m 20)). set (l2 := htons (get16 m 32)).
  unfold msg_ntoh, opts_capacity. set (s0 := msg_ntoh_init m).
  assert (R0 : ns_remaining s0 = r0).
  { subst s0 r0. unfold msg_ntoh_init. rewrite msg_hdr_ntoh_bswap.
    cbn [ns_remaining]. unfold len_off, reserved_off, NMRP_HDR_LEN.
    rewrite get16_bswap16_eq by (rewrite length_bswap16; lia).
    rewrite get16_bswap16_ne by lia. reflexivity. }
  assert (O0 : ns_opt s0 = 6%nat) by reflexivity.
  assert (M0 : ns_msg s0 = bswap16 (bswap16 m 0) 4) by reflexivity.
  set (s1 := ntoh_advance s0). set (s2 := ntoh_advance s1). set (s3 := ntoh_advance s2).
  assert (R1 : ns_remaining s1 = r0 - l0).
  { subst s1 l0. unfold ntoh_advance. cbn [ns_remaining]. rewrite R0, O0, M0.
    cbn [Nat.add]. rewrite get16_bswap16_eq by (rewrite !length_bswap16; lia).
    rewrite !get16_bswap16_ne by lia. reflexivity. }
  assert (O1 : ns_opt s1 = 18%nat) by reflexivity.
  assert (M1 : ns_msg s1 = bswap16 (bswap16 (bswap16 (bswap16 m 0) 4) 6) 8)
    by (subst s1; unfold ntoh_advance; cbn [ns_msg]; rewrite O0, M0; reflexivity).
  assert (R2 : ns_remaining s2 = r0 - l0 - l1).
  { subst s2 l1. unfold ntoh_advance at 1. cbn [ns_remaining]. rewrite R1, O1, M1.
    cbn [Nat.add]. rewrite get16_bswap16_eq by (rewrite !length_bswap16; lia).
    rewrite !get16_bswap16_ne by lia. reflexivity. }
  assert (O2 : ns_opt s2 = 30%nat) by reflexivity.
  assert (M2 : ns_msg s2
               = bswap16 (bswap16 (bswap16 (bswap16 (bswap16 (bswap16 m 0) 4) 6) 8) 18) 20)
    by (subst s2; unfold ntoh_advance at 1; cbn [ns_msg]; rewrite O1, M1; reflexivity).
  assert (R3 : ns_remaining s3 = r0 - l0 - l1 - l2).
  { subst s3 l2. unfold ntoh_advance at 1. cbn [ns_remaining]. rewrite R2, O2, M2.
    cbn [Nat.add]. rewrite get16_bswap16_eq by (rewrite !length_bswap16; lia).
    rewrite !get16_bswap16_ne by lia. reflexivity. }
  assert (O3 : ns_opt s3 = 42%nat) by reflexivity.
  assert (E1 : s1 = ntoh_advance s0) by reflexivity.
  assert (E2 : s2 = ntoh_advance s1) by reflexivity.
  assert (E3 : s3 = ntoh_advance s2) by reflexivity.
  clearbody s0 s1 s2 s3 r0 l0 l1 l2. unfold NMRP_OPT_LEN.
  cbn [classify].
  destruct (Z.ltb_spec 0 r0).
  2:{ destruct (Z.eqb_spec r0 0); eexists; apply msg_ntoh_loop_return.
      - apply msg_ntoh_step_ok; lia.
      - apply msg_ntoh_step_trailing; lia. }
  destruct (Z.ltb_spec r0 NMRP_OPT_LEN); unfold NMRP_OPT_LEN in *.
  { eexists. apply msg_ntoh_loop_return, msg_ntoh_step_malformed. unfold NMRP_OPT_LEN. lia. }
  rewrite (msg_ntoh_loop_continue 2 s0 s1)
    by (rewrite E1; apply msg_ntoh_step_continue;
        unfold NMRP_OPT_LEN, opt_val_off, sizeof_nmrp_msg; lia).
  destruct (Z.ltb_spec 0 (r0 - l0)).
  2:{ destruct (Z.eqb_spec (r0 - l0) 0); eexists; apply msg_ntoh_loop_return.
      - apply msg_ntoh_step_ok; lia.
      - apply msg_ntoh_step_trailing; lia. }
  destruct (Z.ltb_spec (r0 - l0) 4).
  { eexists. apply msg_ntoh_loop_return, msg_ntoh_step_malformed. unfold NMRP_OPT_LEN. lia. }
  rewrite (msg_ntoh_loop_continue 1 s1 s2)
    by (rewrite E2; apply msg_ntoh_step_continue;
        unfold NMRP_OPT_LEN, opt_val_off, sizeof_nmrp_msg; lia).
  destruct (Z.ltb_spec 0 (r0 - l0 - l1)).
  2:{ destruct (Z.eqb_spec (r0 - l0 - l1) 0); eexists; apply msg_ntoh_loop_return.
      - apply msg_ntoh_step_ok; lia.
      - apply msg_ntoh_step_trailing; lia. }
  destruct (Z.ltb_spec (r0 - l0 - l1) 4).
  { eexists. apply msg_ntoh_loop_return, msg_ntoh_step_malformed. unfold NMRP_OPT_LEN. lia. }
  rewrite (msg_ntoh_loop_continue 0 s2 s3)
    by (rewrite E3; apply msg_ntoh_step_continue;
        unfold NMRP_OPT_LEN, opt_val_off, sizeof_nmrp_msg; lia).
  destruct (Z.ltb_spec 0 (r0 - l0 - l1 - l2)).
  2:{ destruct (Z.eqb_spec (r0 - l0 - l1 - l2) 0); eexists; apply msg_ntoh_loop_return.
      - apply msg_ntoh_step_ok; lia.
      - apply msg_ntoh_step_trailing; lia. }
  destruct (Z.ltb_spec (r0 - l0 - l1 - l2) 4).
  { eexists. apply msg_ntoh_loop_return, msg_ntoh_step_malformed. unfold NMRP_OPT_LEN. lia. }
  apply msg_ntoh_loop_undefined, msg_ntoh_step_undefined;
    unfold NMRP_OPT_LEN, opt_val_off, sizeof_nmrp_msg; lia.
Qed.

(** ** Claims about the codec *)

Lemma conf_ack_msg_valid : valid_msg Scenario.conf_ack_msg.
Proof.
  split.
  - reflexivity.
  - unfold Scenario.conf_ack_msg, bytes_ok. repeat constructor; unfold byte_ok; lia.
  - vm_compute. discriminate.
  - intros i Hi. change (msg_num_opts Scenario.conf_ack_msg) with 2 in Hi.
    destruct i as [|[|i]]; [vm_compute; discriminate..|lia].
  - reflexivity.
Defined.

Lemma msg_roundtrip_witness :
  valid_msg Scenario.conf_ack_msg /\
  exists e, msg_hton Scenario.conf_ack_msg = Returns e /\
            msg_ntoh e = Returns (NtohOk, Scenario.conf_ack_msg).
Proof.
  split; [exact conf_ack_msg_valid|].
  apply (msg_roundtrip Scenario.conf_ack_msg). exact conf_ack_msg_valid.
Defined.

Lemma msg_encode_length_witness :
  length Scenario.conf_ack_msg = sizeof_nmrp_msg /\
  bytes_ok Scenario.conf_ack_msg /\
  msg_num_opts Scenario.conf_ack_msg <= Z.of_nat opts_capacity /\
  NMRP_HDR_LEN + opts_len_sum Scenario.conf_ack_msg
                   (Z.to_nat (msg_num_opts Scenario.conf_ack_msg)) < 65536 /\
  exists e,
    msg_encode Scenario.conf_ack_msg = Returns e /\
    ntohs (msg_len e) = NMRP_HDR_LEN + opts_len_sum Scenario.conf_ack_msg
                          (Z.to_nat (msg_num_opts Scenario.conf_ack_msg)) /\
    (msg_num_opts Scenario.conf_ack_msg = 0 -> ntohs (msg_len e) = 6) /\
    (forall stale, msg_encode (set16 Scenario.conf_ack_msg len_off stale) = Returns e).
Proof.
  assert (H1 : length Scenario.conf_ack_msg = sizeof_nmrp_msg) by reflexivity.
  assert (H2 : bytes_ok Scenario.conf_ack_msg) by exact (vm_bytes _ conf_ack_msg_valid).
  assert (H3 : msg_num_opts Scenario.conf_ack_msg <= Z.of_nat opts_capacity)
    by (vm_compute; discriminate).
  assert (H4 : NMRP_HDR_LEN + opts_len_sum Scenario.conf_ack_msg
                   (Z.to_nat (msg_num_opts Scenario.conf_ack_msg)) < 65536)
    by (vm_compute; reflexivity).
  repeat split; try assumption.
  exact (msg_encode_length Scenario.conf_ack_msg H1 H2 H3 H4).
Defined.

(** X1: [msg_ntoh] returns exactly when one of the four running
    remainders the struct allows (before [opts[0]], after it, after
    [opts[1]], after the header read in the bytes of [num_opts]) is not
    at least 4, and the first such remainder decides: "Malformed message."
    when it lies between 1 and 3, "Trailing data in message." when it is
    negative, success when it is zero. *)
Lemma msg_ntoh_outcome (m : list Z) (r : ntoh_result) :
  length m = sizeof_nmrp_msg ->
  (exists m', msg_ntoh m = Returns (r, m')) <-> classify (remainders m) = Some r.
Proof.
  intros Hlen. pose proof (msg_ntoh_classify m Hlen) as H.
  destruct (classify (remainders m)) as [r'|].
  - destruct H as [m' H]. split.
    + intros [m'' H']. rewrite H in H'. congruence.
    + intros [= <-]. eauto.
  - split; [|discriminate]. intros [m' H']. rewrite H in H'. discriminate.
Qed.


(** On a message with a zero-length option at least 4 bytes remain at
    every header and the remainder never goes negative, yet [msg_ntoh]
    returns none of its three outcomes. *)
Lemma msg_ntoh_not_exhaustive :
  Forall (fun r => NMRP_OPT_LEN <= r) (remainders (Scenario.received Scenario.zero_len_frame)) /\
  forall r m', msg_ntoh (Scenario.received Scenario.zero_len_frame) <> Returns (r, m').
Proof.
  split.
  - vm_compute. repeat constructor; discriminate.
  - intros r m' H. vm_compute in H. discriminate H.
Qed.

(** C3 fails on the code: a message of declared length 18 with a 4-byte
    and an 8-byte option leaves at least 4 bytes at each of its two
    headers and is consumed exactly, so decoding should succeed; [msg_ntoh]
    returns neither success nor one of its two errors. *)
Theorem msg_ntoh_rejects_well_formed :
  let m := Scenario.received Scenario.two_opts_frame in
  ntohs (get16 m len_off) = 18 /\
  ntohs (get16 m (opts_off + opt_len_off)) = 4 /\
  ntohs (get16 m (opts_off + 4 + opt_len_off)) = 8 /\
  18 - NMRP_HDR_LEN - 4 - 8 = 0 /\
  msg_ntoh m = Undefined /\
  pkt_recv [Datagram Scenario.two_opts_frame] = Undefined.
Proof. cbv zeta. repeat split; vm_compute; reflexivity. Qed.

(** C2 fails on the code: for a message whose first option declares 4
    bytes, [msg_ntoh] looks for the headers at 6, 18 and 30 (and next at
    42, behind the struct), not at 6 and 6 + 4; [msg_dump] walks the same
    options at 6 and 10. *)
Theorem msg_ntoh_fixed_stride :
  ntohs (opt_len (Scenario.received Scenario.two_opts_frame) 0) = 4 /\
  map fst (msg_ntoh_trace (S opts_capacity)
             (msg_ntoh_init (Scenario.received Scenario.two_opts_frame)))
    = [6; 18; 30; 42]%nat /\
  msg_dump 2 Scenario.two_opts_host true
    = Returns [(6%nat, NMRP_O_FW_UP, 4, []); (10%nat, NMRP_O_MAGIC_NO, 8, [78; 84; 71; 82])].
Proof. repeat split; vm_compute; reflexivity. Qed.

(** C10 fails on the code: with a zero-length option [remaining] stays 4
    while the cursor goes 6, 18, 30, 42, and the loop dereferences the
    cursor past [opts[1]] and then behind the struct instead of ending. *)
Theorem msg_ntoh_zero_length_option :
  msg_ntoh_trace (S opts_capacity)
    (msg_ntoh_init (Scenario.received Scenario.zero_len_frame))
    = [(6%nat, 4); (18%nat, 4); (30%nat, 4); (42%nat, 4)] /\
  msg_ntoh (Scenario.received Scenario.zero_len_frame) = Undefined /\
  pkt_recv [Datagram Scenario.zero_len_frame] = Undefined.
Proof. repeat split; vm_compute; reflexivity. Qed.


(** ** Receiving *)


(** C5 (amended): when the peeked frame's Ethertype is not 0x0912,
    [pkt_recv] returns 3 at once; it does no second read, so the frame is
    still at the head of the socket's queue. *)
Theorem pkt_recv_wrong_protocol (d : list Z) (q : list sock_event) :
  ntohs (ether_type (peeked d)) <> ETH_P_NMRP ->
  pkt_recv (Datagram d :: q) = Returns (3, peeked d, Datagram d :: q).
Proof.
  intros Hty. unfold pkt_recv, recvfrom.
  assert (Htake : take (Z.to_nat (Z.min NMRP_MIN_PKT_LEN (Z.of_nat (length d)))) d
                  = take (Z.to_nat NMRP_MIN_PKT_LEN) d).
  { unfold NMRP_MIN_PKT_LEN, NMRP_HDR_LEN.
    destruct (Z.le_gt_cases 20 (Z.of_nat (length d))).
    - rewrite Z.min_l by lia. reflexivity.
    - rewrite Z.min_r by lia. rewrite !take_ge by lia. reflexivity. }
  rewrite Htake. fold (peeked d).
  destruct (Z.ltb_spec (Z.of_nat sizeof_nmrp_pkt)
              (Z.min NMRP_MIN_PKT_LEN (Z.of_nat (length d)))) as [Hbig|_].
  { unfold sizeof_nmrp_pkt, ETH_HLEN, sizeof_nmrp_msg, NMRP_MIN_PKT_LEN, NMRP_HDR_LEN in Hbig. lia. }
  cbn [mbind exec_bind].
  destruct (Z.ltb_spec (Z.min NMRP_MIN_PKT_LEN (Z.of_nat (length d))) 0) as [Hneg|_].
  { unfold NMRP_MIN_PKT_LEN, NMRP_HDR_LEN in Hneg. lia. }
  destruct (Z.eqb_spec (ntohs (ether_type (peeked d))) ETH_P_NMRP) as [E|_]; [contradiction|].
  reflexivity.
Qed.


Lemma pkt_recv_wrong_protocol_witness :
  ntohs (ether_type (peeked Scenario.ipv4_frame)) <> ETH_P_NMRP /\
  pkt_recv [Datagram Scenario.ipv4_frame]
  = Returns (3, peeked Scenario.ipv4_frame, [Datagram Scenario.ipv4_frame]).
Proof.
  split; [vm_compute; discriminate|].
  apply (pkt_recv_wrong_protocol Scenario.ipv4_frame []). vm_compute. discriminate.
Defined.

(** C5 as stated fails: after [pkt_recv] has returned 3 for an IPv4 frame,
    the queue is not empty: the frame was not drained. *)
Lemma pkt_recv_wrong_protocol_keeps_frame :
  ~ (exists pkt, pkt_recv [Datagram Scenario.ipv4_frame] = Returns (3, pkt, [])).
Proof. intros [pkt H]. vm_compute in H. discriminate H. Qed.

Lemma msg_encode_header_only (m : list Z) (c : Z) :
  length m = sizeof_nmrp_msg -> 0 <= c < 256 ->
  msg_encode (set8 (tx_reset m) code_off c)
  = Returns ([0; 0; c; 0; 0; 6] ++ take 24 (drop 6 m) ++ [0; 0; 0; 0]).
Proof.
  intros Hlen Hc.
  do 34 (destruct m as [|? m]; [discriminate Hlen|]).
  destruct m; [|discriminate Hlen].
  unfold msg_encode, msg_update_len, tx_reset.
  cbn. rewrite (Z.mod_small c) by lia. reflexivity. 
Qed.

(** ** Handshake *)


Lemma handle_code_keep_alive env args ip mask st rx w :
  msg_code (msg rx) = NMRP_C_KEEP_ALIVE_REQ ->
  handle_code env args ip mask st rx w
  = SwNext (set_tx_msg st (set8 (msg (tx st)) code_off NMRP_C_KEEP_ALIVE_ACK)) 1 w.
Proof. intros H. unfold handle_code. rewrite H. reflexivity. Qed.

Lemma pkt_send_header_only env w addr e c rest :
  length e = ETH_HLEN -> 
  pkt_send env w addr {| eh := e; msg := [0; 0; c; 0; 0; 6] ++ rest |}
  = Returns (if sendto_fails env (count is_sendto (w_trace w)) then -1 else 20,
             log w (ASendto addr (e ++ [0; 0; c; 0; 0; 6])
                      (negb (sendto_fails env (count is_sendto (w_trace w)))))).
Proof.
  intros He. unfold pkt_send, pkt_bytes. cbn [msg eh].
  do 14 (destruct e as [|? e]; [discriminate He|]).
  destruct e; [|discriminate He]. reflexivity.
Qed.

(** Once more than five upload requests have come, the switch only puts a
    close-request into [tx]: no transfer, [err] still 1. *)
Lemma handle_code_ul_req_exhausted env args ip mask st rx w :
  msg_code (msg rx) = NMRP_C_TFTP_UL_REQ -> 5 <= ulreqs st ->
  handle_code env args ip mask st rx w
  = SwNext {| expect := expect st; ulreqs := ulreqs st + 1; peer := peer st;
              tx := set_msg (tx st) (set8 (msg (tx st)) code_off NMRP_C_CLOSE_REQ) |}
           1 w.
Proof.
  intros Hc Hn. unfold handle_code. rewrite Hc. cbn [Z.eqb NMRP_C_TFTP_UL_REQ
    NMRP_C_ADVERTISE NMRP_C_CONF_REQ Pos.eqb].
  destruct (Z.ltb_spec 5 (ulreqs st + 1)); [reflexivity|lia].
Qed.

(** Up to the fifth upload request the transfer runs; when it succeeds the
    close-request is expected next and nothing is put into [tx]. *)
Lemma handle_code_ul_req_transfer env args ip mask st rx w :
  msg_code (msg rx) = NMRP_C_TFTP_UL_REQ -> ulreqs st < 5 ->
  transfer_result env (count is_transfer (w_trace w)) = 0 ->
  handle_code env args ip mask st rx w
  = SwNext {| expect := NMRP_C_CLOSE_REQ; ulreqs := ulreqs st + 1; peer := peer st;
              tx := tx st |}
           0 (log (log w (ATransfer 0)) (ASetRxTimeout (ul_timeout args))).
Proof.
  intros Hc Hn Ht. unfold handle_code. rewrite Hc. cbn [Z.eqb NMRP_C_TFTP_UL_REQ
    NMRP_C_ADVERTISE NMRP_C_CONF_REQ Pos.eqb].
  destruct (Z.ltb_spec 5 (ulreqs st + 1)); [lia|].
  unfold transfer. rewrite Ht. reflexivity.
Qed.

(** C9: in any state of the handshake loop, a keep-alive request makes the
    switch put the keep-alive-ack into [tx] and nothing else: the session
    it leaves has the expected code, the upload counter and the peer
    address it was given, and the world is untouched.  The loop then
    sends one frame, the keep-alive-ack (header only, to the peer),
    receives the next message and goes on with it from that session. *)
Theorem keep_alive_unchanged fuel env args ip mask st rx w :
  msg_code (msg rx) = NMRP_C_KEEP_ALIVE_REQ ->
  wf_pkt (tx st) ->
  sendto_fails env (count is_sendto (w_trace w)) = false ->
  exists st1,
    handle_code env args ip mask (set_tx_msg st (tx_reset (msg (tx st)))) rx w
      = SwNext st1 1 w /\
    expect st1 = expect st /\ ulreqs st1 = ulreqs st /\ peer st1 = peer st /\
    eh (tx st1) = eh (tx st) /\
    handshake_loop (S fuel) env args ip mask st rx w =
      ('(err, rx2, w2) ← pkt_recv_world
          (log w (ASendto (peer st)
                    (eh (tx st) ++ [0; 0; NMRP_C_KEEP_ALIVE_ACK; 0; 0; 6]) true));
       if negb (err =? 0) then Returns (err, w2)
       else handshake_loop fuel env args ip mask
              (set_tx_msg st1 ([0; 0; NMRP_C_KEEP_ALIVE_ACK; 0; 0; 6]
                               ++ take 24 (drop 6 (msg (tx st))) ++ [0; 0; 0; 0]))
              rx2 (log w2 (ASetRxTimeout (rx_timeout args)))).
Proof.
  intros Hcode [Heh Hmsg] Hsend.
  exists (set_tx_msg (set_tx_msg st (tx_reset (msg (tx st))))
            (set8 (tx_reset (msg (tx st))) code_off NMRP_C_KEEP_ALIVE_ACK)).
  split; [by apply handle_code_keep_alive|].
  do 4 (split; [reflexivity|]).
  cbn [handshake_loop]. rewrite handle_code_keep_alive by exact Hcode.
  cbn [set_tx_msg tx msg set_msg expect ulreqs peer eh].
  rewrite msg_encode_header_only by (auto; unfold NMRP_C_KEEP_ALIVE_ACK; lia).
  assert (Hc : msg_code (set8 (tx_reset (msg (tx st))) code_off NMRP_C_KEEP_ALIVE_ACK)
               = NMRP_C_KEEP_ALIVE_ACK).
  { unfold msg_code. rewrite get8_set8_eq; [reflexivity|].
    unfold tx_reset. rewrite length_set16, length_set32, length_set8, length_set16, length_set8.
    rewrite Hmsg. unfold code_off, sizeof_nmrp_msg. lia. }
  rewrite Hc. cbn [negb Z.eqb NMRP_C_KEEP_ALIVE_ACK NMRP_C_NONE Pos.eqb mbind exec_bind].
  unfold set_tx_msg, set_msg. cbn [tx msg eh expect ulreqs peer].
  rewrite pkt_send_header_only by exact Heh. rewrite Hsend.
  cbn [negb mbind exec_bind]. rewrite Hcode. reflexivity.
Qed.


Lemma keep_alive_unchanged_witness :
  msg_code (msg Scenario.keep_alive_rx) = NMRP_C_KEEP_ALIVE_REQ /\
  wf_pkt (tx Scenario.session_await_ul) /\
  sendto_fails (Scenario.env_ok 1)
    (count is_sendto
       (w_trace (Scenario.world_of [Scenario.ul_req; Scenario.close_req]))) = false /\
  exists st1,
    handle_code (Scenario.env_ok 1) Scenario.args_ok [192; 168; 1; 1] [255; 255; 255; 0]
      (set_tx_msg Scenario.session_await_ul
         (tx_reset (msg (tx Scenario.session_await_ul))))
      Scenario.keep_alive_rx (Scenario.world_of [Scenario.ul_req; Scenario.close_req])
      = SwNext st1 1 (Scenario.world_of [Scenario.ul_req; Scenario.close_req]) /\
    expect st1 = expect Scenario.session_await_ul /\
    ulreqs st1 = ulreqs Scenario.session_await_ul /\
    peer st1 = peer Scenario.session_await_ul /\
    eh (tx st1) = eh (tx Scenario.session_await_ul) /\
    handshake_loop 3 (Scenario.env_ok 1) Scenario.args_ok
      [192; 168; 1; 1] [255; 255; 255; 0]
      Scenario.session_await_ul Scenario.keep_alive_rx
      (Scenario.world_of [Scenario.ul_req; Scenario.close_req]) =
      ('(err, rx2, w2) ← pkt_recv_world
          (log (Scenario.world_of [Scenario.ul_req; Scenario.close_req])
             (ASendto (peer Scenario.session_await_ul)
                (eh (tx Scenario.session_await_ul)
                 ++ [0; 0; NMRP_C_KEEP_ALIVE_ACK; 0; 0; 6]) true));
       if negb (err =? 0) then Returns (err, w2)
       else handshake_loop 2 (Scenario.env_ok 1) Scenario.args_ok
              [192; 168; 1; 1] [255; 255; 255; 0]
              (set_tx_msg st1 ([0; 0; NMRP_C_KEEP_ALIVE_ACK; 0; 0; 6]
                               ++ take 24 (drop 6 (msg (tx Scenario.session_await_ul)))
                               ++ [0; 0; 0; 0]))
              rx2 (log w2 (ASetRxTimeout (rx_timeout Scenario.args_ok)))).
Proof.
  split; [reflexivity|]. split; [split; reflexivity|]. split; [reflexivity|].
  apply (keep_alive_unchanged 2 (Scenario.env_ok 1) Scenario.args_ok
           [192; 168; 1; 1] [255; 255; 255; 0]
           Scenario.session_await_ul Scenario.keep_alive_rx
           (Scenario.world_of [Scenario.ul_req; Scenario.close_req])).
  - reflexivity.
  - split; reflexivity.
  - reflexivity.
Defined.

(** Scenario E: a keep-alive request while the upload request is awaited,
    then the upload request and the close request. *)
Example keep_alive_interleaving :
  exists w',
    handshake_loop 3 (Scenario.env_ok 1) Scenario.args_ok
      [192; 168; 1; 1] [255; 255; 255; 0]
      Scenario.session_await_ul Scenario.keep_alive_rx
      (Scenario.world_of [Scenario.ul_req; Scenario.close_req])
    = Returns (0, w') /\
    sent_codes (w_trace w') = [NMRP_C_KEEP_ALIVE_ACK; NMRP_C_CLOSE_ACK] /\
    count is_transfer (w_trace w') = 1%nat.
Proof. eexists. split; [vm_compute; reflexivity|]. split; vm_compute; reflexivity. Qed.


(** ** Socket lifetime and the advertising loop *)

Lemma bind_returns {A B} (e : exec A) (k : A -> exec B) (b : B) :
  e ≫= k = Returns b -> exists a, e = Returns a /\ k a = Returns b.
Proof. destruct e as [a| |]; cbn; intros H; [eauto|discriminate|discriminate]. Qed.


Lemma count_snoc f t a :
  count f (t ++ [a]) = (count f t + if f a then 1 else 0)%nat.
Proof.
  unfold count. rewrite filter_app, length_app. f_equal.
  rewrite filter_cons, filter_nil.
  destruct (f a); destruct (decide _); try reflexivity; congruence.
Qed.

Lemma closes_log w a :
  closes (log w a) = (closes w + if is_close a then 1 else 0)%nat.
Proof. apply count_snoc. Qed.

Lemma pkt_send_closes env w addr p r w' :
  pkt_send env w addr p = Returns (r, w') -> closes w' = closes w.
Proof.
  unfold pkt_send. destruct (_ <? _)%nat; [discriminate|].
  intros [= _ <-]. rewrite closes_log. cbn. lia.
Qed.

Lemma pkt_recv_world_closes w err rx w' :
  pkt_recv_world w = Returns (err, rx, w') -> closes w' = closes w.
Proof.
  unfold pkt_recv_world. intros H. apply bind_returns in H as [[[e p] q] [_ H]].
  injection H as _ _ <-. unfold closes. cbn [w_trace].
  rewrite count_snoc. cbn. lia.
Qed.

Lemma time_closes env w : closes (time env w).2 = closes w.
Proof. unfold time. cbn [snd]. rewrite closes_log. cbn. lia. Qed.

Lemma transfer_closes env w : closes (transfer env w).2 = closes w.
Proof. unfold transfer. cbn [snd]. rewrite closes_log. cbn. lia. Qed.

Lemma handle_code_closes env args ip mask st rx w :
  match handle_code env args ip mask st rx w with
  | SwOut _ w' | SwNext _ _ w' => closes w' = closes w
  end.
Proof.
  unfold handle_code.
  repeat match goal with
         | |- context [if ?c then _ else _] => destruct c
         | |- context [transfer ?e ?x] =>
             pose proof (transfer_closes e x); destruct (transfer e x) as [r w1]; cbn [snd] in *
         end; try reflexivity; try assumption.
  rewrite closes_log. cbn. lia.
Qed.

Lemma advertise_loop_closes fuel env src addr tx beg err w r :
  advertise_loop fuel env src addr tx beg err w = Returns r ->
  closes (match r with AdvBreak _ w' | AdvOut _ w' => w' end) = closes w.
Proof.
  revert err w. induction fuel as [|fuel IH]; intros err w H; [discriminate|].
  cbn [advertise_loop] in H.
  apply bind_returns in H as [[sent w1] [Hs H]].
  apply pkt_send_closes in Hs.
  destruct (sent <? 0); [by simplify_eq|].
  apply bind_returns in H as [[[err1 rx] w2] [Hr H]].
  apply pkt_recv_world_closes in Hr.
  destruct (_ && _); [simplify_eq; congruence|].
  destruct (err1 =? 1); [simplify_eq; congruence|].
  pose proof (time_closes env w2) as Ht. destruct (time env w2) as [now w3]. cbn [snd] in Ht.
  destruct (60 <=? now - beg); [simplify_eq; congruence|].
  apply IH in H. congruence.
Qed.

Lemma handshake_loop_unfold fuel env args ip mask st rx w :
  handshake_loop (S fuel) env args ip mask st rx w =
  let st0 := set_tx_msg st (tx_reset (msg (tx st))) in
  match handle_code env args ip mask st0 rx w with
  | SwOut err w1 => Returns (err, w1)
  | SwNext st1 err w1 =>
      '(sent, st2, w2) ←
        (if negb (msg_code (msg (tx st1)) =? NMRP_C_NONE) then
           m ← msg_encode (msg (tx st1));
           let st2 := set_tx_msg st1 m in
           '(sent, w2) ← pkt_send env w1 (peer st2) (tx st2);
           Returns (sent, st2, w2)
         else Returns (0, st1, w1));
      if sent <? 0 then Returns (err, w2)
      else if msg_code (msg rx) =? NMRP_C_CLOSE_REQ then Returns (0, w2)
      else
        '(err2, rx2, w3) ← pkt_recv_world w2;
        if negb (err2 =? 0) then Returns (err2, w3)
        else
          handshake_loop fuel env args ip mask st2 rx2
            (log w3 (ASetRxTimeout (rx_timeout args)))
  end.
Proof. reflexivity. Qed.

Lemma handshake_loop_closes fuel env args ip mask st rx w err w' :
  handshake_loop fuel env args ip mask st rx w = Returns (err, w') ->
  closes w' = closes w.
Proof.
  revert st rx w. induction fuel as [|fuel IH]; intros st rx w H; [discriminate|].
  rewrite handshake_loop_unfold in H. cbv zeta in H.
  pose proof (handle_code_closes env args ip mask
                (set_tx_msg st (tx_reset (msg (tx st)))) rx w) as Hh.
  destruct (handle_code _ _ _ _ _ _ _) as [e w1|st1 e w1].
  { by simplify_eq. }
  apply bind_returns in H as [[[sent st2] w2] [Hs H]].
  assert (closes w2 = closes w1) as Hw2.
  { destruct (negb _).
    - apply bind_returns in Hs as [m [_ Hs]].
      apply bind_returns in Hs as [[s' w2'] [Hs Hs']].
      injection Hs' as _ _ <-. by apply pkt_send_closes in Hs.
    - by injection Hs as _ _ <-. }
  clear Hs.
  destruct (sent <? 0); [simplify_eq; congruence|].
  destruct (msg_code (msg rx) =? NMRP_C_CLOSE_REQ); [simplify_eq; congruence|].
  apply bind_returns in H as [[[err2 rx2] w3] [Hr H]].
  apply pkt_recv_world_closes in Hr.
  destruct (negb _); [simplify_eq; congruence|].
  apply IH in H. rewrite closes_log in H. cbn in H. lia.
Qed.

(** X2: past the set-up, every path of [nmrp_do] goes through the label [out]
    and closes the socket once. *)
Lemma nmrp_do_closes_after_setup fuel env args w err w' src dest ip mask :
  op_is_upload_fw args = true -> mac args = Some dest -> ipaddr args = Some ip ->
  ipmask args = Some mask -> file_readable args = true ->
  socket_fails env = false -> intf_info env = Some src -> bind_fails env = false ->
  set_rx_timeout_fails env = false ->
  nmrp_do fuel env args w = Returns (err, w') ->
  closes w' = S (closes w).
Proof.
  intros Hop Hmac Hip Hmask Hfile Hsock Hintf Hbind Htmo H.
  unfold nmrp_do in H. rewrite Hop, Hmac, Hip, Hmask, Hfile, Hsock, Hintf, Hbind, Htmo in H.
  cbn [negb] in H.
  apply bind_returns in H as [tx0 [_ H]].
  match type of H with context [time ?e ?x] =>
    pose proof (time_closes e x) as Ht; destruct (time e x) as [beg w1]; cbn [snd] in Ht end.
  rewrite !closes_log in Ht. cbn in Ht.
  apply bind_returns in H as [r [Ha H]].
  apply advertise_loop_closes in Ha.
  destruct r as [rx w2|e w2].
  - apply bind_returns in H as [[e w3] [Hh H]].
    apply handshake_loop_closes in Hh. injection H as _ <-.
    rewrite closes_log. cbn. lia.
  - injection H as _ <-. rewrite closes_log. cbn. lia.
Qed.

(** X3: the advertising loop leaves for the handshake only with a frame
    whose destination is the address of the interface. *)
Lemma advertise_loop_break_for_us fuel env src addr tx beg err w rx w' :
  advertise_loop fuel env src addr tx beg err w = Returns (AdvBreak rx w') ->
  take ETH_ALEN (ether_dhost rx) = take ETH_ALEN src.
Proof.
  revert err w. induction fuel as [|fuel IH]; intros err w H; [discriminate|].
  cbn [advertise_loop] in H.
  apply bind_returns in H as [[sent w1] [_ H]].
  destruct (sent <? 0); [discriminate|].
  apply bind_returns in H as [[[err1 rx1] w2] [_ H]].
  destruct (err1 =? 0) eqn:E0; cbn [andb] in H.
  - destruct (memeq (ether_dhost rx1) src ETH_ALEN) eqn:Em.
    + injection H as <- _. unfold memeq in Em. by apply bool_decide_eq_true in Em.
    + destruct (err1 =? 1); [discriminate|].
      destruct (time env w2) as [now w3].
      destruct (60 <=? now - beg); [discriminate|]. eauto.
  - destruct (err1 =? 1); [discriminate|].
    destruct (time env w2) as [now w3].
    destruct (60 <=? now - beg); [discriminate|]. eauto.
Qed.

(** When the budget runs out the loop leaves with the result of the last
    [pkt_recv], whatever it was. *)
Lemma advertise_loop_budget fuel env src addr tx beg err w sent w1 err1 rx w2 :
  pkt_send env w addr tx = Returns (sent, w1) -> 0 <= sent ->
  pkt_recv_world w1 = Returns (err1, rx, w2) ->
  (err1 =? 0) && memeq (ether_dhost rx) src ETH_ALEN = false -> err1 <> 1 ->
  60 <= (time env w2).1 - beg ->
  advertise_loop (S fuel) env src addr tx beg err w
  = Returns (AdvOut err1 (time env w2).2).
Proof.
  intros Hs Hsent Hr Hacc H1 Ht. cbn [advertise_loop]. rewrite Hs. cbn [mbind exec_bind].
  destruct (Z.ltb_spec sent 0); [lia|]. rewrite Hr. cbn [mbind exec_bind]. rewrite Hacc.
  destruct (Z.eqb_spec err1 1); [contradiction|].
  destruct (time env w2) as [now w3]. cbn [fst snd] in *.
  destruct (Z.leb_spec 60 (now - beg)); [reflexivity|lia].
Qed.

(** Whatever fails first after [socket()], the early [return 1] leaves the
    socket open. *)
Lemma nmrp_do_setup_failure fuel env args w dest ip mask :
  op_is_upload_fw args = true -> mac args = Some dest -> ipaddr args = Some ip ->
  ipmask args = Some mask -> file_readable args = true ->
  socket_fails env = false ->
  intf_info env = None \/ bind_fails env = true \/ set_rx_timeout_fails env = true ->
  exists w', nmrp_do fuel env args w = Returns (1, w') /\
             closes w' = closes w /\ ASocket true ∈ w_trace w'.
Proof.
  intros Hop Hmac Hip Hmask Hfile Hsock Hfail.
  unfold nmrp_do. rewrite Hop, Hmac, Hip, Hmask, Hfile, Hsock. cbn [negb].
  destruct (intf_info env) as [src|].
  - destruct (bind_fails env).
    + eexists. split; [reflexivity|]. rewrite closes_log. cbn.
      split; [lia|]. apply elem_of_app. right. apply list_elem_of_singleton. reflexivity.
    + destruct (set_rx_timeout_fails env); [|destruct Hfail as [?|[?|?]]; discriminate].
      eexists. split; [reflexivity|]. rewrite !closes_log. cbn.
      split; [lia|]. apply elem_of_app. left. apply elem_of_app. right.
      apply list_elem_of_singleton. reflexivity.
  - eexists. split; [reflexivity|]. rewrite closes_log. cbn.
    split; [lia|]. apply elem_of_app. right. apply list_elem_of_singleton. reflexivity.
Qed.

(** ** Runs of [nmrp_do] *)

(** Scenario A: configure request, upload request, close request. *)
Example happy_path :
  exists w',
    nmrp_do 4 (Scenario.env_ok 1) Scenario.args_ok
      (Scenario.world_of [Scenario.conf_req; Scenario.ul_req; Scenario.close_req])
    = Returns (0, w') /\
    sent_codes (w_trace w')
      = [NMRP_C_ADVERTISE; NMRP_C_CONF_ACK; NMRP_C_CLOSE_ACK] /\
    count is_transfer (w_trace w') = 1%nat /\ closes w' = 1%nat.
Proof. eexists. split; [vm_compute; reflexivity|]. repeat split; vm_compute; reflexivity. Qed.

(** C4 fails on the code: six upload requests with every transfer
    succeeding give five transfers and a close-request, but the loop then
    receives again, and on the device's close-ack [nmrp_do] returns 0. *)
Theorem retry_exhaustion_then_close_ack :
  exists w',
    nmrp_do 8 (Scenario.env_ok 1) Scenario.args_ok
      (Scenario.world_of (repeat Scenario.ul_req 6 ++ [Scenario.close_ack]))
    = Returns (0, w') /\
    count is_transfer (w_trace w') = 5%nat /\
    sent_codes (w_trace w') = [NMRP_C_ADVERTISE; NMRP_C_CLOSE_REQ] /\
    closes w' = 1%nat.
Proof. eexists. split; [vm_compute; reflexivity|]. repeat split; vm_compute; reflexivity. Qed.

(** The same run with a silent device ends in the receive timeout, 2. *)
Lemma retry_exhaustion_then_silence :
  exists w',
    nmrp_do 8 (Scenario.env_ok 1) Scenario.args_ok
      (Scenario.world_of (repeat Scenario.ul_req 6))
    = Returns (2, w') /\
    count is_transfer (w_trace w') = 5%nat /\
    sent_codes (w_trace w') = [NMRP_C_ADVERTISE; NMRP_C_CLOSE_REQ] /\
    closes w' = 1%nat.
Proof. eexists. split; [vm_compute; reflexivity|]. repeat split; vm_compute; reflexivity. Qed.

(** C6 fails on the code: when [intf_get_info], [sock_bind_to_intf] or the
    first [sock_set_rx_timeout] fails, [nmrp_do] returns 1 with the socket
    created and never closed. *)
Theorem setup_failure_leaks_socket :
  nmrp_do 1 Scenario.env_no_intf Scenario.args_ok (Scenario.world_of [])
    = Returns (1, {| w_rxq := []; w_trace := [ASocket true] |}) /\
  nmrp_do 1 Scenario.env_no_bind Scenario.args_ok (Scenario.world_of [])
    = Returns (1, {| w_rxq := []; w_trace := [ASocket true] |}) /\
  nmrp_do 1 Scenario.env_no_timeout Scenario.args_ok (Scenario.world_of [])
    = Returns (1, {| w_rxq := []; w_trace := [ASocket true; ASetRxTimeout 200] |}).
Proof. repeat split; vm_compute; reflexivity. Qed.

(** C7 fails on the code: when the 60 seconds run out right after a valid
    frame for another station was received, [nmrp_do] returns 0. *)
Theorem advertise_timeout_returns_success :
  exists w',
    nmrp_do 2 (Scenario.env_ok 30) Scenario.args_ok
      (Scenario.world_of [Scenario.foreign_advertise; Scenario.foreign_advertise])
    = Returns (0, w') /\
    sent_codes (w_trace w') = [NMRP_C_ADVERTISE; NMRP_C_ADVERTISE] /\
    filter (fun a => is_time a = true) (w_trace w') = [ATime 0; ATime 30; ATime 60] /\
    count is_transfer (w_trace w') = 0%nat.
Proof. eexists. split; [vm_compute; reflexivity|]. repeat split; vm_compute; reflexivity. Qed.

(** With a silent link the same budget ends in the receive timeout, 2. *)
Lemma advertise_timeout_silence :
  exists w',
    nmrp_do 2 (Scenario.env_ok 30) Scenario.args_ok (Scenario.world_of [])
    = Returns (2, w') /\
    sent_codes (w_trace w') = [NMRP_C_ADVERTISE; NMRP_C_ADVERTISE].
Proof. eexists. split; vm_compute; reflexivity. Qed.

(** * Further properties *)

(** ** What [msg_ntoh] touches and accepts *)

(** lemmas *)
Lemma lookup_bswap16_ne (b : list Z) (o o' : nat) :
  o' <> o -> o' <> S o -> bswap16 b o !! o' = b !! o'.
Proof.
  intros H1 H2. unfold bswap16, set16, set8.
  rewrite !list_lookup_insert_ne by lia. reflexivity.
Qed.

Lemma msg_ntoh_step_inv s :
  match msg_ntoh_step s with
  | NtohContinue s' => s' = ntoh_advance s
  | NtohReturn _ m => m = ns_msg s
  | NtohUndefined => True
  end.
Proof.
  unfold msg_ntoh_step, ntoh_advance, bswap16, ntohs, opt_type_off, opt_len_off.
  rewrite Nat.add_0_r.
  repeat match goal with |- context [if ?c then _ else _] => destruct c end; auto.
Qed.

Lemma msg_ntoh_buffer m r m' :
  msg_ntoh m = Returns (r, m') ->
  exists k, (k <= 3)%nat /\ m' = bswaps (ntoh_offsets k) m.
Proof.
  unfold msg_ntoh, opts_capacity. set (s0 := msg_ntoh_init m).
  assert (M0 : ns_msg s0 = bswaps (ntoh_offsets 0) m) by reflexivity.
  assert (O0 : ns_opt s0 = 6%nat) by reflexivity.
  clearbody s0. cbn [msg_ntoh_loop].
  pose proof (msg_ntoh_step_inv s0) as I0.
  destruct (msg_ntoh_step s0) as [s1|r0 m0|];
    [|intros [= <- <-]; exists 0%nat; split; [lia|congruence]|discriminate].
  pose proof (msg_ntoh_step_inv s1) as I1.
  assert (M1 : ns_msg s1 = bswaps (ntoh_offsets 1) m).
  { subst s1. unfold ntoh_advance. cbn [ns_msg]. rewrite O0, M0. reflexivity. }
  assert (O1 : ns_opt s1 = 18%nat)
    by (subst s1; unfold ntoh_advance; cbn [ns_opt]; rewrite O0; reflexivity).
  destruct (msg_ntoh_step s1) as [s2|r1 m1|];
    [|intros [= <- <-]; exists 1%nat; split; [lia|congruence]|discriminate].
  pose proof (msg_ntoh_step_inv s2) as I2.
  assert (M2 : ns_msg s2 = bswaps (ntoh_offsets 2) m).
  { subst s2. unfold ntoh_advance. cbn [ns_msg]. rewrite O1, M1. reflexivity. }
  assert (O2 : ns_opt s2 = 30%nat)
    by (subst s2; unfold ntoh_advance; cbn [ns_opt]; rewrite O1; reflexivity).
  destruct (msg_ntoh_step s2) as [s3|r2 m2|];
    [|intros [= <- <-]; exists 2%nat; split; [lia|congruence]|discriminate].
  pose proof (msg_ntoh_step_inv s3) as I3.
  assert (M3 : ns_msg s3 = bswaps (ntoh_offsets 3) m).
  { subst s3. unfold ntoh_advance. cbn [ns_msg]. rewrite O2, M2. reflexivity. }
  destruct (msg_ntoh_step s3) as [s4|r3 m3|]; [discriminate| |discriminate].
  intros [= <- <-]. exists 3%nat. split; [lia|congruence].
Qed.

(** X4: whatever [msg_ntoh] returns, it has exchanged bytes only in the
    reserved and len members, in the headers of the two option slots and
    in [num_opts], whose four bytes it takes for a third option header:
    code, id, the option payloads and everything behind the struct are as
    they were. *)
Theorem msg_ntoh_touches_headers_only m r m' :
  msg_ntoh m = Returns (r, m') ->
  length m' = length m /\
  forall o : nat,
    (2 <= o < 4 \/ 10 <= o < 18 \/ 22 <= o < 30 \/ 34 <= o)%nat -> m' !! o = m !! o.
Proof.
  intros H. apply msg_ntoh_buffer in H as [k [Hk ->]].
  destruct k as [|[|[|k]]]; cbn [ntoh_offsets bswaps foldr];
    (split; [rewrite !length_bswap16; reflexivity|]);
    intros o Ho; rewrite !lookup_bswap16_ne by lia; reflexivity.
Qed.

Lemma msg_ntoh_touches_headers_only_witness :
  msg_ntoh Cases.three_headers_msg = Returns (NtohOk, Cases.three_headers_host) /\
  (length Cases.three_headers_host = length Cases.three_headers_msg /\
   forall o : nat,
     (2 <= o < 4 \/ 10 <= o < 18 \/ 22 <= o < 30 \/ 34 <= o)%nat ->
     Cases.three_headers_host !! o = Cases.three_headers_msg !! o).
Proof.
  split; [reflexivity|].
  apply (msg_ntoh_touches_headers_only Cases.three_headers_msg NtohOk). reflexivity.
Defined.


Lemma msg_ntoh_closed_form (m : list Z) :
  length m = sizeof_nmrp_msg ->
  msg_ntoh m =
  match walked (remainders m) with
  | Some (r, k) => Returns (r, bswaps (ntoh_offsets k) m)
  | None => Undefined
  end.
Proof.
  intros Hlen. unfold sizeof_nmrp_msg in Hlen.
  unfold remainders, opt_len, opt_at, opts_off, opt_len_off, sizeof_nmrp_opt, len_off,
    NMRP_HDR_LEN, ntohs.
  cbn [Nat.add Nat.mul].
  set (r0 := htons (get16 m 4) - 6). set (l0 := htons (get16 m 8)).
  set (l1 := htons (get16 m 20)). set (l2 := htons (get16 m 32)).
  unfold msg_ntoh, opts_capacity. set (s0 := msg_ntoh_init m).
  assert (R0 : ns_remaining s0 = r0).
  { subst s0 r0. unfold msg_ntoh_init. rewrite msg_hdr_ntoh_bswap.
    cbn [ns_remaining]. unfold len_off, reserved_off, NMRP_HDR_LEN.
    rewrite get16_bswap16_eq by (rewrite length_bswap16; lia).
    rewrite get16_bswap16_ne by lia. reflexivity. }
  assert (O0 : ns_opt s0 = 6%nat) by reflexivity.
  assert (M0 : ns_msg s0 = bswaps (ntoh_offsets 0) m) by reflexivity.
  set (s1 := ntoh_advance s0). set (s2 := ntoh_advance s1). set (s3 := ntoh_advance s2).
  assert (M1 : ns_msg s1 = bswaps (ntoh_offsets 1) m).
  { subst s1. unfold ntoh_advance. cbn [ns_msg]. rewrite O0, M0. reflexivity. }
  assert (R1 : ns_remaining s1 = r0 - l0).
  { subst s1 l0. unfold ntoh_advance. cbn [ns_remaining]. rewrite R0, O0, M0.
    cbn [Nat.add ntoh_offsets bswaps foldr].
    rewrite get16_bswap16_eq by (rewrite !length_bswap16; lia).
    rewrite !get16_bswap16_ne by lia. reflexivity. }
  assert (O1 : ns_opt s1 = 18%nat) by reflexivity.
  assert (M2 : ns_msg s2 = bswaps (ntoh_offsets 2) m).
  { subst s2. unfold ntoh_advance. cbn [ns_msg]. rewrite O1, M1. reflexivity. }
  assert (R2 : ns_remaining s2 = r0 - l0 - l1).
  { subst s2 l1. unfold ntoh_advance at 1. cbn [ns_remaining]. rewrite R1, O1, M1.
    cbn [Nat.add ntoh_offsets bswaps foldr]. f_equal.
    rewrite get16_bswap16_eq by (rewrite !length_bswap16; lia).
    rewrite !get16_bswap16_ne by lia. reflexivity. }
  assert (O2 : ns_opt s2 = 30%nat) by reflexivity.
  assert (M3 : ns_msg s3 = bswaps (ntoh_offsets 3) m).
  { subst s3. unfold ntoh_advance. cbn [ns_msg]. rewrite O2, M2. reflexivity. }
  assert (R3 : ns_remaining s3 = r0 - l0 - l1 - l2).
  { subst s3 l2. unfold ntoh_advance at 1. cbn [ns_remaining]. rewrite R2, O2, M2.
    cbn [Nat.add ntoh_offsets bswaps foldr]. f_equal.
    rewrite get16_bswap16_eq by (rewrite !length_bswap16; lia).
    rewrite !get16_bswap16_ne by lia. reflexivity. }
  assert (O3 : ns_opt s3 = 42%nat) by reflexivity.
  assert (E1 : s1 = ntoh_advance s0) by reflexivity.
  assert (E2 : s2 = ntoh_advance s1) by reflexivity.
  assert (E3 : s3 = ntoh_advance s2) by reflexivity.
  clearbody s0 s1 s2 s3 r0 l0 l1 l2.
  cbn [walked]. unfold NMRP_OPT_LEN.
  destruct (Z.ltb_spec 0 r0).
  2:{ destruct (Z.eqb_spec r0 0); rewrite <- M0; apply msg_ntoh_loop_return.
      - apply msg_ntoh_step_ok; lia.
      - apply msg_ntoh_step_trailing; lia. }
  destruct (Z.ltb_spec r0 4).
  { rewrite <- M0. apply msg_ntoh_loop_return, msg_ntoh_step_malformed.
    unfold NMRP_OPT_LEN. lia. }
  rewrite (msg_ntoh_loop_continue 2 s0 s1)
    by (rewrite E1; apply msg_ntoh_step_continue;
        unfold NMRP_OPT_LEN, opt_val_off, sizeof_nmrp_msg; lia).
  destruct (Z.ltb_spec 0 (r0 - l0)).
  2:{ destruct (Z.eqb_spec (r0 - l0) 0); rewrite <- M1; apply msg_ntoh_loop_return.
      - apply msg_ntoh_step_ok; lia.
      - apply msg_ntoh_step_trailing; lia. }
  destruct (Z.ltb_spec (r0 - l0) 4).
  { rewrite <- M1. apply msg_ntoh_loop_return, msg_ntoh_step_malformed.
    unfold NMRP_OPT_LEN. lia. }
  rewrite (msg_ntoh_loop_continue 1 s1 s2)
    by (rewrite E2; apply msg_ntoh_step_continue;
        unfold NMRP_OPT_LEN, opt_val_off, sizeof_nmrp_msg; lia).
  destruct (Z.ltb_spec 0 (r0 - l0 - l1)).
  2:{ destruct (Z.eqb_spec (r0 - l0 - l1) 0); rewrite <- M2; apply msg_ntoh_loop_return.
      - apply msg_ntoh_step_ok; lia.
      - apply msg_ntoh_step_trailing; lia. }
  destruct (Z.ltb_spec (r0 - l0 - l1) 4).
  { rewrite <- M2. apply msg_ntoh_loop_return, msg_ntoh_step_malformed.
    unfold NMRP_OPT_LEN. lia. }
  rewrite (msg_ntoh_loop_continue 0 s2 s3)
    by (rewrite E3; apply msg_ntoh_step_continue;
        unfold NMRP_OPT_LEN, opt_val_off, sizeof_nmrp_msg; lia).
  destruct (Z.ltb_spec 0 (r0 - l0 - l1 - l2)).
  2:{ destruct (Z.eqb_spec (r0 - l0 - l1 - l2) 0); rewrite <- M3; apply msg_ntoh_loop_return.
      - apply msg_ntoh_step_ok; lia.
      - apply msg_ntoh_step_trailing; lia. }
  destruct (Z.ltb_spec (r0 - l0 - l1 - l2) 4).
  { rewrite <- M3. apply msg_ntoh_loop_return, msg_ntoh_step_malformed.
    unfold NMRP_OPT_LEN. lia. }
  apply msg_ntoh_loop_undefined, msg_ntoh_step_undefined;
    unfold NMRP_OPT_LEN, opt_val_off, sizeof_nmrp_msg; lia.
Qed.

(** X5: a message that [msg_ntoh] accepts has, in host order, a length of 6
    plus the declared lengths of the headers it walked: those of the two
    option slots and, when the length asks for more, the one it reads in
    the bytes of [num_opts]. *)
Theorem msg_ntoh_success_length m m' :
  length m = sizeof_nmrp_msg ->
  msg_ntoh m = Returns (NtohOk, m') ->
  exists k, (k <= 3)%nat /\
            msg_len m' = NMRP_HDR_LEN + opts_len_sum m' k.
Proof.
  intros Hlen H. rewrite (msg_ntoh_closed_form m Hlen) in H.
  unfold sizeof_nmrp_msg in Hlen. revert H.
  unfold remainders, opt_len, opt_at, opts_off, opt_len_off, sizeof_nmrp_opt, len_off,
    NMRP_HDR_LEN, ntohs, msg_len.
  cbn [Nat.add Nat.mul walked]. unfold NMRP_OPT_LEN.
  set (r0 := htons (get16 m 4) - 6). set (l0 := htons (get16 m 8)).
  set (l1 := htons (get16 m 20)). set (l2 := htons (get16 m 32)).
  assert (F4 : forall k, get16 (bswaps (ntoh_offsets k) m) 4 = r0 + 6).
  { intros [|[|[|k]]]; cbn [ntoh_offsets bswaps foldr];
      rewrite ?get16_bswap16_ne by lia;
      rewrite get16_bswap16_eq by (rewrite ?length_bswap16; lia);
      rewrite ?get16_bswap16_ne by lia; subst r0; lia. }
  assert (F8 : forall k, get16 (bswaps (ntoh_offsets (S k)) m) 8 = l0).
  { intros [|[|k]]; cbn [ntoh_offsets bswaps foldr];
      rewrite ?get16_bswap16_ne by lia;
      rewrite get16_bswap16_eq by (rewrite ?length_bswap16; lia);
      rewrite ?get16_bswap16_ne by lia; reflexivity. }
  assert (F20 : forall k, get16 (bswaps (ntoh_offsets (S (S k))) m) 20 = l1).
  { intros [|k]; cbn [ntoh_offsets bswaps foldr];
      rewrite ?get16_bswap16_ne by lia;
      rewrite get16_bswap16_eq by (rewrite ?length_bswap16; lia);
      rewrite ?get16_bswap16_ne by lia; reflexivity. }
  assert (F32 : get16 (bswaps (ntoh_offsets 3) m) 32 = l2).
  { cbn [ntoh_offsets bswaps foldr].
    rewrite get16_bswap16_eq by (rewrite ?length_bswap16; lia).
    rewrite ?get16_bswap16_ne by lia. reflexivity. }
  pose proof (F4 0%nat) as F40. pose proof (F4 1%nat) as F41. pose proof (F4 2%nat) as F42.
  pose proof (F4 3%nat) as F43.
  pose proof (F8 0%nat) as F81. pose proof (F8 1%nat) as F82. pose proof (F8 2%nat) as F83.
  pose proof (F20 0%nat) as F202. pose proof (F20 1%nat) as F203.
  cbn [ntoh_offsets bswaps foldr] in F40, F41, F42, F43, F81, F82, F83, F202, F203, F32.
  clear F4 F8 F20. unfold len_off. clearbody r0 l0 l1 l2.
  destruct (Z.ltb_spec 0 r0).
  2:{ destruct (Z.eqb_spec r0 0); [|discriminate]. intros [= <-].
      exists 0%nat. split; [lia|]. rewrite F40. cbn [opts_len_sum]. lia. }
  destruct (Z.ltb_spec r0 4); [discriminate|].
  destruct (Z.ltb_spec 0 (r0 - l0)).
  2:{ destruct (Z.eqb_spec (r0 - l0) 0); [|discriminate]. intros [= <-].
      exists 1%nat. split; [lia|]. rewrite F41. cbn [opts_len_sum].
      unfold opt_len, opt_at, opts_off, opt_len_off, sizeof_nmrp_opt. cbn [Nat.add Nat.mul].
      rewrite F81. lia. }
  destruct (Z.ltb_spec (r0 - l0) 4); [discriminate|].
  destruct (Z.ltb_spec 0 (r0 - l0 - l1)).
  2:{ destruct (Z.eqb_spec (r0 - l0 - l1) 0); [|discriminate]. intros [= <-].
      exists 2%nat. split; [lia|]. rewrite F42. cbn [opts_len_sum].
      unfold opt_len, opt_at, opts_off, opt_len_off, sizeof_nmrp_opt. cbn [Nat.add Nat.mul].
      rewrite F82, F202. lia. }
  destruct (Z.ltb_spec (r0 - l0 - l1) 4); [discriminate|].
  destruct (Z.ltb_spec 0 (r0 - l0 - l1 - l2)).
  2:{ destruct (Z.eqb_spec (r0 - l0 - l1 - l2) 0); [|discriminate]. intros [= <-].
      exists 3%nat. split; [lia|]. rewrite F43. cbn [opts_len_sum].
      unfold opt_len, opt_at, opts_off, opt_len_off, sizeof_nmrp_opt. cbn [Nat.add Nat.mul].
      rewrite F83, F203, F32. lia. }
  destruct (Z.ltb_spec (r0 - l0 - l1 - l2) 4); discriminate.
Qed.

Lemma msg_ntoh_success_length_witness :
  length Cases.three_headers_msg = sizeof_nmrp_msg /\
  msg_ntoh Cases.three_headers_msg = Returns (NtohOk, Cases.three_headers_host) /\
  exists k, (k <= 3)%nat /\
    msg_len Cases.three_headers_host
    = NMRP_HDR_LEN + opts_len_sum Cases.three_headers_host k.
Proof.
  split; [reflexivity|]. split; [reflexivity|].
  apply (msg_ntoh_success_length Cases.three_headers_msg); reflexivity.
Defined.

Lemma msg_ntoh_outcome_witness :
  length Cases.three_headers_msg = sizeof_nmrp_msg /\
  ((exists m', msg_ntoh Cases.three_headers_msg = Returns (NtohOk, m'))
   <-> classify (remainders Cases.three_headers_msg) = Some NtohOk).
Proof.
  split; [reflexivity|].
  apply (msg_ntoh_outcome Cases.three_headers_msg NtohOk). reflexivity.
Defined.


(** ** [msg_hton] and [msg_update_len] *)

Lemma msg_num_opts_bswaps os m :
  Forall (fun o => (S o < num_opts_off)%nat) os ->
  msg_num_opts (bswaps os m) = msg_num_opts m.
Proof.
  induction 1 as [|o os Ho _ IH]; [reflexivity|]. cbn [bswaps foldr].
  unfold bswap16 at 1. rewrite msg_num_opts_set16 by exact Ho. exact IH.
Qed.

Lemma hton_offsets_in_header n :
  Forall (fun o => (S o < num_opts_off)%nat) (hton_offsets n).
Proof.
  destruct n as [|[|n]]; cbn [hton_offsets]; repeat constructor; unfold num_opts_off; lia.
Qed.

Lemma length_bswaps os b : length (bswaps os b) = length b.
Proof. induction os as [|o os IH]; [reflexivity|]. cbn [bswaps foldr]. by rewrite length_bswap16. Qed.

Lemma bytes_ok_bswaps os b : bytes_ok b -> bytes_ok (bswaps os b).
Proof. intros Hb. induction os as [|o os IH]; [exact Hb|]. cbn [bswaps foldr]. by apply bytes_ok_bswap16. Qed.

Lemma bswaps_involutive os b :
  bytes_ok b -> Forall (fun o => (S o < length b)%nat) os -> all_apart os ->
  bswaps os (bswaps os b) = b.
Proof.
  intros Hb. induction os as [|o os IH]; intros Hin Hap; [reflexivity|].
  cbn [all_apart] in Hap. destruct Hap as [Ho Hap]. inversion Hin as [|? ? Ho' Hin']; subst.
  change (bswaps (o :: os) (bswaps (o :: os) b))
    with (bswap16 (bswaps os (bswap16 (bswaps os b) o)) o).
  rewrite bswaps_cancel; auto using bytes_ok_bswaps.
  rewrite length_bswaps. exact Ho'.
Qed.

(** X6: on a message of at most two options [msg_hton] undoes itself:
    converting twice gives the bytes back. *)
Theorem msg_hton_involutive (m : list Z) :
  length m = sizeof_nmrp_msg -> bytes_ok m ->
  msg_num_opts m <= Z.of_nat opts_capacity ->
  exists e, msg_hton m = Returns e /\ msg_hton e = Returns m.
Proof.
  intros Hlen Hb Hcap. unfold sizeof_nmrp_msg in Hlen.
  exists (bswaps (hton_offsets (Z.to_nat (msg_num_opts m))) m).
  split; [by apply msg_hton_returns|].
  rewrite msg_hton_returns
    by (rewrite msg_num_opts_bswaps by apply hton_offsets_in_header; exact Hcap).
  rewrite msg_num_opts_bswaps by apply hton_offsets_in_header. f_equal.
  apply bswaps_involutive; [exact Hb| |].
  - rewrite Hlen. eapply Forall_impl; [apply hton_offsets_in_header|].
    intros o Ho. unfold num_opts_off in Ho. cbn beta in *. lia.
  - destruct (Z.to_nat (msg_num_opts m)) as [|[|n]]; cbn [hton_offsets all_apart];
      repeat split; apart_solve.
Qed.

Lemma msg_hton_involutive_witness :
  length Scenario.conf_ack_msg = sizeof_nmrp_msg /\ bytes_ok Scenario.conf_ack_msg /\
  msg_num_opts Scenario.conf_ack_msg <= Z.of_nat opts_capacity /\
  exists e, msg_hton Scenario.conf_ack_msg = Returns e /\
            msg_hton e = Returns Scenario.conf_ack_msg.
Proof.
  assert (H1 : length Scenario.conf_ack_msg = sizeof_nmrp_msg) by reflexivity.
  assert (H2 : bytes_ok Scenario.conf_ack_msg) by exact (vm_bytes _ conf_ack_msg_valid).
  assert (H3 : msg_num_opts Scenario.conf_ack_msg <= Z.of_nat opts_capacity)
    by (vm_compute; discriminate).
  repeat split; try assumption.
  exact (msg_hton_involutive Scenario.conf_ack_msg H1 H2 H3).
Defined.

Lemma set16_mod b o v : set16 b o (v mod 65536) = set16 b o v.
Proof.
  assert (A : (v mod 65536) mod 256 = v mod 256) by (Z.div_mod_to_equations; lia).
  assert (B : ((v mod 65536) / 256) mod 256 = (v / 256) mod 256)
    by (Z.div_mod_to_equations; lia).
  unfold set16, set8. rewrite A, B. reflexivity.
Qed.

(** X7: [msg_update_len] adds in 16 bits: the stored length is 6 plus the sum of
    the option lengths modulo 65536, and no other byte changes. *)
Theorem msg_update_len_wraps (m : list Z) :
  length m = sizeof_nmrp_msg ->
  0 <= msg_num_opts m <= Z.of_nat opts_capacity ->
  exists m',
    msg_update_len m = Returns m' /\
    m' = set16 m len_off (NMRP_HDR_LEN + opts_len_sum m (Z.to_nat (msg_num_opts m))) /\
    msg_len m' = (NMRP_HDR_LEN + opts_len_sum m (Z.to_nat (msg_num_opts m))) mod 65536.
Proof.
  intros Hlen [Hn0 Hcap]. eexists. split; [|split; [reflexivity|]].
  2:{ unfold msg_len. apply get16_set16_eq. rewrite Hlen. unfold len_off, sizeof_nmrp_msg. lia. }
  unfold msg_update_len.
  assert (Hn : (Z.to_nat (msg_num_opts m) <= 2)%nat) by (unfold opts_capacity in Hcap; lia).
  unfold sizeof_nmrp_msg in Hlen.
  destruct (Z.to_nat (msg_num_opts m)) as [|[|[|n]]]; [| | |lia];
    cbn [msg_update_len_loop opts_len_sum Nat.ltb Nat.leb opts_capacity] in *;
    unfold opt_len, opt_at, opts_off, sizeof_nmrp_opt, opt_len_off, len_off, NMRP_HDR_LEN in *;
    cbn [Nat.add Nat.mul] in *.
  - reflexivity.
  - rewrite get16_set16_eq, get16_set16_ne, set16_set16_eq by lia.
    change (6 `mod` 65536) with 6. do 2 f_equal; lia.
  - rewrite !get16_set16_eq, !get16_set16_ne, !set16_set16_eq
      by (rewrite ?length_set16; lia).
    change (6 `mod` 65536) with 6. f_equal.
    rewrite <- (set16_mod m 4 ((6 + get16 m 8) `mod` 65536 + get16 m 20)).
    rewrite Zplus_mod_idemp_l. rewrite set16_mod. f_equal. lia.
Qed.


(** ** [msg_dump] and the option count *)

Lemma msg_dump_opts_chain fuel m opt remain l :
  msg_dump_opts fuel m opt remain = Returns l ->
  dump_chain (length m) opt l /\ remain <= dumped_len l /\
  (0 < remain -> l <> []) /\ (remain <= 0 -> l = []).
Proof.
  revert opt remain l. induction fuel as [|fuel IH]; intros opt remain l H.
  - cbn [msg_dump_opts] in H. destruct (Z.ltb_spec 0 remain); [discriminate|].
    simplify_eq. cbn. repeat split; try lia; done.
  - cbn [msg_dump_opts] in H. destruct (Z.ltb_spec 0 remain) as [Hr|Hr].
    2:{ simplify_eq. cbn. repeat split; try lia; done. }
    destruct (Nat.leb_spec (opt + opt_val_off) (length m)) as [Hv|]; [|discriminate].
    destruct (Z.ltb_spec (get16 m (opt + opt_len_off)) NMRP_OPT_LEN) as [|Hl];
      [discriminate|].
    destruct (Nat.ltb_spec (length m) (opt + Z.to_nat (get16 m (opt + opt_len_off))))
      as [|Hn]; [discriminate|]. cbn [orb] in H.
    apply bind_returns in H as [rest [Hrest H]]. injection H as <-.
    apply IH in Hrest as (Hc & Hs & _).
    cbn [dump_chain dumped_len foldr fst snd]. fold (dumped_len rest).
    repeat split; try done; try lia.
    rewrite length_take, length_drop. unfold NMRP_OPT_LEN, opt_val_off in *. lia.
Qed.

(** X8: the dump walks the options by their declared lengths (where the
    decoder strides by the size of the struct), never lists an option
    that declares less than its header or ends outside the message
    struct, and covers the declared length of the message. *)
Theorem msg_dump_walks_declared_lengths fuel m l :
  msg_dump fuel m true = Returns l ->
  dump_chain (length m) opts_off l /\ msg_len m - NMRP_HDR_LEN <= dumped_len l.
Proof.
  unfold msg_dump. intros H. apply msg_dump_opts_chain in H as (? & ? & _). auto.
Qed.

Lemma msg_dump_opts_fuel fuel m opt remain :
  remain < Z.of_nat fuel -> msg_dump_opts fuel m opt remain <> OutOfFuel.
Proof.
  revert opt remain. induction fuel as [|fuel IH]; intros opt remain Hf.
  - cbn [msg_dump_opts]. destruct (Z.ltb_spec 0 remain); [lia|discriminate].
  - cbn [msg_dump_opts]. destruct (Z.ltb_spec 0 remain) as [Hr|Hr]; [|discriminate].
    destruct (_ <=? _)%nat; [|discriminate].
    destruct (Z.ltb_spec (get16 m (opt + opt_len_off)) NMRP_OPT_LEN) as [|Hl];
      [discriminate|].
    destruct (_ <? _)%nat; [discriminate|]. cbn [orb].
    specialize (IH (opt + Z.to_nat (get16 m (opt + opt_len_off)))%nat
                  (remain - get16 m (opt + opt_len_off))).
    destruct (msg_dump_opts _ _ _ _); cbn [mbind exec_bind]; [discriminate|discriminate|].
    apply IH. unfold NMRP_OPT_LEN in Hl. lia.
Qed.

(** The dump ends: every option it passes declares at least its header, so
    the remaining length falls with each. *)
Theorem msg_dump_terminates fuel m b :
  msg_len m < Z.of_nat fuel -> msg_dump fuel m b <> OutOfFuel.
Proof.
  intros H. unfold msg_dump. destruct b; [|discriminate].
  apply msg_dump_opts_fuel. unfold NMRP_HDR_LEN. lia.
Qed.

(** An option that declares less than its header stops the dump outside
    the defined behaviour: the byte loop counts from 0 up to a negative
    number. *)
Theorem msg_dump_short_option fuel m :
  NMRP_HDR_LEN < msg_len m -> (opts_off + opt_val_off <= length m)%nat ->
  opt_len m 0 < NMRP_OPT_LEN ->
  msg_dump (S fuel) m true = Undefined.
Proof.
  intros Hl Hm Ho. unfold msg_dump. cbn [msg_dump_opts].
  destruct (Z.ltb_spec 0 (msg_len m - NMRP_HDR_LEN)); [|lia].
  destruct (Nat.leb_spec (opts_off + opt_val_off) (length m)); [|lia].
  unfold opt_len, opt_at in Ho. rewrite Nat.mul_0_l, Nat.add_0_r in Ho.
  destruct (Z.ltb_spec (get16 m (opts_off + opt_len_off)) NMRP_OPT_LEN); [|lia].
  reflexivity.
Qed.

Lemma msg_update_len_loop_overrun n i m :
  (opts_capacity < i + n)%nat -> (i <= opts_capacity)%nat ->
  msg_update_len_loop n i m = Undefined.
Proof.
  revert i m. induction n as [|n IH]; intros i m Hn Hi; [lia|].
  cbn [msg_update_len_loop]. destruct (Nat.ltb_spec i opts_capacity); [|reflexivity].
  apply IH; lia.
Qed.

Lemma msg_hton_loop_overrun n i m :
  (opts_capacity < i + n)%nat -> (i <= opts_capacity)%nat ->
  msg_hton_loop n i m = Undefined.
Proof.
  revert i m. induction n as [|n IH]; intros i m Hn Hi; [lia|].
  cbn [msg_hton_loop]. destruct (Nat.ltb_spec i opts_capacity); [|reflexivity].
  cbv zeta. apply IH; lia.
Qed.

(** X9: both loops over the options trust [num_opts]: with a count above the
    two elements of [opts] they index past the array. *)
Theorem num_opts_beyond_capacity m :
  Z.of_nat opts_capacity < msg_num_opts m ->
  msg_update_len m = Undefined /\ msg_hton m = Undefined.
Proof.
  intros H. split.
  - unfold msg_update_len. apply msg_update_len_loop_overrun; lia.
  - unfold msg_hton. cbv zeta. rewrite !msg_num_opts_set16 by (unfold num_opts_off, reserved_off, len_off; lia).
    apply msg_hton_loop_overrun; lia.
Qed.


(** ** The results of [pkt_recv] *)

Lemma recvfrom_peek d q :
  recvfrom (Datagram d :: q) pkt_zero NMRP_MIN_PKT_LEN true
  = Returns (Z.min NMRP_MIN_PKT_LEN (Z.of_nat (length d)), 0, peeked d, Datagram d :: q).
Proof.
  unfold recvfrom.
  assert (Htake : take (Z.to_nat (Z.min NMRP_MIN_PKT_LEN (Z.of_nat (length d)))) d
                  = take (Z.to_nat NMRP_MIN_PKT_LEN) d).
  { unfold NMRP_MIN_PKT_LEN, NMRP_HDR_LEN.
    destruct (Z.le_gt_cases 20 (Z.of_nat (length d))).
    - rewrite Z.min_l by lia. reflexivity.
    - rewrite Z.min_r by lia. rewrite !take_ge by lia. reflexivity. }
  rewrite Htake. fold (peeked d).
  destruct (Z.ltb_spec (Z.of_nat sizeof_nmrp_pkt)
              (Z.min NMRP_MIN_PKT_LEN (Z.of_nat (length d)))) as [Hbig|_]; [|reflexivity].
  unfold sizeof_nmrp_pkt, ETH_HLEN, sizeof_nmrp_msg, NMRP_MIN_PKT_LEN, NMRP_HDR_LEN in Hbig. lia.
Qed.

(** What [pkt_recv] does with a queued frame, after the peek. *)
Lemma pkt_recv_datagram d q :
  pkt_recv (Datagram d :: q) =
  if negb (ntohs (ether_type (peeked d)) =? ETH_P_NMRP)
  then Returns (3, peeked d, Datagram d :: q)
  else if Z.of_nat (length d) <? NMRP_MIN_PKT_LEN
  then Returns (1, peeked d, Datagram d :: q)
  else
    let pkt := set_msg (peeked d) (msg_hdr_ntoh (msg (peeked d))) in
    let len := declared_len d + Z.of_nat ETH_HLEN in
    '(bytes, errno, pkt, q2) ← recvfrom (Datagram d :: q) pkt len false;
    if bytes <? 0 then Returns (1, pkt, q2)
    else if negb (bytes =? len) then Returns (1, pkt, q2)
    else '(r, m) ← msg_ntoh (msg pkt); Returns (ntoh_ret r, set_msg pkt m, q2).
Proof.
  unfold pkt_recv. rewrite recvfrom_peek. cbn [mbind exec_bind].
  destruct (Z.ltb_spec (Z.min NMRP_MIN_PKT_LEN (Z.of_nat (length d))) 0) as [Hneg|_].
  { unfold NMRP_MIN_PKT_LEN, NMRP_HDR_LEN in Hneg. lia. }
  destruct (negb _); [reflexivity|].
  destruct (Z.ltb_spec (Z.min NMRP_MIN_PKT_LEN (Z.of_nat (length d))) NMRP_MIN_PKT_LEN);
    destruct (Z.ltb_spec (Z.of_nat (length d)) NMRP_MIN_PKT_LEN); try lia; reflexivity.
Qed.

(** X10: a frame of the right protocol that is shorter than the Ethernet and
    message headers gives 1, and stays in the queue. *)
Theorem pkt_recv_short_frame (d : list Z) (q : list sock_event) :
  ntohs (ether_type (peeked d)) = ETH_P_NMRP ->
  Z.of_nat (length d) < NMRP_MIN_PKT_LEN ->
  pkt_recv (Datagram d :: q) = Returns (1, peeked d, Datagram d :: q).
Proof.
  intros Hty Hlen. rewrite pkt_recv_datagram, Hty.
  change (negb (ETH_P_NMRP =? ETH_P_NMRP)) with false. cbv iota.
  destruct (Z.ltb_spec (Z.of_nat (length d)) NMRP_MIN_PKT_LEN); [reflexivity|lia].
Qed.

(** X11: a frame that fits [rx] but is shorter than its header declares gives
    1 and is removed from the queue. *)
Theorem pkt_recv_truncated (d : list Z) (q : list sock_event) :
  ntohs (ether_type (peeked d)) = ETH_P_NMRP ->
  NMRP_MIN_PKT_LEN <= Z.of_nat (length d) <= Z.of_nat sizeof_nmrp_pkt ->
  Z.of_nat (length d) < declared_len d + Z.of_nat ETH_HLEN ->
  exists pkt, pkt_recv (Datagram d :: q) = Returns (1, pkt, q).
Proof.
  intros Hty [Hmin Hmax] Hshort. rewrite pkt_recv_datagram, Hty.
  change (negb (ETH_P_NMRP =? ETH_P_NMRP)) with false. cbv iota.
  destruct (Z.ltb_spec (Z.of_nat (length d)) NMRP_MIN_PKT_LEN); [lia|].
  cbv zeta. unfold recvfrom. rewrite Z.min_r by lia.
  destruct (Z.ltb_spec (Z.of_nat sizeof_nmrp_pkt) (Z.of_nat (length d))); [lia|].
  cbn [mbind exec_bind].
  destruct (Z.ltb_spec (Z.of_nat (length d)) 0); [lia|].
  destruct (Z.eqb_spec (Z.of_nat (length d)) (declared_len d + Z.of_nat ETH_HLEN)); [lia|].
  cbn [negb]. eauto.
Qed.

Lemma declared_len_range d : 0 <= declared_len d < 65536.
Proof.
  unfold declared_len, msg_len, msg_hdr_ntoh.
  assert (Hl : length (msg (peeked d)) = sizeof_nmrp_msg).
  { unfold peeked, pkt_store, pkt_of_bytes. cbn [msg].
    rewrite length_drop, length_app, length_drop, length_take.
    unfold pkt_zero, pkt_bytes, pkt_of_bytes. cbn [eh msg].
    rewrite length_app, length_take, length_drop, repeat_length.
    unfold sizeof_nmrp_pkt, ETH_HLEN, sizeof_nmrp_msg, NMRP_MIN_PKT_LEN, NMRP_HDR_LEN. lia. }
  rewrite get16_set16_eq by (rewrite length_set16, Hl; unfold len_off, sizeof_nmrp_msg; lia).
  apply Z.mod_pos_bound. lia.
Qed.

(** X12: a frame longer than [rx] that declares more than the 34 bytes of
    [struct nmrp_msg] makes the second [recvfrom] write past [rx]. *)
Theorem pkt_recv_overflow (d : list Z) (q : list sock_event) :
  ntohs (ether_type (peeked d)) = ETH_P_NMRP ->
  Z.of_nat sizeof_nmrp_pkt < Z.of_nat (length d) ->
  Z.of_nat sizeof_nmrp_msg < declared_len d ->
  pkt_recv (Datagram d :: q) = Undefined.
Proof.
  intros Hty Hlen Hdecl. rewrite pkt_recv_datagram, Hty.
  change (negb (ETH_P_NMRP =? ETH_P_NMRP)) with false. cbv iota.
  assert (Z.of_nat sizeof_nmrp_pkt = 48) by reflexivity.
  assert (Z.of_nat sizeof_nmrp_msg = 34) by reflexivity.
  assert (Z.of_nat ETH_HLEN = 14) by reflexivity.
  assert (NMRP_MIN_PKT_LEN = 20) by reflexivity.
  destruct (Z.ltb_spec (Z.of_nat (length d)) NMRP_MIN_PKT_LEN); [lia|].
  cbv zeta. unfold recvfrom.
  destruct (Z.ltb_spec (Z.of_nat sizeof_nmrp_pkt)
              (Z.min (declared_len d + Z.of_nat ETH_HLEN) (Z.of_nat (length d)))); [reflexivity|lia].
Qed.

Lemma bind_ret {A B} (a : A) (k : A -> exec B) : Returns a ≫= k = k a.
Proof. reflexivity. Qed.

Lemma eh_set_msg_pkt_store p m (data : list Z) :
  (ETH_HLEN <= length data)%nat ->
  eh (set_msg (pkt_store p data) m) = take ETH_HLEN data.
Proof.
  intros H. unfold set_msg, pkt_store, pkt_of_bytes. cbn [eh].
  by rewrite take_app_le.
Qed.

(** X13: [pkt_recv] returns 0 only for a frame of the NMRP Ethertype that is at
    least as long as its header declares and fits [rx]; that frame is then
    gone from the queue, and [rx] holds its Ethernet header. *)
Theorem pkt_recv_success (q q' : list sock_event) (rx : nmrp_pkt) :
  pkt_recv q = Returns (0, rx, q') ->
  exists d,
    q = Datagram d :: q' /\
    ntohs (ether_type (peeked d)) = ETH_P_NMRP /\
    declared_len d + Z.of_nat ETH_HLEN <= Z.of_nat (length d) /\
    declared_len d <= Z.of_nat sizeof_nmrp_msg /\
    eh rx = take ETH_HLEN d.
Proof.
  destruct q as [|[d|e] q].
  - intros H. unfold pkt_recv, recvfrom in H. cbn in H. discriminate.
  - rewrite pkt_recv_datagram.
    destruct (Z.eqb_spec (ntohs (ether_type (peeked d))) ETH_P_NMRP) as [Hty|];
      cbn [negb]; [|discriminate].
    destruct (Z.ltb_spec (Z.of_nat (length d)) NMRP_MIN_PKT_LEN) as [|Hmin]; [discriminate|].
    cbv zeta. unfold recvfrom.
    pose proof (declared_len_range d) as Hdl.
    destruct (Z.ltb_spec (Z.of_nat sizeof_nmrp_pkt)
                (Z.min (declared_len d + Z.of_nat ETH_HLEN) (Z.of_nat (length d))))
      as [|Hfit]; [discriminate|].
    cbn [mbind exec_bind].
    destruct (Z.ltb_spec (Z.min (declared_len d + Z.of_nat ETH_HLEN) (Z.of_nat (length d))) 0);
      [discriminate|].
    destruct (Z.eqb_spec (Z.min (declared_len d + Z.of_nat ETH_HLEN) (Z.of_nat (length d)))
                (declared_len d + Z.of_nat ETH_HLEN)) as [Hm|]; cbn [negb];
      [|discriminate].
    intros Hr. apply bind_returns in Hr as [[r m] [_ Hr]].
    injection Hr as _ <- <-. exists d.
    assert (H48 : Z.of_nat sizeof_nmrp_pkt = 48) by reflexivity.
    assert (H34 : Z.of_nat sizeof_nmrp_msg = 34) by reflexivity.
    assert (H14 : Z.of_nat ETH_HLEN = 14) by reflexivity.
    assert (N14 : ETH_HLEN = 14%nat) by reflexivity.
    split; [reflexivity|]. split; [exact Hty|]. split; [lia|]. split; [lia|].
    rewrite eh_set_msg_pkt_store by (rewrite length_take; lia).
    rewrite take_take. f_equal. lia.
  - unfold pkt_recv, recvfrom. cbn [mbind exec_bind].
    change (-1 <? 0) with true. cbv iota. destruct (e =? EAGAIN); discriminate.
Qed.

(** X14: [pkt_recv] returns 2 only when no frame arrived in time, and 3 only for
    a queued frame of another Ethertype; neither takes a frame off the
    queue. *)
Theorem pkt_recv_timeout_or_foreign (q q' : list sock_event) (err : Z) (rx : nmrp_pkt) :
  pkt_recv q = Returns (err, rx, q') ->
  (err = 2 -> (q = [] /\ q' = []) \/ q = RecvError EAGAIN :: q') /\
  (err = 3 -> q' = q /\ exists d qt, q = Datagram d :: qt /\
                                     ntohs (ether_type (peeked d)) <> ETH_P_NMRP).
Proof.
  intros H. destruct q as [|[d|e] q].
  - unfold pkt_recv, recvfrom in H. cbn in H. injection H as <- <- <-.
    split; [auto|discriminate].
  - rewrite pkt_recv_datagram in H.
    destruct (Z.eqb_spec (ntohs (ether_type (peeked d))) ETH_P_NMRP) as [Hty|Hty];
      cbn [negb] in H.
    + assert (err = 0 \/ err = 1) as Herr.
      { destruct (Z.of_nat (length d) <? NMRP_MIN_PKT_LEN); [injection H; auto|].
        cbv zeta in H. apply bind_returns in H as [[[[b e] p] q2] [_ H]].
        destruct (b <? 0); [injection H; auto|].
        destruct (negb _); [injection H; auto|].
        apply bind_returns in H as [[r m] [_ H]]. injection H as <- _ _.
        destruct r; auto. }
      split; intros ->; destruct Herr; discriminate.
    + injection H as <- <- <-. split; [discriminate|]. intros _.
      split; [reflexivity|]. exists d, q. split; [reflexivity|exact Hty].
  - unfold pkt_recv, recvfrom in H. cbn [mbind exec_bind] in H.
    change (-1 <? 0) with true in H. cbv iota in H.
    destruct (Z.eqb_spec e EAGAIN) as [->|]; injection H as <- <- <-.
    + split; [auto|discriminate].
    + split; discriminate.
Qed.


(** X15: a frame with a header-only message (declared length 6), padded or not,
    is accepted and removed from the queue; [rx] holds the Ethernet header
    and the message with its length in host order. *)
Theorem pkt_recv_header_only (dst src : list Z) (c : Z) (pad : list Z)
    (q : list sock_event) :
  length dst = ETH_ALEN -> length src = ETH_ALEN ->
  pkt_recv (Datagram (dst ++ src ++ [9; 18] ++ [0; 0; c; 0; 0; 6] ++ pad) :: q)
  = Returns (0, {| eh := dst ++ src ++ [9; 18];
                   msg := [0; 0; c; 0; 6; 0] ++ repeat 0 28%nat |}, q).
Proof.
  intros Hd Hs.
  do 6 (destruct dst as [|? dst]; [discriminate Hd|]). destruct dst; [|discriminate Hd].
  do 6 (destruct src as [|? src]; [discriminate Hs|]). destruct src; [|discriminate Hs].
  cbn [app]. clear Hd Hs.
  match goal with |- pkt_recv (Datagram ?f :: _) = _ => set (d := f) end.
  assert (Hpk : peeked d = {| eh := [z; z0; z1; z2; z3; z4; z5; z6; z7; z8; z9; z10; 9; 18];
                              msg := [0; 0; c; 0; 0; 6] ++ repeat 0 28%nat |}) by reflexivity.
  assert (Hdl : declared_len d = 6) by (unfold declared_len; rewrite Hpk; reflexivity).
  assert (Hlen : Z.of_nat (length d) = 20 + Z.of_nat (length pad))
    by (subst d; cbn [length]; lia).
  rewrite pkt_recv_datagram, Hdl, Hpk.
  change (negb (ntohs (ether_type _) =? ETH_P_NMRP)) with false. cbv iota.
  destruct (Z.ltb_spec (Z.of_nat (length d)) NMRP_MIN_PKT_LEN) as [Hlt|_].
  { unfold NMRP_MIN_PKT_LEN, NMRP_HDR_LEN in Hlt. lia. }
  cbv zeta. unfold recvfrom.
  change (6 + Z.of_nat ETH_HLEN) with 20. rewrite Z.min_l by lia.
  change (Z.of_nat sizeof_nmrp_pkt <? 20) with false. cbv iota.
  subst d. reflexivity.
Qed.

Lemma pkt_recv_header_only_witness :
  length Scenario.local_hw = ETH_ALEN /\ length Scenario.device_hw = ETH_ALEN /\
  pkt_recv (Datagram (Scenario.local_hw ++ Scenario.device_hw ++ [9; 18]
                      ++ [0; 0; NMRP_C_CLOSE_REQ; 0; 0; 6] ++ repeat 0 40%nat) :: [])
  = Returns (0, {| eh := Scenario.local_hw ++ Scenario.device_hw ++ [9; 18];
                   msg := [0; 0; NMRP_C_CLOSE_REQ; 0; 6; 0] ++ repeat 0 28%nat |}, []).
Proof.
  split; [reflexivity|]. split; [reflexivity|].
  apply (pkt_recv_header_only Scenario.local_hw Scenario.device_hw NMRP_C_CLOSE_REQ
           (repeat 0 40%nat) []); reflexivity.
Defined.


(** X16: a frame that declares a message length from 1 to 4 takes [pkt_recv]
    outside the defined behaviour.  The second [recvfrom] is asked for
    fewer bytes than the peek and leaves [len] as [msg_hdr_ntoh] had put
    it; [msg_ntoh] converts it once more, to 256 times the declared
    length, and walks the zeroed option slots and on past them. *)
Theorem pkt_recv_tiny_declared_length (dst src : list Z) (c k : Z) (pad : list Z)
    (q : list sock_event) :
  length dst = ETH_ALEN -> length src = ETH_ALEN -> 1 <= k <= 4 ->
  pkt_recv (Datagram (dst ++ src ++ [9; 18] ++ [0; 0; c; 0; 0; k] ++ pad) :: q)
  = Undefined.
Proof.
  intros Hd Hs Hk.
  do 6 (destruct dst as [|? dst]; [discriminate Hd|]). destruct dst; [|discriminate Hd].
  do 6 (destruct src as [|? src]; [discriminate Hs|]). destruct src; [|discriminate Hs].
  cbn [app]. clear Hd Hs.
  match goal with |- pkt_recv (Datagram ?f :: _) = _ => set (d := f) end.
  assert (Hlen : Z.of_nat (length d) = 20 + Z.of_nat (length pad))
    by (subst d; cbn [length]; lia).
  assert (Hpk : peeked d
                = {| eh := [z; z0; z1; z2; z3; z4; z5; z6; z7; z8; z9; z10; 9; 18];
                     msg := [0; 0; c; 0; 0; k] ++ repeat 0 28%nat |}) by reflexivity.
  assert (Hdl : k = 1 \/ k = 2 \/ k = 3 \/ k = 4) by lia.
  assert (Hdl' : declared_len d = k).
  { unfold declared_len. rewrite Hpk.
    destruct Hdl as [-> | [-> | [-> | ->]]]; reflexivity. }
  rewrite pkt_recv_datagram, Hdl', Hpk.
  change (negb (ntohs (ether_type _) =? ETH_P_NMRP)) with false; cbv iota.
  destruct (Z.ltb_spec (Z.of_nat (length d)) NMRP_MIN_PKT_LEN) as [Hlt|_];
    [unfold NMRP_MIN_PKT_LEN, NMRP_HDR_LEN in Hlt; lia|].
  cbv zeta; unfold recvfrom.
  assert (H14 : Z.of_nat ETH_HLEN = 14) by reflexivity.
  assert (H48 : Z.of_nat sizeof_nmrp_pkt = 48) by reflexivity.
  rewrite Z.min_l by lia.
  destruct (Z.ltb_spec (Z.of_nat sizeof_nmrp_pkt) (k + Z.of_nat ETH_HLEN)); [lia|].
  clear Hpk Hdl' Hlen. subst d.
  destruct Hdl as [-> | [-> | [-> | ->]]]; reflexivity.
Qed.

Lemma pkt_recv_tiny_declared_length_witness :
  length Scenario.local_hw = ETH_ALEN /\ length Scenario.device_hw = ETH_ALEN /\
  1 <= 3 <= 4 /\
  pkt_recv (Datagram (Scenario.local_hw ++ Scenario.device_hw ++ [9; 18]
                      ++ [0; 0; NMRP_C_CONF_REQ; 0; 0; 3] ++ repeat 0 40%nat) :: [])
  = Undefined.
Proof.
  split; [reflexivity|]. split; [reflexivity|]. split; [lia|].
  apply (pkt_recv_tiny_declared_length Scenario.local_hw Scenario.device_hw NMRP_C_CONF_REQ
           3 (repeat 0 40%nat) []); [reflexivity|reflexivity|lia].
Defined.


(** ** The cases of the handshake loop *)

Lemma get8_set8_zero b o : get8 (set8 b o 0) o = 0.
Proof.
  destruct (Nat.lt_ge_cases o (length b)).
  - by rewrite get8_set8_eq.
  - unfold get8, set8. rewrite list_insert_ge by lia.
    rewrite (lookup_ge_None_2 b o) by lia. reflexivity.
Qed.

Lemma msg_code_tx_reset m : msg_code (tx_reset m) = NMRP_C_NONE.
Proof.
  unfold msg_code, tx_reset, set32, code_off, reserved_off, id_off, num_opts_off, len_off.
  rewrite !get8_set16_ne by lia. rewrite get8_set8_ne by lia.
  rewrite get8_set16_ne by lia. apply get8_set8_zero.
Qed.

(** X17: a code without a case in the switch: the switch hands back the
    session it was given (expected code, upload counter, peer, [tx]) with
    the world untouched, and the loop sends nothing and receives the next
    message. *)
Theorem unknown_code_ignored fuel env args ip mask st rx w :
  known_code (msg_code (msg rx)) = false ->
  handle_code env args ip mask st rx w = SwNext st 1 w /\
  handshake_loop (S fuel) env args ip mask st rx w
  = receive_next fuel env args ip mask
      {| expect := expect st; ulreqs := ulreqs st; peer := peer st;
         tx := set_msg (tx st) (tx_reset (msg (tx st))) |} w.
Proof.
  unfold known_code. intros Hk.
  repeat (apply orb_false_elim in Hk as [Hk ?]).
  assert (Hsw : forall st', handle_code env args ip mask st' rx w = SwNext st' 1 w).
  { intros st'. unfold handle_code.
    repeat match goal with H : (_ =? _) = false |- _ => rewrite H end. reflexivity. }
  split; [apply Hsw|].
  rewrite handshake_loop_unfold. cbv zeta. rewrite Hsw.
  cbn [set_tx_msg tx msg set_msg]. rewrite msg_code_tx_reset.
  change (negb (NMRP_C_NONE =? NMRP_C_NONE)) with false. cbv iota.
  cbn [mbind exec_bind]. change (0 <? 0) with false. cbv iota.
  assert (Hc : (msg_code (msg rx) =? NMRP_C_CLOSE_REQ) = false) by assumption.
  rewrite Hc. reflexivity.
Qed.

Lemma unknown_code_ignored_witness :
  known_code (msg_code (msg (Cases.rx_of 9))) = false /\
  handle_code (Scenario.env_ok 1) Scenario.args_ok Cases.ip Cases.mask
    Scenario.session_await_ul (Cases.rx_of 9) (Scenario.world_of [Scenario.close_ack])
    = SwNext Scenario.session_await_ul 1 (Scenario.world_of [Scenario.close_ack]) /\
  handshake_loop 2 (Scenario.env_ok 1) Scenario.args_ok Cases.ip Cases.mask
    Scenario.session_await_ul (Cases.rx_of 9) (Scenario.world_of [Scenario.close_ack])
  = receive_next 1 (Scenario.env_ok 1) Scenario.args_ok Cases.ip Cases.mask
      {| expect := expect Scenario.session_await_ul; ulreqs := ulreqs Scenario.session_await_ul;
         peer := peer Scenario.session_await_ul;
         tx := set_msg (tx Scenario.session_await_ul)
                 (tx_reset (msg (tx Scenario.session_await_ul))) |}
      (Scenario.world_of [Scenario.close_ack]).
Proof.
  split; [reflexivity|].
  apply (unknown_code_ignored 1 (Scenario.env_ok 1) Scenario.args_ok Cases.ip Cases.mask
           Scenario.session_await_ul (Cases.rx_of 9) (Scenario.world_of [Scenario.close_ack])).
  reflexivity.
Defined.

(** X18: a close-ack ends the session with 0 and an advertisement ends it with
    1; in both cases nothing is sent and nothing more is received. *)
Theorem close_ack_or_advertise_ends fuel env args ip mask st rx w :
  msg_code (msg rx) = NMRP_C_CLOSE_ACK \/ msg_code (msg rx) = NMRP_C_ADVERTISE ->
  handshake_loop (S fuel) env args ip mask st rx w
  = Returns (if msg_code (msg rx) =? NMRP_C_CLOSE_ACK then 0 else 1, w).
Proof.
  intros [Hc|Hc]; rewrite handshake_loop_unfold; cbv zeta; unfold handle_code;
    rewrite Hc; reflexivity.
Qed.

Lemma handle_code_close_req env args ip mask st rx w :
  msg_code (msg rx) = NMRP_C_CLOSE_REQ ->
  handle_code env args ip mask st rx w
  = SwNext (set_tx_msg st (set8 (msg (tx st)) code_off NMRP_C_CLOSE_ACK)) 1 w.
Proof. intros H. unfold handle_code. rewrite H. reflexivity. Qed.

Lemma msg_code_set_code m c :
  length m = sizeof_nmrp_msg -> 0 <= c < 256 ->
  msg_code (set8 (tx_reset m) code_off c) = c.
Proof.
  intros Hm Hc. unfold msg_code. rewrite get8_set8_eq; [by apply Z.mod_small|].
  unfold tx_reset. rewrite length_set16, length_set32, length_set8, length_set16, length_set8.
  rewrite Hm. unfold code_off, sizeof_nmrp_msg. lia.
Qed.

(** X19: a close-request is answered with one close-ack to the peer and ends the
    session: with 0, or with 1 when the [sendto] fails.  Nothing more is
    received. *)
Theorem close_req_ends_session fuel env args ip mask st rx w :
  msg_code (msg rx) = NMRP_C_CLOSE_REQ -> wf_pkt (tx st) ->
  handshake_loop (S fuel) env args ip mask st rx w
  = Returns (if sendto_fails env (count is_sendto (w_trace w)) then 1 else 0,
             log w (ASendto (peer st) (eh (tx st) ++ [0; 0; NMRP_C_CLOSE_ACK; 0; 0; 6])
                      (negb (sendto_fails env (count is_sendto (w_trace w)))))).
Proof.
  intros Hcode [Heh Hmsg].
  rewrite handshake_loop_unfold. cbv zeta. rewrite handle_code_close_req by exact Hcode.
  cbn [set_tx_msg tx msg set_msg expect ulreqs peer eh].
  rewrite msg_encode_header_only by (auto; unfold NMRP_C_CLOSE_ACK; lia).
  rewrite msg_code_set_code by (auto; unfold NMRP_C_CLOSE_ACK; lia).
  change (negb (NMRP_C_CLOSE_ACK =? NMRP_C_NONE)) with true. cbv iota.
  cbn [mbind exec_bind]. unfold set_tx_msg, set_msg. cbn [tx msg eh expect ulreqs peer].
  rewrite pkt_send_header_only by exact Heh. cbn [mbind exec_bind].
  rewrite Hcode. destruct (sendto_fails env _); reflexivity.
Qed.

Lemma close_req_ends_session_witness :
  msg_code (msg {| eh := Scenario.local_hw ++ Scenario.device_hw ++ [9; 18];
                   msg := [0; 0; 4; 0; 6; 0] ++ repeat 0 28%nat |}) = NMRP_C_CLOSE_REQ /\
  wf_pkt (tx Scenario.session_await_ul) /\
  handshake_loop 1 (Scenario.env_ok 1) Scenario.args_ok [192; 168; 1; 1] [255; 255; 255; 0]
    Scenario.session_await_ul
    {| eh := Scenario.local_hw ++ Scenario.device_hw ++ [9; 18];
       msg := [0; 0; 4; 0; 6; 0] ++ repeat 0 28%nat |} (Scenario.world_of [])
  = Returns (if sendto_fails (Scenario.env_ok 1)
                  (count is_sendto (w_trace (Scenario.world_of []))) then 1 else 0,
             log (Scenario.world_of [])
               (ASendto (peer Scenario.session_await_ul)
                  (eh (tx Scenario.session_await_ul) ++ [0; 0; NMRP_C_CLOSE_ACK; 0; 0; 6])
                  (negb (sendto_fails (Scenario.env_ok 1)
                           (count is_sendto (w_trace (Scenario.world_of []))))))).
Proof.
  split; [reflexivity|]. split; [split; reflexivity|].
  apply (close_req_ends_session 0 (Scenario.env_ok 1) Scenario.args_ok [192; 168; 1; 1]
           [255; 255; 255; 0] Scenario.session_await_ul); [reflexivity|split; reflexivity].
Defined.








(** X22: from the sixth upload request on there is no transfer: the switch
    counts the request, puts a close-request into [tx] and leaves the
    expected code, the peer and the world as they were.  The close-request
    goes to the peer, and unless that [sendto] fails the loop receives the
    next message and goes on. *)
Theorem ul_req_over_limit fuel env args ip mask st rx w :
  msg_code (msg rx) = NMRP_C_TFTP_UL_REQ -> 5 <= ulreqs st -> wf_pkt (tx st) ->
  handle_code env args ip mask st rx w
  = SwNext {| expect := expect st; ulreqs := ulreqs st + 1; peer := peer st;
              tx := set_msg (tx st) (set8 (msg (tx st)) code_off NMRP_C_CLOSE_REQ) |}
           1 w /\
  handshake_loop (S fuel) env args ip mask st rx w
  = if sendto_fails env (count is_sendto (w_trace w)) then
      Returns (1, log w (ASendto (peer st) (eh (tx st) ++ [0; 0; NMRP_C_CLOSE_REQ; 0; 0; 6])
                           false))
    else
      receive_next fuel env args ip mask
        {| expect := expect st; ulreqs := ulreqs st + 1; peer := peer st;
           tx := {| eh := eh (tx st);
                    msg := [0; 0; NMRP_C_CLOSE_REQ; 0; 0; 6]
                           ++ take 24 (drop 6 (msg (tx st))) ++ [0; 0; 0; 0] |} |}
        (log w (ASendto (peer st) (eh (tx st) ++ [0; 0; NMRP_C_CLOSE_REQ; 0; 0; 6]) true)).
Proof.
  intros Hc Hn [Heh Hmsg].
  split; [by apply handle_code_ul_req_exhausted|].
  rewrite handshake_loop_unfold. cbv zeta.
  rewrite handle_code_ul_req_exhausted by (auto; cbn [set_tx_msg ulreqs]; lia).
  cbn [set_tx_msg tx msg set_msg expect ulreqs peer eh].
  rewrite msg_encode_header_only by (auto; unfold NMRP_C_CLOSE_REQ; lia).
  rewrite msg_code_set_code by (auto; unfold NMRP_C_CLOSE_REQ; lia).
  change (negb (NMRP_C_CLOSE_REQ =? NMRP_C_NONE)) with true. cbv iota.
  cbn [mbind exec_bind]. unfold set_tx_msg, set_msg. cbn [tx msg eh expect ulreqs peer].
  rewrite pkt_send_header_only by exact Heh. cbn [mbind exec_bind].
  rewrite Hc. change (NMRP_C_TFTP_UL_REQ =? NMRP_C_CLOSE_REQ) with false.
  destruct (sendto_fails env _); reflexivity.
Qed.

Lemma handle_code_with_expect env args ip mask e st rx w :
  match handle_code env args ip mask st rx w,
        handle_code env args ip mask (with_expect e st) rx w with
  | SwOut r w1, SwOut r' w1' => r = r' /\ w1 = w1'
  | SwNext st1 r w1, SwNext st1' r' w1' =>
      r = r' /\ w1 = w1' /\ exists e', st1' = with_expect e' st1
  | _, _ => False
  end.
Proof.
  unfold handle_code. cbn [with_expect tx ulreqs peer expect].
  repeat match goal with
         | |- context [if ?c then _ else _] => destruct c
         | |- context [transfer ?en ?x] => destruct (transfer en x) as [r w1]
         end; repeat split; try (by eexists; unfold with_expect; cbn; reflexivity).
Qed.

(** X23: the expected code only selects a message on [stderr]: the loop does the
    same whatever code it is waiting for. *)
Theorem expect_not_enforced fuel env args ip mask e st rx w :
  handshake_loop fuel env args ip mask (with_expect e st) rx w
  = handshake_loop fuel env args ip mask st rx w.
Proof.
  revert e st rx w. induction fuel as [|fuel IH]; intros e st rx w; [reflexivity|].
  rewrite !handshake_loop_unfold. cbv zeta.
  change (set_tx_msg (with_expect e st) (tx_reset (msg (tx (with_expect e st)))))
    with (with_expect e (set_tx_msg st (tx_reset (msg (tx st))))).
  pose proof (handle_code_with_expect env args ip mask e
                (set_tx_msg st (tx_reset (msg (tx st)))) rx w) as H.
  destruct (handle_code env args ip mask (set_tx_msg st _) rx w) as [r w1|st1 r w1];
    destruct (handle_code env args ip mask (with_expect e _) rx w) as [r' w1'|st1' r' w1'];
    try contradiction.
  - destruct H as [-> ->]. reflexivity.
  - destruct H as (-> & -> & e' & ->). cbn [with_expect tx].
    destruct (negb _).
    + destruct (msg_encode (msg (tx st1))) as [m| |]; cbn [mbind exec_bind]; try reflexivity.
      change (set_tx_msg (with_expect e' st1) m) with (with_expect e' (set_tx_msg st1 m)).
      cbn [with_expect peer tx].
      destruct (pkt_send env w1' (peer (set_tx_msg st1 m)) (tx (set_tx_msg st1 m)))
        as [[sent w2]| |]; cbn [mbind exec_bind]; try reflexivity.
      destruct (sent <? 0); [reflexivity|]. destruct (_ =? NMRP_C_CLOSE_REQ); [reflexivity|].
      destruct (pkt_recv_world w2) as [[[err2 rx2] w3]| |]; cbn [mbind exec_bind];
        try reflexivity.
      destruct (negb _); [reflexivity|]. apply IH.
    + cbn [mbind exec_bind]. destruct (0 <? 0); [reflexivity|].
      destruct (_ =? NMRP_C_CLOSE_REQ); [reflexivity|].
      destruct (pkt_recv_world w1') as [[[err2 rx2] w3]| |]; cbn [mbind exec_bind];
        try reflexivity.
      destruct (negb _); [reflexivity|]. apply IH.
Qed.


(** ** Transfers of a run *)

Section Counting.
Variable f : action -> bool.

Lemma count_log w a :
  count f (w_trace (log w a)) = (count f (w_trace w) + if f a then 1 else 0)%nat.
Proof. apply count_snoc. Qed.

Lemma pkt_send_count env w addr p r w' :
  pkt_send env w addr p = Returns (r, w') ->
  exists dst fr ok, count f (w_trace w') = (count f (w_trace w) + if f (ASendto dst fr ok) then 1 else 0)%nat.
Proof.
  unfold pkt_send. destruct (_ <? _)%nat; [discriminate|].
  intros [= _ <-]. rewrite count_log. eauto.
Qed.

Lemma pkt_recv_world_count w err rx w' :
  pkt_recv_world w = Returns (err, rx, w') ->
  count f (w_trace w') = (count f (w_trace w) + if f (ARecv err rx) then 1 else 0)%nat.
Proof.
  unfold pkt_recv_world. intros H. apply bind_returns in H as [[[e p] q] [_ H]].
  injection H as <- <- <-. cbn [w_trace]. apply count_snoc.
Qed.

End Counting.

Lemma handle_code_transfers env args ip mask st rx w :
  match handle_code env args ip mask st rx w with
  | SwOut _ w' =>
      (transfers w' <= transfers w + Z.to_nat (5 - ulreqs st))%nat /\
      (transfers w' <= transfers w + pending rx)%nat /\ ul_reqs w' = ul_reqs w
  | SwNext st1 _ w' =>
      (transfers w' + Z.to_nat (5 - ulreqs st1)
       <= transfers w + Z.to_nat (5 - ulreqs st))%nat /\
      (transfers w' <= transfers w + pending rx)%nat /\ ul_reqs w' = ul_reqs w
  end.
Proof.
  unfold handle_code, pending, transfers, ul_reqs.
  destruct (_ =? NMRP_C_ADVERTISE) eqn:E1; [repeat split; lia|].
  destruct (_ =? NMRP_C_CONF_REQ) eqn:E2; [cbn [ulreqs]; repeat split; lia|].
  destruct (_ =? NMRP_C_TFTP_UL_REQ) eqn:E3.
  - destruct (Z.ltb_spec 5 (ulreqs st + 1)); [cbn [ulreqs]; repeat split; lia|].
    unfold transfer. destruct (_ =? 0); cbn [ulreqs]; rewrite ?count_log; cbn;
      repeat split; lia.
  - repeat match goal with |- context [if ?c then _ else _] => destruct c end;
      cbn [set_tx_msg ulreqs]; repeat split; lia.
Qed.

(** The loop runs a transfer only for an upload request it has received,
    and only while the allowance of five lasts. *)
Lemma handshake_loop_transfers fuel env args ip mask st rx w err w' :
  handshake_loop fuel env args ip mask st rx w = Returns (err, w') ->
  (transfers w' <= transfers w + Z.to_nat (5 - ulreqs st))%nat /\
  (transfers w' + ul_reqs w <= transfers w + ul_reqs w' + pending rx)%nat.
Proof.
  revert st rx w. induction fuel as [|fuel IH]; intros st rx w H; [discriminate|].
  rewrite handshake_loop_unfold in H. cbv zeta in H.
  pose proof (handle_code_transfers env args ip mask
                (set_tx_msg st (tx_reset (msg (tx st)))) rx w) as Hh.
  destruct (handle_code _ _ _ _ _ _ _) as [e w1|st1 e w1].
  { simplify_eq. cbn [set_tx_msg ulreqs] in Hh. lia. }
  cbn [set_tx_msg ulreqs] in Hh.
  apply bind_returns in H as [[[sent st2] w2] [Hs H]].
  assert (transfers w2 = transfers w1 /\ ul_reqs w2 = ul_reqs w1 /\ ulreqs st2 = ulreqs st1)
    as (Ht2 & Hu2 & Hn2).
  { destruct (negb _).
    - apply bind_returns in Hs as [m [_ Hs]].
      apply bind_returns in Hs as [[s' w2'] [Hs Hs']].
      injection Hs' as _ <- <-.
      pose proof (pkt_send_count is_transfer _ _ _ _ _ _ Hs) as (? & ? & ? & Ha).
      pose proof (pkt_send_count is_ul_req _ _ _ _ _ _ Hs) as (? & ? & ? & Hb).
      unfold transfers, ul_reqs. cbn in Ha, Hb. cbn [set_tx_msg ulreqs]. lia.
    - injection Hs as _ <- <-. auto. }
  clear Hs.
  destruct (sent <? 0); [simplify_eq; lia|].
  destruct (msg_code (msg rx) =? NMRP_C_CLOSE_REQ); [simplify_eq; lia|].
  apply bind_returns in H as [[[err2 rx2] w3] [Hr H]].
  pose proof (pkt_recv_world_count is_transfer _ _ _ _ Hr) as Ha.
  pose proof (pkt_recv_world_count is_ul_req _ _ _ _ Hr) as Hb.
  cbn [is_transfer is_ul_req] in Ha, Hb. fold (transfers w3) (transfers w2) in Ha.
  fold (ul_reqs w3) (ul_reqs w2) in Hb.
  destruct (Z.eqb_spec err2 0) as [->|Hne]; cbn [negb] in H.
  - apply IH in H. unfold transfers, ul_reqs in H. rewrite !count_log in H.
    cbn [is_transfer is_ul_req] in H. fold (transfers w3) (ul_reqs w3) (transfers w')
      (ul_reqs w') in H.
    unfold pending in H at 1. cbn [andb Z.eqb] in Hb.
    destruct (msg_code (msg rx2) =? NMRP_C_TFTP_UL_REQ); lia.
  - simplify_eq. cbn [andb] in Hb. lia.
Qed.

Lemma advertise_loop_transfers fuel env src addr tx beg err w r :
  advertise_loop fuel env src addr tx beg err w = Returns r ->
  match r with
  | AdvBreak rx w' => transfers w' = transfers w /\ (ul_reqs w + pending rx <= ul_reqs w')%nat
  | AdvOut _ w' => transfers w' = transfers w /\ (ul_reqs w <= ul_reqs w')%nat
  end.
Proof.
  revert err w. induction fuel as [|fuel IH]; intros err w H; [discriminate|].
  cbn [advertise_loop] in H.
  apply bind_returns in H as [[sent w1] [Hs H]].
  pose proof (pkt_send_count is_transfer _ _ _ _ _ _ Hs) as (? & ? & ? & Ha).
  pose proof (pkt_send_count is_ul_req _ _ _ _ _ _ Hs) as (? & ? & ? & Hb).
  cbn in Ha, Hb. fold (transfers w1) (transfers w) in Ha. fold (ul_reqs w1) (ul_reqs w) in Hb.
  clear Hs.
  destruct (sent <? 0); [simplify_eq; lia|].
  apply bind_returns in H as [[[err1 rx] w2] [Hr H]].
  pose proof (pkt_recv_world_count is_transfer _ _ _ _ Hr) as Hc.
  pose proof (pkt_recv_world_count is_ul_req _ _ _ _ Hr) as Hd.
  cbn [is_transfer is_ul_req] in Hc, Hd. fold (transfers w2) (transfers w1) in Hc.
  fold (ul_reqs w2) (ul_reqs w1) in Hd. clear Hr.
  destruct (err1 =? 0) eqn:E0; cbn [andb] in H, Hd.
  - destruct (memeq _ _ _).
    + simplify_eq. unfold pending. destruct (_ =? NMRP_C_TFTP_UL_REQ); lia.
    + destruct (err1 =? 1); [simplify_eq; lia|].
      unfold time in H.
      destruct (60 <=? _ - beg); [simplify_eq; unfold transfers, ul_reqs; rewrite !count_log; cbn; unfold transfers, ul_reqs in *; lia|].
      apply IH in H. unfold transfers, ul_reqs in H. rewrite !count_log in H. cbn in H.
      unfold transfers, ul_reqs in *. destruct r; lia.
  - destruct (err1 =? 1); [simplify_eq; lia|].
    unfold time in H.
    destruct (60 <=? _ - beg); [simplify_eq; unfold transfers, ul_reqs; rewrite !count_log; cbn; unfold transfers, ul_reqs in *; lia|].
    apply IH in H. unfold transfers, ul_reqs in H. rewrite !count_log in H. cbn in H.
    unfold transfers, ul_reqs in *. destruct r; lia.
Qed.

Lemma nmrp_do_transfers fuel env args w err w' :
  nmrp_do fuel env args w = Returns (err, w') ->
  (transfers w' <= transfers w + 5)%nat /\
  (transfers w' + ul_reqs w <= transfers w + ul_reqs w')%nat.
Proof.
  unfold nmrp_do. intros H.
  destruct (negb (op_is_upload_fw args)); [simplify_eq; lia|].
  destruct (mac args) as [dest|]; [|simplify_eq; lia].
  destruct (ipaddr args) as [ip|]; [|simplify_eq; lia].
  destruct (ipmask args) as [mask|]; [|simplify_eq; lia].
  destruct (negb (file_readable args)); [simplify_eq; lia|].
  destruct (socket_fails env).
  { simplify_eq. unfold transfers, ul_reqs. rewrite !count_log. cbn. lia. }
  destruct (intf_info env) as [src|].
  2:{ simplify_eq. unfold transfers, ul_reqs. rewrite !count_log. cbn. lia. }
  destruct (bind_fails env).
  { simplify_eq. unfold transfers, ul_reqs. rewrite !count_log. cbn. lia. }
  destruct (set_rx_timeout_fails env).
  { simplify_eq. unfold transfers, ul_reqs. rewrite !count_log. cbn. lia. }
  apply bind_returns in H as [tx0 [_ H]]. unfold time in H.
  apply bind_returns in H as [r [Ha H]].
  apply advertise_loop_transfers in Ha.
  unfold transfers, ul_reqs in Ha. rewrite !count_log in Ha. cbn in Ha.
  destruct r as [rx w2|e w2].
  - apply bind_returns in H as [[e w3] [Hh H]].
    apply handshake_loop_transfers in Hh. cbn [ulreqs] in Hh. injection H as _ <-.
    unfold transfers, ul_reqs in *. rewrite !count_log. cbn.
    change (Z.to_nat (5 - 0)) with 5%nat in Hh. lia.
  - injection H as _ <-. unfold transfers, ul_reqs in *. rewrite !count_log. cbn. lia.
Qed.

(** X24: however long the device keeps asking, one run of [nmrp_do] runs the
    transfer at most five times. *)
Theorem nmrp_do_at_most_five_transfers fuel env args w err w' :
  nmrp_do fuel env args w = Returns (err, w') ->
  (transfers w' <= transfers w + 5)%nat.
Proof. intros H. by apply nmrp_do_transfers in H as [? _]. Qed.

(** X25: [nmrp_do] never runs the transfer on its own: a run has no more
    transfers than upload requests that [pkt_recv] accepted in it. *)
Theorem nmrp_do_transfers_are_requested fuel env args w err w' :
  nmrp_do fuel env args w = Returns (err, w') ->
  (transfers w' + ul_reqs w <= transfers w + ul_reqs w')%nat.
Proof. intros H. by apply nmrp_do_transfers in H as [_ ?]. Qed.


(** ** Termination *)

Lemma pkt_recv_fuel q : pkt_recv q <> OutOfFuel.
Proof.
  destruct q as [|[d|e] q].
  - discriminate.
  - rewrite pkt_recv_datagram. destruct (negb _); [discriminate|].
    destruct (_ <? NMRP_MIN_PKT_LEN); [discriminate|]. cbv zeta.
    unfold recvfrom. destruct (Z.of_nat sizeof_nmrp_pkt <? _); [discriminate|].
    cbn [mbind exec_bind]. destruct (_ <? 0); [discriminate|].
    destruct (negb _); [discriminate|].
    match goal with |- context [msg_ntoh ?m] =>
      pose proof (msg_ntoh_fuel m); destruct (msg_ntoh m) as [[r m']| |] end;
      [discriminate|discriminate|contradiction].
  - unfold pkt_recv, recvfrom. cbn [mbind exec_bind]. change (-1 <? 0) with true. cbv iota.
    destruct (e =? EAGAIN); discriminate.
Qed.

(** [pkt_recv] never puts anything into the queue, and a frame it accepts
    has left it. *)
Lemma pkt_recv_consumes q err rx q' :
  pkt_recv q = Returns (err, rx, q') ->
  (length q' <= length q)%nat /\ (err = 0 -> (length q' < length q)%nat).
Proof.
  destruct q as [|[d|e] q].
  - intros [= <- _ <-]. split; [reflexivity|discriminate].
  - rewrite pkt_recv_datagram. destruct (negb _).
    { intros [= <- _ <-]. split; [reflexivity|discriminate]. }
    destruct (_ <? NMRP_MIN_PKT_LEN).
    { intros [= <- _ <-]. split; [reflexivity|discriminate]. }
    cbv zeta. unfold recvfrom. destruct (Z.of_nat sizeof_nmrp_pkt <? _); [discriminate|].
    cbn [mbind exec_bind]. cbn [length]. destruct (_ <? 0).
    { intros [= <- _ <-]. split; [lia|discriminate]. }
    destruct (negb _).
    { intros [= <- _ <-]. split; [lia|discriminate]. }
    intros H. apply bind_returns in H as [[r m] [_ H]]. injection H as _ _ <-. lia.
  - unfold pkt_recv, recvfrom. cbn [mbind exec_bind]. change (-1 <? 0) with true. cbv iota.
    cbn [length]. destruct (e =? EAGAIN); intros [= <- _ <-]; (split; [lia|discriminate]).
Qed.

Lemma pkt_recv_world_fuel w : pkt_recv_world w <> OutOfFuel.
Proof.
  unfold pkt_recv_world. pose proof (pkt_recv_fuel (w_rxq w)).
  destruct (pkt_recv (w_rxq w)) as [[[e p] q]| |]; [discriminate|discriminate|contradiction].
Qed.

Lemma pkt_recv_world_consumes w err rx w' :
  pkt_recv_world w = Returns (err, rx, w') ->
  (length (w_rxq w') <= length (w_rxq w))%nat /\
  (err = 0 -> (length (w_rxq w') < length (w_rxq w))%nat).
Proof.
  unfold pkt_recv_world. intros H. apply bind_returns in H as [[[e p] q] [Hr H]].
  injection H as <- _ <-. cbn [w_rxq]. by apply pkt_recv_consumes in Hr.
Qed.

Lemma pkt_send_rxq env w addr p r w' :
  pkt_send env w addr p = Returns (r, w') -> w_rxq w' = w_rxq w.
Proof. unfold pkt_send. destruct (_ <? _)%nat; [discriminate|]. by intros [= _ <-]. Qed.

Lemma pkt_send_fuel env w addr p : pkt_send env w addr p <> OutOfFuel.
Proof. unfold pkt_send. destruct (_ <? _)%nat; discriminate. Qed.

Lemma msg_update_len_loop_fuel n i m : msg_update_len_loop n i m <> OutOfFuel.
Proof.
  revert i m. induction n as [|n IH]; intros i m; [discriminate|].
  cbn [msg_update_len_loop msg_hton_loop]. destruct (i <? opts_capacity)%nat; [apply IH|discriminate].
Qed.

Lemma msg_hton_loop_fuel n i m : msg_hton_loop n i m <> OutOfFuel.
Proof.
  revert i m. induction n as [|n IH]; intros i m; [discriminate|].
  cbn [msg_update_len_loop msg_hton_loop]. destruct (i <? opts_capacity)%nat; [apply IH|discriminate].
Qed.

Lemma msg_encode_fuel m : msg_encode m <> OutOfFuel.
Proof.
  unfold msg_encode, msg_update_len.
  pose proof (msg_update_len_loop_fuel (Z.to_nat (msg_num_opts m)) 0
                (set16 m len_off NMRP_HDR_LEN)) as H.
  destruct (msg_update_len_loop _ _ _) as [m1| |]; cbn [mbind exec_bind];
    [|discriminate|contradiction].
  unfold msg_hton. apply msg_hton_loop_fuel.
Qed.

Lemma handle_code_rxq env args ip mask st rx w :
  match handle_code env args ip mask st rx w with
  | SwOut _ w' | SwNext _ _ w' => w_rxq w' = w_rxq w
  end.
Proof.
  unfold handle_code, transfer.
  repeat match goal with |- context [if ?c then _ else _] => destruct c end; reflexivity.
Qed.

(** Every iteration of the handshake loop that goes on has taken a frame
    from the socket: the loop ends once the device is silent. *)
Lemma handshake_loop_fuel fuel env args ip mask st rx w :
  (length (w_rxq w) < fuel)%nat ->
  handshake_loop fuel env args ip mask st rx w <> OutOfFuel.
Proof.
  revert st rx w. induction fuel as [|fuel IH]; intros st rx w Hq; [lia|].
  rewrite handshake_loop_unfold. cbv zeta.
  pose proof (handle_code_rxq env args ip mask
                (set_tx_msg st (tx_reset (msg (tx st)))) rx w) as Hh.
  destruct (handle_code _ _ _ _ _ _ _) as [e w1|st1 e w1]; [discriminate|].
  match goal with |- (?e ≫= ?k) <> _ => destruct e as [[[sent st2] w2]| |] eqn:Es end;
    cbn [mbind exec_bind]; [|discriminate|].
  - assert (w_rxq w2 = w_rxq w1) as Hw2.
    { destruct (negb _).
      - apply bind_returns in Es as [m [_ Es]].
        apply bind_returns in Es as [[s' w2'] [Es Es']].
        injection Es' as _ _ <-. by apply pkt_send_rxq in Es.
      - by injection Es as _ _ <-. }
    destruct (sent <? 0); [discriminate|].
    destruct (_ =? NMRP_C_CLOSE_REQ); [discriminate|].
    pose proof (pkt_recv_world_fuel w2) as Hf.
    destruct (pkt_recv_world w2) as [[[err2 rx2] w3]| |] eqn:Er; cbn [mbind exec_bind];
      [|discriminate|contradiction].
    apply pkt_recv_world_consumes in Er as [_ Er].
    destruct (Z.eqb_spec err2 0) as [E|E]; cbn [negb]; [|discriminate].
    apply IH. unfold log. cbn [w_rxq]. specialize (Er E). rewrite Hw2, Hh in Er. lia.
  - exfalso. destruct (negb _); [|discriminate].
    pose proof (msg_encode_fuel (msg (tx st1))) as Hm.
    destruct (msg_encode (msg (tx st1))) as [m| |]; cbn [mbind exec_bind] in Es;
      [|discriminate|contradiction].
    match type of Es with context [pkt_send ?a ?b ?c ?d] =>
      pose proof (pkt_send_fuel a b c d) as Hp; destruct (pkt_send a b c d) as [[? ?]| |] end;
      cbn [mbind exec_bind] in Es; [discriminate|discriminate|contradiction].
Qed.

(** Every iteration of the advertising loop that goes on has read the
    clock: the loop ends within [n + 1] iterations when the [n]-th reading
    from now is 60 seconds past the start or later. *)
Lemma advertise_loop_fuel n fuel env src addr tx beg err w :
  (forall i, (n <= i)%nat -> 60 <= clock env (count is_time (w_trace w) + i) - beg) ->
  (n < fuel)%nat ->
  advertise_loop fuel env src addr tx beg err w <> OutOfFuel.
Proof.
  revert fuel err w. induction n as [|n IH]; intros fuel err w Hc Hf;
    (destruct fuel as [|fuel]; [lia|]); cbn [advertise_loop].
  all: pose proof (pkt_send_fuel env w addr tx) as Hp;
    destruct (pkt_send env w addr tx) as [[sent w1]| |] eqn:Es; cbn [mbind exec_bind];
    [|discriminate|contradiction].
  all: destruct (sent <? 0); [discriminate|].
  all: pose proof (pkt_recv_world_fuel w1) as Hr;
    destruct (pkt_recv_world w1) as [[[err1 rx] w2]| |] eqn:Er; cbn [mbind exec_bind];
    [|discriminate|contradiction].
  all: destruct (_ && _); [discriminate|]; destruct (err1 =? 1); [discriminate|].
  all: pose proof (pkt_send_count is_time _ _ _ _ _ _ Es) as (? & ? & ? & Ha);
    pose proof (pkt_recv_world_count is_time _ _ _ _ Er) as Hb; cbn [is_time] in Ha, Hb.
  all: unfold time.
  all: assert (Hn : count is_time (w_trace w2) = count is_time (w_trace w)) by lia;
    rewrite Hn.
  - specialize (Hc 0%nat (Nat.le_refl _)). rewrite Nat.add_0_r in Hc.
    destruct (Z.leb_spec 60 (clock env (count is_time (w_trace w)) - beg)); [discriminate|lia].
  - destruct (60 <=? _ - beg); [discriminate|].
    apply IH; [|lia]. intros i Hi. rewrite count_log. cbn [is_time]. rewrite Hn.
    replace (count is_time (w_trace w) + 1 + i)%nat
      with (count is_time (w_trace w) + S i)%nat by lia.
    apply Hc. lia.
Qed.

Lemma advertise_loop_rxq fuel env src addr tx beg err w r :
  advertise_loop fuel env src addr tx beg err w = Returns r ->
  (length (w_rxq (match r with AdvBreak _ w' | AdvOut _ w' => w' end))
   <= length (w_rxq w))%nat.
Proof.
  revert err w. induction fuel as [|fuel IH]; intros err w H; [discriminate|].
  cbn [advertise_loop] in H.
  apply bind_returns in H as [[sent w1] [Hs H]].
  apply pkt_send_rxq in Hs.
  destruct (sent <? 0); [simplify_eq; rewrite Hs; lia|].
  apply bind_returns in H as [[[err1 rx] w2] [Hr H]].
  apply pkt_recv_world_consumes in Hr as [Hr _]. rewrite Hs in Hr.
  destruct (_ && _); [simplify_eq; lia|].
  destruct (err1 =? 1); [simplify_eq; lia|].
  unfold time in H.
  destruct (60 <=? _ - beg); [simplify_eq; unfold log; cbn [w_rxq]; lia|].
  apply IH in H. unfold log in H. cbn [w_rxq] in H. lia.
Qed.

Lemma msg_encode_advertise :
  msg_encode
    (memcpy (set16 (set16 (set32 (set8 (set8 (set16 (repeat 0 sizeof_nmrp_msg) reserved_off 0)
       code_off NMRP_C_ADVERTISE) id_off 0) num_opts_off 1)
       (opt_at 0 + opt_type_off) NMRP_O_MAGIC_NO)
       (opt_at 0 + opt_len_off) (NMRP_OPT_LEN + 4))
       (opt_at 0 + opt_val_off) [78; 84; 71; 82])
  = Returns ([0; 0; NMRP_C_ADVERTISE; 0; 0; 14; 0; 1; 0; 8; 78; 84; 71; 82]
             ++ repeat 0 16%nat ++ [1; 0; 0; 0]).
Proof. vm_compute. reflexivity. Qed.

(** X26: [nmrp_do] does not go on for ever: it ends, with a result or in
    undefined behaviour, within as many iterations of the advertising loop
    as there are clock readings until 60 seconds have passed, and as many
    of the handshake loop as the socket has frames and receive errors to
    deliver. *)
Theorem nmrp_do_terminates n fuel env args w :
  (forall i, (n <= i)%nat ->
     60 <= clock env (S (count is_time (w_trace w)) + i)
           - clock env (count is_time (w_trace w))) ->
  (n < fuel)%nat -> (length (w_rxq w) < fuel)%nat ->
  nmrp_do fuel env args w <> OutOfFuel.
Proof.
  intros Hc Hn Hq. unfold nmrp_do.
  destruct (negb (op_is_upload_fw args)); [discriminate|].
  destruct (mac args) as [dest|]; [|discriminate].
  destruct (ipaddr args) as [ip|]; [|discriminate].
  destruct (ipmask args) as [mask|]; [|discriminate].
  destruct (negb (file_readable args)); [discriminate|].
  destruct (socket_fails env); [discriminate|].
  destruct (intf_info env) as [src|]; [|discriminate].
  destruct (bind_fails env); [discriminate|].
  destruct (set_rx_timeout_fails env); [discriminate|].
  unfold advertise_pkt. rewrite msg_encode_advertise. cbn [mbind exec_bind]. unfold time.
  rewrite !count_log. cbn [is_time]. rewrite !Nat.add_0_r.
  match goal with |- (advertise_loop ?f ?e ?s ?a ?t ?b ?r ?w0 ≫= _) <> _ =>
    pose proof (advertise_loop_fuel n f e s a t b r w0) as Ha;
    pose proof (advertise_loop_rxq f e s a t b r w0) as Hx;
    destruct (advertise_loop f e s a t b r w0) as [r0| |]
  end; cbn [mbind exec_bind]; [|discriminate|].
  - specialize (Hx _ eq_refl). unfold log in Hx. cbn [w_rxq] in Hx.
    destruct r0 as [rx w2|e w2]; [|discriminate].
    match goal with |- (handshake_loop ?f ?e ?a ?i ?m ?s ?r ?w0 ≫= _) <> _ =>
      pose proof (handshake_loop_fuel f e a i m s r w0) as Hh;
      destruct (handshake_loop f e a i m s r w0) as [[e3 w3]| |]
    end; cbn [mbind exec_bind]; [discriminate|discriminate|].
    exfalso. apply Hh; [lia|reflexivity].
  - exfalso. apply Ha; [|exact Hn|reflexivity].
    intros i Hi. rewrite !count_log. cbn [is_time].
    replace (count is_time (w_trace w) + 0 + 0 + 1 + i)%nat
      with (S (count is_time (w_trace w)) + i)%nat by lia.
    by apply Hc.
Qed.


(** ** The advertising loop and the result of [nmrp_do] *)

(** X27: the advertising loop does nothing but send the one frame in [tx] to
    the one address, receive and read the clock: no transfer, no change of
    the timeout, no close. *)
Theorem advertise_loop_only_advertises fuel env src addr tx beg err w r :
  advertise_loop fuel env src addr tx beg err w = Returns r ->
  exists t,
    w_trace (adv_world r) = w_trace w ++ t /\
    Forall (advertising addr
              (take (Z.to_nat (ntohs (msg_len (msg tx))) + ETH_HLEN) (pkt_bytes tx))) t.
Proof.
  revert err w. induction fuel as [|fuel IH]; intros err w H; [discriminate|].
  cbn [advertise_loop] in H.
  apply bind_returns in H as [[sent w1] [Hs H]].
  unfold pkt_send in Hs. destruct (_ <? _)%nat; [discriminate|].
  injection Hs as _ <-.
  set (a1 := ASendto addr _ _) in H.
  assert (Ha1 : advertising addr
                  (take (Z.to_nat (ntohs (msg_len (msg tx))) + ETH_HLEN) (pkt_bytes tx)) a1)
    by (split; reflexivity).
  clearbody a1.
  destruct (_ <? 0).
  { simplify_eq. exists [a1]. split; [reflexivity|]. by constructor. }
  apply bind_returns in H as [[[err1 rx] w2] [Hr H]].
  unfold pkt_recv_world in Hr. apply bind_returns in Hr as [[[e p] q] [_ Hr]].
  injection Hr as -> -> <-. cbn [log w_trace] in H.
  destruct (_ && _).
  { simplify_eq. exists [a1; ARecv err1 rx]. cbn [adv_world w_trace].
    split; [by rewrite <- app_assoc|]. repeat constructor. exact Ha1. }
  destruct (err1 =? 1).
  { simplify_eq. exists [a1; ARecv err1 rx]. cbn [adv_world w_trace].
    split; [by rewrite <- app_assoc|]. repeat constructor. exact Ha1. }
  unfold time in H. cbn [w_trace] in H.
  set (now := clock env _) in H. clearbody now.
  destruct (60 <=? now - beg).
  { simplify_eq. exists [a1; ARecv err1 rx; ATime now]. cbn [adv_world log w_trace].
    split; [by rewrite <- !app_assoc|]. repeat constructor. exact Ha1. }
  apply IH in H as (t & Ht & HF). cbn [log w_trace] in Ht.
  exists ([a1; ARecv err1 rx; ATime now] ++ t). split.
  - rewrite Ht, <- !app_assoc. reflexivity.
  - apply Forall_app. split; [|exact HF]. repeat constructor. exact Ha1.
Qed.

(** X28: before the socket is opened, [nmrp_do] turns down an unimplemented
    operation, an argument that does not parse and a file it cannot read
    with 1, and has done nothing to the world. *)
Theorem nmrp_do_rejects_arguments fuel env args w :
  op_is_upload_fw args = false \/ mac args = None \/ ipaddr args = None \/
  ipmask args = None \/ file_readable args = false ->
  nmrp_do fuel env args w = Returns (1, w).
Proof.
  intros H. unfold nmrp_do.
  destruct (op_is_upload_fw args); [|reflexivity]. cbn [negb].
  destruct (mac args); [|reflexivity]. destruct (ipaddr args); [|reflexivity].
  destruct (ipmask args); [|reflexivity].
  destruct (file_readable args); [|reflexivity].
  destruct H as [H|[H|[H|[H|H]]]]; discriminate H.
Qed.

Lemma pkt_recv_codes q err rx q' :
  pkt_recv q = Returns (err, rx, q') -> 0 <= err <= 3.
Proof.
  destruct q as [|[d|e] q].
  - intros [= <- _ _]. lia.
  - rewrite pkt_recv_datagram. destruct (negb _); [intros [= <- _ _]; lia|].
    destruct (_ <? NMRP_MIN_PKT_LEN); [intros [= <- _ _]; lia|].
    cbv zeta. unfold recvfrom. destruct (Z.of_nat sizeof_nmrp_pkt <? _); [discriminate|].
    cbn [mbind exec_bind]. destruct (_ <? 0); [intros [= <- _ _]; lia|].
    destruct (negb _); [intros [= <- _ _]; lia|].
    intros H. apply bind_returns in H as [[r m] [_ H]]. injection H as <- _ _.
    destruct r; cbn; lia.
  - unfold pkt_recv, recvfrom. cbn [mbind exec_bind]. change (-1 <? 0) with true. cbv iota.
    destruct (e =? EAGAIN); intros [= <- _ _]; lia.
Qed.

Lemma pkt_recv_world_codes w err rx w' :
  pkt_recv_world w = Returns (err, rx, w') -> 0 <= err <= 3.
Proof.
  unfold pkt_recv_world. intros H. apply bind_returns in H as [[[e p] q] [Hr H]].
  injection H as <- _ _. by apply pkt_recv_codes in Hr.
Qed.

Lemma handle_code_result env args ip mask st rx w :
  match handle_code env args ip mask st rx w with
  | SwOut err w' => 0 <= err <= 3 \/ (err <> 0 /\ w' = log w (ATransfer err))
  | SwNext _ err _ => 0 <= err <= 3
  end.
Proof.
  unfold handle_code.
  destruct (_ =? NMRP_C_ADVERTISE); [left; lia|].
  destruct (_ =? NMRP_C_CONF_REQ); [lia|].
  destruct (_ =? NMRP_C_TFTP_UL_REQ).
  - destruct (5 <? _); [lia|]. unfold transfer.
    destruct (Z.eqb_spec (transfer_result env (count is_transfer (w_trace w))) 0) as [E|E].
    + lia.
    + right. split; [exact E|reflexivity].
  - repeat match goal with |- context [if ?c then _ else _] => destruct c end;
      try lia; left; lia.
Qed.

Lemma handshake_loop_result fuel env args ip mask st rx w err w' :
  handshake_loop fuel env args ip mask st rx w = Returns (err, w') ->
  0 <= err <= 3 \/ (err <> 0 /\ exists w0, w' = log w0 (ATransfer err)).
Proof.
  revert st rx w. induction fuel as [|fuel IH]; intros st rx w H; [discriminate|].
  rewrite handshake_loop_unfold in H. cbv zeta in H.
  pose proof (handle_code_result env args ip mask
                (set_tx_msg st (tx_reset (msg (tx st)))) rx w) as Hh.
  destruct (handle_code _ _ _ _ _ _ _) as [e w1|st1 e w1].
  { simplify_eq. destruct Hh as [?|[? ->]]; [by left|]. right. eauto. }
  apply bind_returns in H as [[[sent st2] w2] [_ H]].
  destruct (sent <? 0); [simplify_eq; by left|].
  destruct (msg_code (msg rx) =? NMRP_C_CLOSE_REQ); [simplify_eq; left; lia|].
  apply bind_returns in H as [[[err2 rx2] w3] [Hr H]].
  apply pkt_recv_world_codes in Hr.
  destruct (negb _); [simplify_eq; by left|]. eauto.
Qed.

Lemma advertise_loop_result fuel env src addr tx beg err w r :
  0 <= err <= 3 ->
  advertise_loop fuel env src addr tx beg err w = Returns r ->
  match r with AdvOut e _ => 0 <= e <= 3 | AdvBreak _ _ => True end.
Proof.
  revert err w. induction fuel as [|fuel IH]; intros err w He H; [discriminate|].
  cbn [advertise_loop] in H.
  apply bind_returns in H as [[sent w1] [_ H]].
  destruct (sent <? 0); [by simplify_eq|].
  apply bind_returns in H as [[[err1 rx] w2] [Hr H]].
  apply pkt_recv_world_codes in Hr.
  destruct (_ && _); [by simplify_eq|].
  destruct (err1 =? 1); [by simplify_eq|].
  destruct (time env w2) as [now w3].
  destruct (60 <=? now - beg); [by simplify_eq|].
  eapply IH; [|exact H]. exact Hr.
Qed.

(** X29: what [nmrp_do] returns is 0, 1, 2 or 3, or else the non-zero result of
    the transfer that ended the run (the socket is closed after it). *)
Theorem nmrp_do_result fuel env args w err w' :
  nmrp_do fuel env args w = Returns (err, w') ->
  0 <= err <= 3 \/
  (err <> 0 /\ exists w0, w' = log (log w0 (ATransfer err)) AClose).
Proof.
  unfold nmrp_do. intros H.
  destruct (negb (op_is_upload_fw args)); [simplify_eq; left; lia|].
  destruct (mac args) as [dest|]; [|simplify_eq; left; lia].
  destruct (ipaddr args) as [ip|]; [|simplify_eq; left; lia].
  destruct (ipmask args) as [mask|]; [|simplify_eq; left; lia].
  destruct (negb (file_readable args)); [simplify_eq; left; lia|].
  destruct (socket_fails env); [simplify_eq; left; lia|].
  destruct (intf_info env) as [src|]; [|simplify_eq; left; lia].
  destruct (bind_fails env); [simplify_eq; left; lia|].
  destruct (set_rx_timeout_fails env); [simplify_eq; left; lia|].
  apply bind_returns in H as [tx0 [_ H]]. unfold time in H.
  apply bind_returns in H as [r [Ha H]].
  apply advertise_loop_result in Ha; [|lia].
  destruct r as [rx w2|e w2].
  - apply bind_returns in H as [[e w3] [Hh H]].
    apply handshake_loop_result in Hh. injection H as <- <-.
    destruct Hh as [?|[? [w0 ->]]]; [by left|]. right. eauto.
  - injection H as <- _. by left.
Qed.


(** X30: [tx] starts as the advertisement, and what [pkt_send] puts on the wire
    for it is the 28-byte frame: destination, source, the Ethertype,
    the header with the length 14 and the magic-number option. *)
Theorem advertise_frame env w addr src dest :
  length src = ETH_ALEN -> length dest = ETH_ALEN ->
  exists tx0,
    advertise_pkt src dest = Returns tx0 /\
    pkt_send env w addr tx0
    = Returns (if sendto_fails env (count is_sendto (w_trace w)) then -1 else 28,
               log w (ASendto addr
                        (dest ++ src ++ [9; 18] ++ [0; 0; NMRP_C_ADVERTISE; 0; 0; 14]
                         ++ [0; 1; 0; 8; 78; 84; 71; 82])
                        (negb (sendto_fails env (count is_sendto (w_trace w)))))).
Proof.
  intros Hs Hd. unfold advertise_pkt. rewrite msg_encode_advertise.
  cbn [mbind exec_bind]. eexists. split; [reflexivity|].
  do 6 (destruct src as [|? src]; [discriminate Hs|]). destruct src; [|discriminate Hs].
  do 6 (destruct dest as [|? dest]; [discriminate Hd|]). destruct dest; [|discriminate Hd].
  reflexivity.
Qed.

Lemma advertise_frame_witness :
  length Scenario.local_hw = ETH_ALEN /\ length Scenario.broadcast_hw = ETH_ALEN /\
  exists tx0,
    advertise_pkt Scenario.local_hw Scenario.broadcast_hw = Returns tx0 /\
    pkt_send (Scenario.env_ok 1) (Scenario.world_of []) Scenario.broadcast_hw tx0
    = Returns (if sendto_fails (Scenario.env_ok 1)
                    (count is_sendto (w_trace (Scenario.world_of []))) then -1 else 28,
               log (Scenario.world_of [])
                 (ASendto Scenario.broadcast_hw
                    (Scenario.broadcast_hw ++ Scenario.local_hw ++ [9; 18]
                     ++ [0; 0; NMRP_C_ADVERTISE; 0; 0; 14] ++ [0; 1; 0; 8; 78; 84; 71; 82])
                    (negb (sendto_fails (Scenario.env_ok 1)
                             (count is_sendto (w_trace (Scenario.world_of []))))))).
Proof.
  split; [reflexivity|]. split; [reflexivity|].
  apply (advertise_frame (Scenario.env_ok 1) (Scenario.world_of []) Scenario.broadcast_hw
           Scenario.local_hw Scenario.broadcast_hw); reflexivity.
Defined.

(** ** Instances *)

Lemma msg_update_len_wraps_witness :
  length Cases.wrapping_msg = sizeof_nmrp_msg /\
  0 <= msg_num_opts Cases.wrapping_msg <= Z.of_nat opts_capacity /\
  exists m',
    msg_update_len Cases.wrapping_msg = Returns m' /\
    m' = set16 Cases.wrapping_msg len_off
           (NMRP_HDR_LEN
            + opts_len_sum Cases.wrapping_msg (Z.to_nat (msg_num_opts Cases.wrapping_msg))) /\
    msg_len m'
    = (NMRP_HDR_LEN
       + opts_len_sum Cases.wrapping_msg (Z.to_nat (msg_num_opts Cases.wrapping_msg)))
      mod 65536.
Proof.
  split; [reflexivity|]. split; [vm_compute; split; discriminate|].
  apply (msg_update_len_wraps Cases.wrapping_msg); [reflexivity|].
  vm_compute; split; discriminate.
Defined.

Lemma num_opts_beyond_capacity_witness :
  Z.of_nat opts_capacity < msg_num_opts Cases.three_opts_msg /\
  msg_update_len Cases.three_opts_msg = Undefined /\
  msg_hton Cases.three_opts_msg = Undefined.
Proof.
  split; [reflexivity|]. apply (num_opts_beyond_capacity Cases.three_opts_msg). reflexivity.
Defined.

Lemma msg_dump_walks_declared_lengths_witness :
  msg_dump 3 Scenario.two_opts_host true
    = Returns [(6%nat, 257, 4, []); (10%nat, 1, 8, [78; 84; 71; 82])] /\
  dump_chain (length Scenario.two_opts_host) opts_off
    [(6%nat, 257, 4, []); (10%nat, 1, 8, [78; 84; 71; 82])] /\
  msg_len Scenario.two_opts_host - NMRP_HDR_LEN
    <= dumped_len [(6%nat, 257, 4, []); (10%nat, 1, 8, [78; 84; 71; 82])].
Proof.
  split; [reflexivity|].
  apply (msg_dump_walks_declared_lengths 3 Scenario.two_opts_host). reflexivity.
Defined.


Lemma pkt_recv_short_frame_witness :
  ntohs (ether_type (peeked Cases.short_frame)) = ETH_P_NMRP /\
  Z.of_nat (length Cases.short_frame) < NMRP_MIN_PKT_LEN /\
  pkt_recv (Datagram Cases.short_frame :: [])
  = Returns (1, peeked Cases.short_frame, Datagram Cases.short_frame :: []).
Proof.
  split; [reflexivity|]. split; [reflexivity|].
  apply (pkt_recv_short_frame Cases.short_frame []); reflexivity.
Defined.

Lemma pkt_recv_truncated_witness :
  ntohs (ether_type (peeked Cases.truncated_frame)) = ETH_P_NMRP /\
  NMRP_MIN_PKT_LEN <= Z.of_nat (length Cases.truncated_frame) <= Z.of_nat sizeof_nmrp_pkt /\
  Z.of_nat (length Cases.truncated_frame)
    < declared_len Cases.truncated_frame + Z.of_nat ETH_HLEN /\
  exists pkt, pkt_recv (Datagram Cases.truncated_frame :: []) = Returns (1, pkt, []).
Proof.
  split; [reflexivity|]. split; [vm_compute; split; discriminate|]. split; [reflexivity|].
  apply (pkt_recv_truncated Cases.truncated_frame []);
    [reflexivity|vm_compute; split; discriminate|reflexivity].
Defined.

Lemma pkt_recv_overflow_witness :
  ntohs (ether_type (peeked Cases.oversized_frame)) = ETH_P_NMRP /\
  Z.of_nat sizeof_nmrp_pkt < Z.of_nat (length Cases.oversized_frame) /\
  Z.of_nat sizeof_nmrp_msg < declared_len Cases.oversized_frame /\
  pkt_recv (Datagram Cases.oversized_frame :: []) = Undefined.
Proof.
  split; [reflexivity|]. split; [reflexivity|]. split; [reflexivity|].
  apply (pkt_recv_overflow Cases.oversized_frame []); reflexivity.
Defined.

Lemma pkt_recv_success_witness :
  pkt_recv [Datagram Scenario.magic_frame]
  = Returns (0, {| eh := Scenario.local_hw ++ Scenario.device_hw ++ [9; 18];
                   msg := [0; 0; 2; 0; 14; 0; 1; 0; 8; 0; 78; 84; 71; 82]
                          ++ repeat 0 20%nat |}, []) /\
  exists d,
    [Datagram Scenario.magic_frame] = Datagram d :: [] /\
    ntohs (ether_type (peeked d)) = ETH_P_NMRP /\
    declared_len d + Z.of_nat ETH_HLEN <= Z.of_nat (length d) /\
    declared_len d <= Z.of_nat sizeof_nmrp_msg /\
    eh {| eh := Scenario.local_hw ++ Scenario.device_hw ++ [9; 18];
          msg := [0; 0; 2; 0; 14; 0; 1; 0; 8; 0; 78; 84; 71; 82] ++ repeat 0 20%nat |}
    = take ETH_HLEN d.
Proof.
  split; [reflexivity|].
  apply (pkt_recv_success [Datagram Scenario.magic_frame] []). reflexivity.
Defined.

Lemma pkt_recv_timeout_or_foreign_witness :
  pkt_recv [Datagram Scenario.ipv4_frame; Scenario.conf_req]
  = Returns (3, peeked Scenario.ipv4_frame, [Datagram Scenario.ipv4_frame; Scenario.conf_req]) /\
  (3 = 2 -> ([Datagram Scenario.ipv4_frame; Scenario.conf_req] = [] /\
             [Datagram Scenario.ipv4_frame; Scenario.conf_req] = []) \/
            [Datagram Scenario.ipv4_frame; Scenario.conf_req]
            = RecvError EAGAIN :: [Datagram Scenario.ipv4_frame; Scenario.conf_req]) /\
  (3 = 3 -> [Datagram Scenario.ipv4_frame; Scenario.conf_req]
            = [Datagram Scenario.ipv4_frame; Scenario.conf_req] /\
            exists d qt, [Datagram Scenario.ipv4_frame; Scenario.conf_req] = Datagram d :: qt /\
                         ntohs (ether_type (peeked d)) <> ETH_P_NMRP).
Proof.
  split; [reflexivity|].
  apply (pkt_recv_timeout_or_foreign [Datagram Scenario.ipv4_frame; Scenario.conf_req]
           [Datagram Scenario.ipv4_frame; Scenario.conf_req] 3 (peeked Scenario.ipv4_frame)).
  reflexivity.
Defined.


Lemma close_ack_or_advertise_ends_witness :
  (msg_code (msg (Cases.rx_of NMRP_C_CLOSE_ACK)) = NMRP_C_CLOSE_ACK \/
   msg_code (msg (Cases.rx_of NMRP_C_CLOSE_ACK)) = NMRP_C_ADVERTISE) /\
  handshake_loop 1 (Scenario.env_ok 1) Scenario.args_ok Cases.ip Cases.mask
    Scenario.session_await_ul (Cases.rx_of NMRP_C_CLOSE_ACK) (Scenario.world_of [])
  = Returns (if msg_code (msg (Cases.rx_of NMRP_C_CLOSE_ACK)) =? NMRP_C_CLOSE_ACK
             then 0 else 1, Scenario.world_of []).
Proof.
  split; [left; reflexivity|].
  apply (close_ack_or_advertise_ends 0 (Scenario.env_ok 1) Scenario.args_ok Cases.ip
           Cases.mask Scenario.session_await_ul (Cases.rx_of NMRP_C_CLOSE_ACK)).
  left. reflexivity.
Defined.



Lemma ul_req_over_limit_witness :
  msg_code (msg (Cases.rx_of NMRP_C_TFTP_UL_REQ)) = NMRP_C_TFTP_UL_REQ /\
  5 <= ulreqs Cases.session_exhausted /\ wf_pkt (tx Cases.session_exhausted) /\
  handle_code (Scenario.env_ok 1) Scenario.args_ok Cases.ip Cases.mask
    Cases.session_exhausted (Cases.rx_of NMRP_C_TFTP_UL_REQ)
    (Scenario.world_of [Scenario.close_ack])
  = SwNext {| expect := expect Cases.session_exhausted;
              ulreqs := ulreqs Cases.session_exhausted + 1;
              peer := peer Cases.session_exhausted;
              tx := set_msg (tx Cases.session_exhausted)
                      (set8 (msg (tx Cases.session_exhausted)) code_off NMRP_C_CLOSE_REQ) |}
           1 (Scenario.world_of [Scenario.close_ack]) /\
  handshake_loop 2 (Scenario.env_ok 1) Scenario.args_ok Cases.ip Cases.mask
    Cases.session_exhausted (Cases.rx_of NMRP_C_TFTP_UL_REQ)
    (Scenario.world_of [Scenario.close_ack])
  = if sendto_fails (Scenario.env_ok 1)
         (count is_sendto (w_trace (Scenario.world_of [Scenario.close_ack])))
    then
      Returns (1, log (Scenario.world_of [Scenario.close_ack])
                 (ASendto (peer Cases.session_exhausted)
                    (eh (tx Cases.session_exhausted) ++ [0; 0; NMRP_C_CLOSE_REQ; 0; 0; 6])
                    false))
    else
      receive_next 1 (Scenario.env_ok 1) Scenario.args_ok Cases.ip Cases.mask
        {| expect := expect Cases.session_exhausted;
           ulreqs := ulreqs Cases.session_exhausted + 1;
           peer := peer Cases.session_exhausted;
           tx := {| eh := eh (tx Cases.session_exhausted);
                    msg := [0; 0; NMRP_C_CLOSE_REQ; 0; 0; 6]
                           ++ take 24 (drop 6 (msg (tx Cases.session_exhausted)))
                           ++ [0; 0; 0; 0] |} |}
        (log (Scenario.world_of [Scenario.close_ack])
           (ASendto (peer Cases.session_exhausted)
              (eh (tx Cases.session_exhausted) ++ [0; 0; NMRP_C_CLOSE_REQ; 0; 0; 6])
              true)).
Proof.
  split; [reflexivity|]. split; [vm_compute; discriminate|]. split; [split; reflexivity|].
  apply (ul_req_over_limit 1 (Scenario.env_ok 1) Scenario.args_ok Cases.ip Cases.mask
           Cases.session_exhausted (Cases.rx_of NMRP_C_TFTP_UL_REQ)
           (Scenario.world_of [Scenario.close_ack]));
    [reflexivity|vm_compute; discriminate|split; reflexivity].
Defined.

Lemma nmrp_do_at_most_five_transfers_witness :
  nmrp_do 4 (Scenario.env_ok 1) Scenario.args_ok Cases.happy_start
    = Returns (0, Cases.happy_end) /\
  (transfers Cases.happy_end <= transfers Cases.happy_start + 5)%nat.
Proof.
  split; [vm_compute; reflexivity|].
  apply (nmrp_do_at_most_five_transfers 4 (Scenario.env_ok 1) Scenario.args_ok
           Cases.happy_start 0 Cases.happy_end). vm_compute. reflexivity.
Defined.

Lemma nmrp_do_transfers_are_requested_witness :
  nmrp_do 4 (Scenario.env_ok 1) Scenario.args_ok Cases.happy_start
    = Returns (0, Cases.happy_end) /\
  (transfers Cases.happy_end + ul_reqs Cases.happy_start
   <= transfers Cases.happy_start + ul_reqs Cases.happy_end)%nat.
Proof.
  split; [vm_compute; reflexivity|].
  apply (nmrp_do_transfers_are_requested 4 (Scenario.env_ok 1) Scenario.args_ok
           Cases.happy_start 0 Cases.happy_end). vm_compute. reflexivity.
Defined.

Lemma nmrp_do_terminates_witness :
  (forall i, (0 <= i)%nat ->
     60 <= clock (Scenario.env_ok 60) (S (count is_time (w_trace Cases.happy_start)) + i)
           - clock (Scenario.env_ok 60) (count is_time (w_trace Cases.happy_start))) /\
  (0 < 4)%nat /\ (length (w_rxq Cases.happy_start) < 4)%nat /\
  nmrp_do 4 (Scenario.env_ok 60) Scenario.args_ok Cases.happy_start <> OutOfFuel.
Proof.
  assert (H : forall i, (0 <= i)%nat ->
     60 <= clock (Scenario.env_ok 60) (S (count is_time (w_trace Cases.happy_start)) + i)
           - clock (Scenario.env_ok 60) (count is_time (w_trace Cases.happy_start))).
  { intros i _. unfold Scenario.env_ok, Cases.happy_start, Scenario.world_of.
    cbn [clock w_trace]. change (count is_time []) with 0%nat. lia. }
  split; [exact H|]. split; [lia|]. split; [simpl; lia|].
  apply (nmrp_do_terminates 0 4 (Scenario.env_ok 60) Scenario.args_ok Cases.happy_start);
    [exact H|lia|simpl; lia].
Defined.

Lemma nmrp_do_closes_after_setup_witness :
  op_is_upload_fw Scenario.args_ok = true /\
  mac Scenario.args_ok = Some Scenario.broadcast_hw /\
  ipaddr Scenario.args_ok = Some Cases.ip /\ ipmask Scenario.args_ok = Some Cases.mask /\
  file_readable Scenario.args_ok = true /\
  socket_fails (Scenario.env_ok 1) = false /\
  intf_info (Scenario.env_ok 1) = Some Scenario.local_hw /\
  bind_fails (Scenario.env_ok 1) = false /\
  set_rx_timeout_fails (Scenario.env_ok 1) = false /\
  nmrp_do 4 (Scenario.env_ok 1) Scenario.args_ok Cases.happy_start
    = Returns (0, Cases.happy_end) /\
  closes Cases.happy_end = S (closes Cases.happy_start).
Proof.
  do 9 (split; [reflexivity|]). split; [vm_compute; reflexivity|].
  apply (nmrp_do_closes_after_setup 4 (Scenario.env_ok 1) Scenario.args_ok
           Cases.happy_start 0 Cases.happy_end Scenario.local_hw Scenario.broadcast_hw
           Cases.ip Cases.mask); reflexivity.
Defined.


Lemma advertise_loop_break_for_us_witness :
  advertise_loop 1 (Scenario.env_ok 1) Scenario.local_hw Scenario.broadcast_hw
    Cases.advertise_tx 0 1 (Scenario.world_of [Scenario.conf_req])
    = Returns (AdvBreak (Cases.rx_of NMRP_C_CONF_REQ) Cases.advertised_end) /\
  take ETH_ALEN (ether_dhost (Cases.rx_of NMRP_C_CONF_REQ))
    = take ETH_ALEN Scenario.local_hw.
Proof.
  split; [vm_compute; reflexivity|].
  apply (advertise_loop_break_for_us 1 (Scenario.env_ok 1) Scenario.local_hw
           Scenario.broadcast_hw Cases.advertise_tx 0 1
           (Scenario.world_of [Scenario.conf_req]) (Cases.rx_of NMRP_C_CONF_REQ)
           Cases.advertised_end).
  vm_compute. reflexivity.
Defined.

Lemma advertise_loop_only_advertises_witness :
  advertise_loop 1 (Scenario.env_ok 1) Scenario.local_hw Scenario.broadcast_hw
    Cases.advertise_tx 0 1 (Scenario.world_of [Scenario.conf_req])
    = Returns (AdvBreak (Cases.rx_of NMRP_C_CONF_REQ) Cases.advertised_end) /\
  exists t,
    w_trace (adv_world (AdvBreak (Cases.rx_of NMRP_C_CONF_REQ) Cases.advertised_end))
      = w_trace (Scenario.world_of [Scenario.conf_req]) ++ t /\
    Forall (advertising Scenario.broadcast_hw
              (take (Z.to_nat (ntohs (msg_len (msg Cases.advertise_tx))) + ETH_HLEN)
                 (pkt_bytes Cases.advertise_tx))) t.
Proof.
  split; [vm_compute; reflexivity|].
  apply (advertise_loop_only_advertises 1 (Scenario.env_ok 1) Scenario.local_hw
           Scenario.broadcast_hw Cases.advertise_tx 0 1
           (Scenario.world_of [Scenario.conf_req])
           (AdvBreak (Cases.rx_of NMRP_C_CONF_REQ) Cases.advertised_end)).
  vm_compute. reflexivity.
Defined.

Lemma nmrp_do_rejects_arguments_witness :
  (op_is_upload_fw Cases.args_no_file = false \/ mac Cases.args_no_file = None \/
   ipaddr Cases.args_no_file = None \/ ipmask Cases.args_no_file = None \/
   file_readable Cases.args_no_file = false) /\
  nmrp_do 4 (Scenario.env_ok 1) Cases.args_no_file Cases.happy_start
  = Returns (1, Cases.happy_start).
Proof.
  split; [do 4 right; reflexivity|].
  apply (nmrp_do_rejects_arguments 4 (Scenario.env_ok 1) Cases.args_no_file
           Cases.happy_start).
  do 4 right. reflexivity.
Defined.

Lemma nmrp_do_result_witness :
  nmrp_do 4 (Scenario.env_ok 1) Scenario.args_ok Cases.happy_start
    = Returns (0, Cases.happy_end) /\
  (0 <= 0 <= 3 \/
   (0 <> 0 /\ exists w0, Cases.happy_end = log (log w0 (ATransfer 0)) AClose)).
Proof.
  split; [vm_compute; reflexivity|].
  apply (nmrp_do_result 4 (Scenario.env_ok 1) Scenario.args_ok Cases.happy_start 0
           Cases.happy_end).
  vm_compute. reflexivity.
Defined.
